(** * Webhook event relay: ingestion, admin surface and delivery worker

    A shallow embedding of the backend of the relay (the Express
    controllers, the webhook service, the BullMQ worker and the security
    utilities) together with the properties of its relay pipeline.

    Layout: the JavaScript values the handlers inspect ([Js]), the
    runtime services the code calls but does not define ([Platform]),
    the rows, the queue jobs and the Prisma client ([Prisma]), then one
    module per source file, a platform to run the model on ([Sample]),
    the vocabulary of the properties, and finally the lemmas. *)

From Stdlib Require Import ZArith List Bool String Ascii Lia.
From Stdlib Require Import DecimalString DecimalZ Sorted Permutation.
Import ListNotations.
Local Open Scope string_scope.
Local Open Scope Z_scope.
Local Open Scope list_scope.
Set Warnings "-register-all".
Set Implicit Arguments.

(* ===================================================================== *)
(** ** JavaScript strings and values *)
(* ===================================================================== *)

Module Js.

(** A JavaScript string is a sequence of UTF-16 code units; [length] of
    the list is the [.length] of the string. *)
Definition jsstring := list Z.

Definition unit_of_ascii (a : ascii) : Z := Z.of_N (N_of_ascii a).

(** String literals of the source. *)
Definition js (s : string) : jsstring :=
  map unit_of_ascii (list_ascii_of_string s).

Fixpoint str_eqb (a b : jsstring) : bool :=
  match a, b with
  | [], [] => true
  | x :: a', y :: b' => (x =? y) && str_eqb a' b'
  | _, _ => false
  end.

(** [s.length], as an integer. *)
Definition str_length (s : jsstring) : Z := Z.of_nat (List.length s).

Fixpoint startsWith (s prefix : jsstring) : bool :=
  match prefix, s with
  | [], _ => true
  | p :: prefix', c :: s' => (c =? p) && startsWith s' prefix'
  | _ :: _, [] => false
  end.

(** [s.includes(needle)]. *)
Fixpoint includes (s needle : jsstring) : bool :=
  startsWith s needle ||
  match s with
  | [] => false
  | _ :: s' => includes s' needle
  end.

(** [s.substring(0, n)] for a non-negative [n]. *)
Definition substring0 (s : jsstring) (n : nat) : jsstring := firstn n s.

(** WhiteSpace and LineTerminator code points, the ones [trim] strips. *)
Definition is_space (c : Z) : bool :=
  ((9 <=? c) && (c <=? 13)) || (c =? 32) || (c =? 160) || (c =? 5760)
  || ((8192 <=? c) && (c <=? 8202)) || (c =? 8232) || (c =? 8233)
  || (c =? 8239) || (c =? 8287) || (c =? 12288) || (c =? 65279).

Fixpoint trimStart (s : jsstring) : jsstring :=
  match s with
  | c :: s' => if is_space c then trimStart s' else s
  | [] => []
  end.

Definition trim (s : jsstring) : jsstring :=
  rev (trimStart (rev (trimStart s))).

(** Number.prototype.toString for an integer. *)
Definition decimal (z : Z) : jsstring :=
  js (NilZero.string_of_int (Z.to_int z)).

Definition hex_digit (d : Z) : Z :=
  if d <? 10 then 48 + d else 87 + d.

(** Two lowercase hexadecimal digits of a byte. *)
Definition hex_byte (b : Z) : jsstring :=
  [hex_digit (Z.land (Z.shiftr b 4) 15); hex_digit (Z.land b 15)].

(** [Buffer.toString('hex')]. *)
Definition hex (bytes : list Z) : jsstring := flat_map hex_byte bytes.

Definition is_lower_hex (c : Z) : bool :=
  ((48 <=? c) && (c <=? 57)) || ((97 <=? c) && (c <=? 102)).

Definition is_high_surrogate (c : Z) : bool := (55296 <=? c) && (c <=? 56319).
Definition is_low_surrogate (c : Z) : bool := (56320 <=? c) && (c <=? 57343).

(** [Buffer.byteLength(s, 'utf8')]: the size of the string once encoded
    as UTF-8; a surrogate pair is one four-byte code point and a lone
    surrogate is replaced by U+FFFD (three bytes). *)
Fixpoint utf8_length (s : jsstring) : Z :=
  match s with
  | [] => 0
  | c :: s' =>
      if is_high_surrogate c then
        match s' with
        | d :: s'' =>
            if is_low_surrogate d then 4 + utf8_length s''
            else 3 + utf8_length s'
        | [] => 3
        end
      else if c <? 128 then 1 + utf8_length s'
      else if c <? 2048 then 2 + utf8_length s'
      else 3 + utf8_length s'
  end.

(** The values a parsed JSON body, a Prisma [Json] column or an axios
    response can hold.  A number is carried by the text that
    Number::toString gives it ("0" for both zeros, "NaN", "Infinity"
    and "-Infinity" for the numbers that are not finite); the
    properties of an object are kept in insertion order, with distinct
    names. *)
Inductive JsValue : Type :=
| JUndefined
| JNull
| JBool (b : bool)
| JNumber (text : jsstring)
| JString (s : jsstring)
| JArray (items : list JsValue)
| JObject (props : list (jsstring * JsValue)).

Inductive JsType := TUndefined | TObject | TBoolean | TNumber | TString.

Definition typeof (v : JsValue) : JsType :=
  match v with
  | JUndefined => TUndefined
  | JNull | JArray _ | JObject _ => TObject
  | JBool _ => TBoolean
  | JNumber _ => TNumber
  | JString _ => TString
  end.

Definition JsType_eqb (a b : JsType) : bool :=
  match a, b with
  | TUndefined, TUndefined | TObject, TObject | TBoolean, TBoolean
  | TNumber, TNumber | TString, TString => true
  | _, _ => false
  end.

(** The text of a number that is not finite. *)
Definition non_finite (t : jsstring) : bool :=
  str_eqb t (js "NaN") || str_eqb t (js "Infinity") || str_eqb t (js "-Infinity").

(** ToBoolean: the zeros and NaN are the false numbers. *)
Definition truthy (v : JsValue) : bool :=
  match v with
  | JUndefined | JNull => false
  | JBool b => b
  | JNumber t => negb (str_eqb t (js "0") || str_eqb t (js "NaN"))
  | JString s => negb (str_eqb s [])
  | JArray _ | JObject _ => true
  end.

Fixpoint assoc (k : jsstring) (ps : list (jsstring * JsValue)) : option JsValue :=
  match ps with
  | [] => None
  | (k', v) :: ps' => if str_eqb k' k then Some v else assoc k ps'
  end.

(** Property read [v.name] (or the destructuring [{name} = v]) on a value
    that is not null or undefined; a missing property is [undefined]. *)
Definition get (v : JsValue) (name : string) : JsValue :=
  match v with
  | JObject ps =>
      match assoc (js name) ps with Some x => x | None => JUndefined end
  | _ => JUndefined
  end.

Definition JNum (z : Z) : JsValue := JNumber (decimal z).
Definition JStr (s : string) : JsValue := JString (js s).

(** The object literal [{ name: value, ... }]. *)
Definition obj (ps : list (string * JsValue)) : JsValue :=
  JObject (map (fun p => (js (fst p), snd p)) ps).

(** *** JSON.stringify *)

(** [\uXXXX] with lowercase hexadecimal digits. *)
Definition unicode_escape (c : Z) : jsstring :=
  js "\u" ++ hex_byte (Z.shiftr c 8) ++ hex_byte (Z.land c 255).

Definition quote_unit (c : Z) : jsstring :=
  if c =? 8 then js "\b"
  else if c =? 9 then js "\t"
  else if c =? 10 then js "\n"
  else if c =? 12 then js "\f"
  else if c =? 13 then js "\r"
  else if c =? 34 then [92; 34]
  else if c =? 92 then [92; 92]
  else if c <? 32 then unicode_escape c
  else [c].

(** The body of QuoteJSONString: control characters, the quote and the
    backslash are escaped, lone surrogates become [\udxxx], every other
    code point is copied. *)
Fixpoint quote_units (s : jsstring) : jsstring :=
  match s with
  | [] => []
  | c :: s' =>
      if is_high_surrogate c then
        match s' with
        | d :: s'' =>
            if is_low_surrogate d then c :: d :: quote_units s''
            else unicode_escape c ++ quote_units s'
        | [] => unicode_escape c
        end
      else if is_low_surrogate c then unicode_escape c ++ quote_units s'
      else quote_unit c ++ quote_units s'
  end.

Definition quote (s : jsstring) : jsstring := [34] ++ quote_units s ++ [34].

Fixpoint join (sep : jsstring) (parts : list jsstring) : jsstring :=
  match parts with
  | [] => []
  | [p] => p
  | p :: rest => p ++ sep ++ join sep rest
  end.

(** SerializeJSONProperty without indentation: [None] is the
    [undefined] that the algorithm returns for an [undefined] value.
    Inside an array [undefined] prints as null, inside an object the
    property is left out; a number that is not finite prints as
    null. *)
Fixpoint serialize (v : JsValue) : option jsstring :=
  match v with
  | JUndefined => None
  | JNull => Some (js "null")
  | JBool true => Some (js "true")
  | JBool false => Some (js "false")
  | JNumber t => Some (if non_finite t then js "null" else t)
  | JString s => Some (quote s)
  | JArray xs =>
      Some (js "[" ++
            join (js ",")
              (map (fun x => match serialize x with
                             | Some t => t
                             | None => js "null"
                             end) xs)
            ++ js "]")
  | JObject ps =>
      Some (js "{" ++
            join (js ",")
              (flat_map (fun p => match serialize (snd p) with
                                  | Some t => [quote (fst p) ++ js ":" ++ t]
                                  | None => []
                                  end) ps)
            ++ js "}")
  end.

Definition JSON_stringify : JsValue -> option jsstring := serialize.

(** *** Buffer.from(s, 'hex') and parseInt *)

Definition hex_value (c : Z) : option Z :=
  if (48 <=? c) && (c <=? 57) then Some (c - 48)
  else if (97 <=? c) && (c <=? 102) then Some (c - 87)
  else if (65 <=? c) && (c <=? 70) then Some (c - 55)
  else None.

(** [Buffer.from(s, 'hex')]: the decoder reads the low byte of each
    code unit; pairs of hexadecimal digits (either case) are decoded up
    to the first pair that is not one; a last unpaired character is
    dropped. *)
Fixpoint from_hex (s : jsstring) : list Z :=
  match s with
  | a :: b :: rest =>
      match hex_value (a mod 256), hex_value (b mod 256) with
      | Some x, Some y => (16 * x + y) :: from_hex rest
      | _, _ => []
      end
  | _ => []
  end.

(** The decimal numeral made of the leading digits of the string. *)
Fixpoint decimal_prefix (s : jsstring) : Decimal.uint :=
  match s with
  | c :: s' =>
      if c =? 48 then Decimal.D0 (decimal_prefix s')
      else if c =? 49 then Decimal.D1 (decimal_prefix s')
      else if c =? 50 then Decimal.D2 (decimal_prefix s')
      else if c =? 51 then Decimal.D3 (decimal_prefix s')
      else if c =? 52 then Decimal.D4 (decimal_prefix s')
      else if c =? 53 then Decimal.D5 (decimal_prefix s')
      else if c =? 54 then Decimal.D6 (decimal_prefix s')
      else if c =? 55 then Decimal.D7 (decimal_prefix s')
      else if c =? 56 then Decimal.D8 (decimal_prefix s')
      else if c =? 57 then Decimal.D9 (decimal_prefix s')
      else Decimal.Nil
  | [] => Decimal.Nil
  end.

(** The hexadecimal numeral made of the leading hexadecimal digits. *)
Fixpoint hex_prefix (s : jsstring) : Hexadecimal.uint :=
  match s with
  | c :: s' =>
      if c =? 48 then Hexadecimal.D0 (hex_prefix s')
      else if c =? 49 then Hexadecimal.D1 (hex_prefix s')
      else if c =? 50 then Hexadecimal.D2 (hex_prefix s')
      else if c =? 51 then Hexadecimal.D3 (hex_prefix s')
      else if c =? 52 then Hexadecimal.D4 (hex_prefix s')
      else if c =? 53 then Hexadecimal.D5 (hex_prefix s')
      else if c =? 54 then Hexadecimal.D6 (hex_prefix s')
      else if c =? 55 then Hexadecimal.D7 (hex_prefix s')
      else if c =? 56 then Hexadecimal.D8 (hex_prefix s')
      else if c =? 57 then Hexadecimal.D9 (hex_prefix s')
      else if (c =? 97) || (c =? 65) then Hexadecimal.Da (hex_prefix s')
      else if (c =? 98) || (c =? 66) then Hexadecimal.Db (hex_prefix s')
      else if (c =? 99) || (c =? 67) then Hexadecimal.Dc (hex_prefix s')
      else if (c =? 100) || (c =? 68) then Hexadecimal.Dd (hex_prefix s')
      else if (c =? 101) || (c =? 69) then Hexadecimal.De (hex_prefix s')
      else if (c =? 102) || (c =? 70) then Hexadecimal.Df (hex_prefix s')
      else Hexadecimal.Nil
  | [] => Hexadecimal.Nil
  end.

(** [parseInt(s)] without a radix: leading white space is skipped, a
    sign is read, [0x] or [0X] selects radix 16, and the leading digits
    give the value; [None] is NaN (no digit).  The value is the exact
    integer (a double holds it exactly below 2^53). *)
Definition parseInt (s : jsstring) : option Z :=
  let t := trimStart s in
  let signed :=
    match t with
    | 45 :: r => (true, r)
    | 43 :: r => (false, r)
    | _ => (false, t)
    end in
  let magnitude :=
    match snd signed with
    | 48 :: 120 :: r | 48 :: 88 :: r =>
        match hex_prefix r with
        | Hexadecimal.Nil => None
        | h => Some (Z.of_hex_uint h)
        end
    | r =>
        match decimal_prefix r with
        | Decimal.Nil => None
        | d => Some (Z.of_uint d)
        end
    end in
  match magnitude with
  | Some m => Some (if fst signed then - m else m)
  | None => None
  end.

End Js.

Import Js.

(* ===================================================================== *)
(** ** Runtime services, environment and errors *)
(* ===================================================================== *)

(** What a handler reads from outside at one of its suspension points:
    the clock ([Date.now()], in milliseconds), whether the Redis
    connection accepts commands, the random generator ([random i] is
    the i-th byte it gives next) and the [MAX_RETRY_ATTEMPTS] variable
    of the process environment. *)
Record Env := mkEnv {
  now : Z;
  redis_up : bool;
  random : nat -> Z;
  MAX_RETRY_ATTEMPTS : option nat
}.

(** [crypto.randomBytes(size)]: the next [size] bytes of the
    generator. *)
Definition randomBytes (env : Env) (size : nat) : list Z :=
  map (fun i => random env i mod 256) (seq 0 size).

Record HttpResponse := mkHttpResponse {
  resp_status : Z;
  resp_data : JsValue
}.

(** A thrown [Error]: its [message] and, for an axios error raised by a
    response with a rejected status, the [response]. *)
Record JsError := mkError {
  message : jsstring;
  response : option HttpResponse
}.

Definition Error (msg : jsstring) : JsError := mkError msg None.

Inductive Result (A : Type) : Type :=
| Ok (a : A)
| Throw (e : JsError).
Arguments Ok {A} a.
Arguments Throw {A} e.

(** What the code takes from Node and from the database engine without
    defining it: the keyed hash of [crypto.createHmac('sha256', key)]
    (raw digest bytes), [Date.prototype.toISOString], the WHATWG URL
    parser (the [protocol] of [new URL(x)], [None] when the constructor
    throws), the identifiers that [@default(uuid())] hands out, and
    what the Prisma client makes of a value that is not a string (not a
    boolean) given for a String (Boolean) column in the data of an
    [update], an update-operation object such as [{ set: v }] say: the
    value to write, no change, or a validation error. *)
Class Platform := {
  hmac_sha256 : jsstring -> jsstring -> list Z;
  toISOString : Z -> jsstring;
  URL_protocol : JsValue -> option jsstring;
  uuid : nat -> jsstring;
  string_update_operation : JsValue -> Result (option jsstring);
  bool_update_operation : JsValue -> Result (option bool)
}.

(** [res.status(code).json(body)]. *)
Record Response := mkResponse {
  status : Z;
  body : JsValue
}.

Definition code_of (r : Response) : JsValue := get (body r) "code".

(* ===================================================================== *)
(** ** Persistent rows and queue jobs *)
(* ===================================================================== *)

Module Event.
Record t := mk {
  id : jsstring;
  idempotency_key : jsstring;
  event_type : jsstring;
  payload : JsValue;
  received_at : Z
}.
End Event.

Module Subscription.
Record t := mk {
  id : jsstring;
  event_type : jsstring;
  target_url : jsstring;
  secret_key : jsstring;
  is_active : bool;
  created_at : Z;
  updated_at : Z
}.
End Subscription.

Module DeliveryLog.
Inductive Status := pending | success | failed.

Definition Status_eqb (a b : Status) : bool :=
match a, b with
| pending, pending | success, success | failed, failed => true
| _, _ => false
end.

Record t := mk {
id : jsstring;
event_id : jsstring;
subscription_id : jsstring;
status : Status;
attempt_count : Z;
attempted_at : Z;
response_status_code : option Z;
response_body : option jsstring;
error_message : option jsstring
}.
End DeliveryLog.

Module Job.
(** The [data] of the two jobs of the 'webhook-delivery' queue, told
    apart by their [type] field. *)
Inductive Data :=
| process_webhook_deliveries (eventId eventType : jsstring)
| deliver_webhook (eventId subscriptionId : jsstring).

(** A job with the options it was added with and the number of
  attempts the queue has already made. *)
Record t := mk {
data : Data;
attempts : nat;
backoff_delay : Z;
attemptsMade : nat
}.
End Job.

(** The database tables in insertion order, the queue, and the number of
    identifiers generated so far. *)
Record World := mkWorld {
  events : list Event.t;
  subscriptions : list Subscription.t;
  delivery_logs : list DeliveryLog.t;
  queue : list Job.t;
  next_uuid : nat
}.

(* ===================================================================== *)
(** ** Stateful, throwing computations *)
(* ===================================================================== *)

(** An [async] function body between two points: it reads and writes the
    world and either returns or throws; writes made before a throw
    stay. *)
Definition M (A : Type) : Type := World -> Result A * World.

Definition ret {A} (a : A) : M A := fun w => (Ok a, w).

Definition throw {A} (e : JsError) : M A := fun w => (Throw e, w).

Definition bind {A B} (c : M A) (k : A -> M B) : M B :=
  fun w =>
    match c w with
    | (Ok a, w') => k a w'
    | (Throw e, w') => (Throw e, w')
    end.

(** [try { c } catch (e) { h e }]. *)
Definition try_catch {A} (c : M A) (h : JsError -> M A) : M A :=
  fun w =>
    match c w with
    | (Ok a, w') => (Ok a, w')
    | (Throw e, w') => h e w'
    end.

Declare Scope js_scope.
Delimit Scope js_scope with js.
Notation "x <- c ;; k" := (bind c (fun x => k))
  (at level 61, c at next level, right associativity) : js_scope.
Notation "c ;;; k" := (bind c (fun _ => k))
  (at level 61, right associativity) : js_scope.
Local Open Scope js_scope.

(** A handler whose outermost statement is a [try]/[catch] that returns
    in every branch never throws. *)
Definition respond (c : M Response) (h : JsError -> Response) : World -> Response * World :=
  fun w =>
    match c w with
    | (Ok r, w') => (r, w')
    | (Throw e, w') => (h e, w')
    end.

(** A scalar string argument of a Prisma query ([create] data, an
    equality in [where]): any other value fails the client's validation
    before the query is sent (filter objects in [where] are not
    modelled). *)
Definition string_arg (v : JsValue) : M jsstring :=
  match v with
  | JString s => ret s
  | _ => throw (Error (js "Invalid value provided. Expected String."))
  end.

(** Destructuring [const { ... } = v] throws on null and undefined. *)
Definition destructure (v : JsValue) : M JsValue :=
  match v with
  | JUndefined | JNull =>
      throw (Error (js "Cannot destructure property of null or undefined"))
  | _ => ret v
  end.

(* ===================================================================== *)
(** ** The Prisma client (config/prisma) *)
(* ===================================================================== *)

(** The tables are lists of rows in insertion order and every query is
    answered: a query fails only as the client documents for its
    arguments and for the rows it finds (a value of the wrong type, the
    unique index on [idempotency_key], a row to update or delete that
    is not there).  A database that cannot be reached is outside the
    model, so the handlers' answers to such failures are not reached
    here. *)
Module Prisma.
Section WithPlatform.
Context `{Platform}.

Definition set_events (w : World) (l : list Event.t) : World :=
  mkWorld l (subscriptions w) (delivery_logs w) (queue w) (next_uuid w).
Definition set_subscriptions (w : World) (l : list Subscription.t) : World :=
  mkWorld (events w) l (delivery_logs w) (queue w) (next_uuid w).
Definition set_delivery_logs (w : World) (l : list DeliveryLog.t) : World :=
  mkWorld (events w) (subscriptions w) l (queue w) (next_uuid w).
Definition set_queue (w : World) (l : list Job.t) : World :=
  mkWorld (events w) (subscriptions w) (delivery_logs w) l (next_uuid w).

(** [@default(uuid())]: the next identifier. *)
Definition fresh_id : M jsstring :=
  fun w =>
    (Ok (uuid (next_uuid w)),
     mkWorld (events w) (subscriptions w) (delivery_logs w) (queue w)
       (S (next_uuid w))).

(** *** event *)

Definition has_key (k : jsstring) (e : Event.t) : bool :=
  str_eqb (Event.idempotency_key e) k.

(** [prisma.event.findUnique({ where: { idempotency_key } })]. *)
Definition event_findUnique_by_key (k : jsstring) : M (option Event.t) :=
  fun w => (Ok (find (has_key k) (events w)), w).

(** [prisma.event.findUnique({ where: { id } })]. *)
Definition event_findUnique (id : jsstring) : M (option Event.t) :=
  fun w => (Ok (find (fun e => str_eqb (Event.id e) id) (events w)), w).

Definition unique_constraint_failed : JsError :=
  Error (js "Unique constraint failed on the fields: (`idempotency_key`)").

(** [prisma.event.create]: the [@unique] index on [idempotency_key]
    rejects a second row with the same key. *)
Definition event_create (idempotency_key event_type : jsstring)
    (payload : JsValue) (received_at : Z) : M Event.t :=
  fun w =>
    if existsb (has_key idempotency_key) (events w)
    then (Throw unique_constraint_failed, w)
    else
      (id <- fresh_id ;;
       let e := Event.mk id idempotency_key event_type payload received_at in
       fun w' => (Ok e, set_events w' (events w' ++ [e]))) w.

(** *** subscription *)

Definition subscription_matches (event_type target_url : jsstring)
    (is_active : bool) (s : Subscription.t) : bool :=
  str_eqb (Subscription.event_type s) event_type
  && str_eqb (Subscription.target_url s) target_url
  && Bool.eqb (Subscription.is_active s) is_active.

(** [prisma.subscription.findFirst({ where: { event_type, target_url,
    is_active } })]. *)
Definition subscription_findFirst (event_type target_url : JsValue)
    (is_active : bool) : M (option Subscription.t) :=
  et <- string_arg event_type ;;
  url <- string_arg target_url ;;
  fun w => (Ok (find (subscription_matches et url is_active) (subscriptions w)), w).

(** [prisma.subscription.findMany({ where: { event_type, is_active } })]. *)
Definition subscription_findMany (event_type : jsstring) (is_active : bool)
    : M (list Subscription.t) :=
  fun w =>
    (Ok (filter (fun s => str_eqb (Subscription.event_type s) event_type
                          && Bool.eqb (Subscription.is_active s) is_active)
           (subscriptions w)), w).

(** [prisma.subscription.findUnique({ where: { id } })]. *)
Definition subscription_findUnique (id : jsstring) : M (option Subscription.t) :=
  fun w =>
    (Ok (find (fun s => str_eqb (Subscription.id s) id) (subscriptions w)), w).

(** [prisma.subscription.create({ data })]. *)
Definition subscription_create (event_type target_url : JsValue)
    (secret_key : jsstring) (is_active : bool) (created_at updated_at : Z)
    : M Subscription.t :=
  et <- string_arg event_type ;;
  url <- string_arg target_url ;;
  id <- fresh_id ;;
  let s := Subscription.mk id et url secret_key is_active created_at updated_at in
  fun w => (Ok s, set_subscriptions w (subscriptions w ++ [s])).

(** The [updateData] object: a field is present when the handler set
    it. *)
Record SubscriptionPatch := mkPatch {
  patch_updated_at : Z;
  patch_event_type : option JsValue;
  patch_target_url : option JsValue;
  patch_is_active : option JsValue
}.

(** A String column in the data of an [update]: a string is written;
    what any other value does is the client's reading of it
    ([string_update_operation]).  [None] leaves the column as it is. *)
Definition string_update (v : JsValue) : M (option jsstring) :=
  match v with
  | JString s => ret (Some s)
  | _ => fun w => (string_update_operation v, w)
  end.

Definition bool_update (v : JsValue) : M (option bool) :=
  match v with
  | JBool b => ret (Some b)
  | _ => fun w => (bool_update_operation v, w)
  end.

(** A column the data may leave out. *)
Definition opt_update {A} (update : JsValue -> M (option A)) (o : option JsValue)
    : M (option A) :=
  match o with
  | None => ret None
  | Some v => update v
  end.

Definition or_else {A} (o : option A) (d : A) : A :=
  match o with Some a => a | None => d end.

Fixpoint replace_subscription (id : jsstring) (s' : Subscription.t)
    (l : list Subscription.t) : list Subscription.t :=
  match l with
  | [] => []
  | s :: l' =>
      if str_eqb (Subscription.id s) id then s' :: l'
      else s :: replace_subscription id s' l'
  end.

Definition record_to_update_not_found : JsError :=
  Error (js "An operation failed because it depends on one or more records that were required but not found. Record to update not found.").

Definition record_to_delete_does_not_exist : JsError :=
  Error (js "An operation failed because it depends on one or more records that were required but not found. Record to delete does not exist.").

(** [prisma.subscription.update({ where: { id }, data })]: the row is
    rewritten with the fields of the patch; no check involves the other
    rows. *)
Definition subscription_update (id : jsstring) (p : SubscriptionPatch)
    : M Subscription.t :=
  et <- opt_update string_update (patch_event_type p) ;;
  url <- opt_update string_update (patch_target_url p) ;;
  act <- opt_update bool_update (patch_is_active p) ;;
  fun w =>
    match find (fun s => str_eqb (Subscription.id s) id) (subscriptions w) with
    | None => (Throw record_to_update_not_found, w)
    | Some s =>
        let s' := Subscription.mk (Subscription.id s)
                    (or_else et (Subscription.event_type s))
                    (or_else url (Subscription.target_url s))
                    (Subscription.secret_key s)
                    (or_else act (Subscription.is_active s))
                    (Subscription.created_at s)
                    (patch_updated_at p) in
        (Ok s', set_subscriptions w (replace_subscription id s' (subscriptions w)))
    end.

(** [prisma.subscription.delete({ where: { id } })]. *)
Definition subscription_delete (id : jsstring) : M unit :=
  fun w =>
    if existsb (fun s => str_eqb (Subscription.id s) id) (subscriptions w)
    then (Ok tt,
          set_subscriptions w
            (filter (fun s => negb (str_eqb (Subscription.id s) id))
               (subscriptions w)))
    else (Throw record_to_delete_does_not_exist, w).

(** *** deliveryLog *)

(** [prisma.deliveryLog.create({ data: { event_id, subscription_id,
    status, attempt_count, attempted_at } })]; the other columns are
    null. *)
Definition deliveryLog_create (event_id subscription_id : jsstring)
    (status : DeliveryLog.Status) (attempt_count attempted_at : Z)
    : M DeliveryLog.t :=
  id <- fresh_id ;;
  let d := DeliveryLog.mk id event_id subscription_id status attempt_count
             attempted_at None None None in
  fun w => (Ok d, set_delivery_logs w (delivery_logs w ++ [d])).

Fixpoint replace_log (id : jsstring) (f : DeliveryLog.t -> DeliveryLog.t)
    (l : list DeliveryLog.t) : list DeliveryLog.t :=
  match l with
  | [] => []
  | d :: l' =>
      if str_eqb (DeliveryLog.id d) id then f d :: l'
      else d :: replace_log id f l'
  end.

(** [prisma.deliveryLog.update({ where: { id }, data })] with the
    row's new contents given by [f]. *)
Definition deliveryLog_update (id : jsstring)
    (f : DeliveryLog.t -> DeliveryLog.t) : M unit :=
  fun w =>
    if existsb (fun d => str_eqb (DeliveryLog.id d) id) (delivery_logs w)
    then (Ok tt, set_delivery_logs w (replace_log id f (delivery_logs w)))
    else (Throw record_to_update_not_found, w).

(** [prisma.deliveryLog.findUnique({ where: { id }, include: { event:
    true, subscription: true } })]: the row and the subscription it
    points to. *)
Definition deliveryLog_findUnique (id : jsstring)
    : M (option (DeliveryLog.t * option Subscription.t)) :=
  fun w =>
    match find (fun d => str_eqb (DeliveryLog.id d) id) (delivery_logs w) with
    | None => (Ok None, w)
    | Some d =>
        (Ok (Some (d, find (fun s => str_eqb (Subscription.id s)
                                       (DeliveryLog.subscription_id d))
                        (subscriptions w))), w)
    end.

(** *** ordering, relations and counts *)

(** [orderBy: { key: 'desc' }]: rows by decreasing key, rows with equal
    keys in stored order (the database leaves their order open). *)
Fixpoint insert_desc {A} (key : A -> Z) (x : A) (l : list A) : list A :=
  match l with
  | [] => [x]
  | y :: l' => if key y <=? key x then x :: l else y :: insert_desc key x l'
  end.

Definition orderBy_desc {A} (key : A -> Z) (l : list A) : list A :=
  fold_right (insert_desc key) [] l.

(** [prisma.event.findUnique({ where: { id }, include: { delivery_logs:
    { include: { subscription }, orderBy: { attempted_at: 'desc' } } } })]:
    the event, its delivery logs latest first, each with the
    subscription it points to. *)
Definition event_findUnique_with_logs (id : jsstring)
    : M (option (Event.t * list (DeliveryLog.t * option Subscription.t))) :=
  fun w =>
    match find (fun e => str_eqb (Event.id e) id) (events w) with
    | None => (Ok None, w)
    | Some e =>
        let logs :=
          orderBy_desc DeliveryLog.attempted_at
            (filter (fun d => str_eqb (DeliveryLog.event_id d) (Event.id e))
               (delivery_logs w)) in
        (Ok (Some (e, map (fun d =>
                             (d, find (fun s => str_eqb (Subscription.id s)
                                                  (DeliveryLog.subscription_id d))
                                   (subscriptions w))) logs)), w)
    end.

(** A [where] on subscriptions: a field that is absent does not
    filter. *)
Definition subscription_where (event_type : option jsstring)
    (is_active : option bool) (s : Subscription.t) : bool :=
  match event_type with
  | Some et => str_eqb (Subscription.event_type s) et
  | None => true
  end
  && match is_active with
     | Some a => Bool.eqb (Subscription.is_active s) a
     | None => true
     end.


(** [prisma.subscription.count({ where })]. *)
Definition subscription_count (event_type : option jsstring)
    (is_active : option bool) : M nat :=
  fun w =>
    (Ok (List.length
           (filter (subscription_where event_type is_active) (subscriptions w))), w).

(** [prisma.deliveryLog.count({ where: { status } })]. *)
Definition deliveryLog_count (status : option DeliveryLog.Status) : M nat :=
  fun w =>
    (Ok (List.length
           (filter (fun d => match status with
                             | Some st => DeliveryLog.Status_eqb (DeliveryLog.status d) st
                             | None => true
                             end) (delivery_logs w))), w).

End WithPlatform.
End Prisma.

(* ===================================================================== *)
(** ** utils/security *)
(* ===================================================================== *)

Module SecurityUtils.
Section WithPlatform.
Context `{Platform}.

(** [crypto.createHmac('sha256', secret).update(payload).digest('hex')]. *)
Definition generateHmacSignature (payload secret : jsstring) : jsstring :=
  hex (hmac_sha256 secret payload).

Definition generateWebhookSignature (payload secret : jsstring) : jsstring :=
  let signature := generateHmacSignature payload secret in
  js "sha256=" ++ signature.

(** [crypto.randomBytes(32).toString('hex')]. *)
Definition generateSecretKey (env : Env) : jsstring :=
  hex (randomBytes env 32).

Definition isValidWebhookUrl (url : JsValue) : bool :=
  match URL_protocol url with
  | Some protocol =>
      str_eqb protocol (js "https:") || str_eqb protocol (js "http:")
  | None => false
  end.

(** The header object of an outbound delivery; [Date.now()] is the
    clock of [env]. *)
Definition generateWebhookHeaders (env : Env)
    (payload secret eventType eventId : jsstring) : JsValue :=
  let signature := generateWebhookSignature payload secret in
  let timestamp := decimal (now env / 1000) in
  obj [ ("Content-Type", JStr "application/json");
        ("X-AlgoHire-Signature", JString signature);
        ("X-AlgoHire-Timestamp", JString timestamp);
        ("X-AlgoHire-Event-Type", JString eventType);
        ("X-AlgoHire-Event-ID", JString eventId);
        ("User-Agent", JStr "AlgoHire-Webhook-Relay/1.0") ].

(** [crypto.timingSafeEqual(a, b)]: buffers of different byte lengths
    are refused with a RangeError. *)
Definition timingSafeEqual (a b : list Z) : Result bool :=
  if (List.length a =? List.length b)%nat then Ok (str_eqb a b)
  else Throw (Error (js "Input buffers must have the same byte length")).

Definition verifyHmacSignature (payload signature secret : jsstring) : Result bool :=
  let expectedSignature := generateHmacSignature payload secret in
  timingSafeEqual (from_hex signature) (from_hex expectedSignature).

Definition verifyWebhookSignature (payload signatureHeader secret : jsstring)
    : Result bool :=
  if negb (startsWith signatureHeader (js "sha256=")) then Ok false
  else
    let signature := skipn 7 signatureHeader in
    verifyHmacSignature payload signature secret.

(** The replay window of five minutes around [Date.now()]; a timestamp
    that does not parse is NaN and fails the comparison. *)
Definition isValidTimestamp (env : Env) (timestamp : jsstring) : bool :=
  match parseInt timestamp with
  | Some seconds =>
      let timestampMs := seconds * 1000 in
      let fiveMinutes := 5 * 60 * 1000 in
      Z.abs (now env - timestampMs) <=? fiveMinutes
  | None => false
  end.

End WithPlatform.
End SecurityUtils.

(* ===================================================================== *)
(** ** services/webhook.service *)
(* ===================================================================== *)

Module WebhookService.

(** [queue.add(name, data, opts)] on the queue that [getQueue] returns
    (the service is initialised before the server listens): the command
    fails when the Redis connection is down. *)
Definition queue_add (env : Env) (j : Job.t) : M unit :=
  fun w =>
    if redis_up env
    then (Ok tt, Prisma.set_queue w (queue w ++ [j]))
    else (Throw (Error (js "Connection is closed.")), w).

(** [parseInt(process.env.MAX_RETRY_ATTEMPTS || '3')]. *)
Definition max_retry_attempts (env : Env) : nat :=
  match MAX_RETRY_ATTEMPTS env with
  | Some n => n
  | None => 3%nat
  end.

(** The fan-out job: [attempts: 1], no backoff. *)
Definition queueWebhookDeliveries (env : Env) (eventId eventType : jsstring)
    : M unit :=
  try_catch
    (queue_add env
       (Job.mk (Job.process_webhook_deliveries eventId eventType) 1 0 0))
    (fun error => throw error).

(** One delivery job: [attempts] from the environment, exponential
    backoff starting at 2000 ms. *)
Definition queueWebhookDelivery (env : Env) (eventId subscriptionId : jsstring)
    : M unit :=
  try_catch
    (queue_add env
       (Job.mk (Job.deliver_webhook eventId subscriptionId)
          (max_retry_attempts env) 2000 0))
    (fun error => throw error).

End WebhookService.

(* ===================================================================== *)
(** ** controllers/event.controller *)
(* ===================================================================== *)

(** The parts of an Express request the handlers read: the
    [x-idempotency-key] header, the route parameter ([:subscriptionId],
    [:logId]) and the parsed JSON body. *)
Record Request := mkRequest {
  x_idempotency_key : option jsstring;
  param : jsstring;
  req_body : JsValue
}.

(** [JSON.stringify(v).length] and [JSON.stringify(v).substring]: the
    method call throws when [JSON.stringify] returned [undefined]. *)
Definition stringify_string (v : JsValue) : Result jsstring :=
  match JSON_stringify v with
  | Some s => Ok s
  | None => Throw (Error (js "Cannot read properties of undefined"))
  end.

(** A synchronous computation inside an [async] body. *)
Definition lift {A} (r : Result A) : M A := fun w => (r, w).

Definition error_body (error code : string) : JsValue :=
  obj [ ("success", JBool false); ("error", JStr error); ("code", JStr code) ].

Module EventController.
Section WithPlatform.
Context `{Platform}.

Record ValidationResult := mkValidation {
  isValid : bool;
  error : option string
}.

Definition invalid (msg : string) : ValidationResult :=
  mkValidation false (Some msg).

(** A character of the class [[a-zA-Z0-9._-]]. *)
Definition eventType_char (c : Z) : bool :=
  ((97 <=? c) && (c <=? 122)) || ((65 <=? c) && (c <=? 90))
  || ((48 <=? c) && (c <=? 57)) || (c =? 46) || (c =? 95) || (c =? 45).

(** [/^[a-zA-Z0-9._-]+$/.test(s)]. *)
Definition eventTypeRegex_test (s : jsstring) : bool :=
  negb (str_eqb s []) && forallb eventType_char s.

Definition validateEventRequest (body : JsValue) : Result ValidationResult :=
  if negb (truthy body) || negb (JsType_eqb (typeof body) TObject) then
    Ok (invalid "Request body must be a valid JSON object")
  else
    let eventType := get body "eventType" in
    let payload := get body "payload" in
    match eventType with
    | JString s =>
        if negb (truthy eventType) then
          Ok (invalid "eventType is required and must be a string")
        else if str_length (trim s) =? 0 then
          Ok (invalid "eventType cannot be empty")
        else if negb (eventTypeRegex_test s) then
          Ok (invalid "eventType must contain only alphanumeric characters, dots, underscores, and hyphens")
        else
          match payload with
          | JUndefined | JNull => Ok (invalid "payload is required")
          | _ =>
              if negb (JsType_eqb (typeof payload) TObject) then
                Ok (invalid "payload must be an object")
              else
                match stringify_string payload with
                | Throw e => Throw e
                | Ok payloadString =>
                    if str_length payloadString >? 1024 * 1024 then
                      Ok (invalid "payload size exceeds 1MB limit")
                    else Ok (mkValidation true None)
                end
          end
    | _ => Ok (invalid "eventType is required and must be a string")
    end.

(** The [catch] block of [processEvent]. *)
Definition processEvent_catch (startTime : Z) (env : Env) (e : JsError) : Response :=
  let processingTime := now env - startTime in
  if includes (message e) (js "Unique constraint") then
    mkResponse 409
      (obj [ ("success", JBool false);
             ("error", JStr "Event with this idempotency key already exists");
             ("code", JStr "DUPLICATE_IDEMPOTENCY_KEY");
             ("processingTimeMs", JNum processingTime) ])
  else
    mkResponse 500
      (obj [ ("success", JBool false);
             ("error", JStr "Internal server error while processing event");
             ("code", JStr "INTERNAL_ERROR");
             ("processingTimeMs", JNum processingTime) ]).

(** Where a request stands between two of its [await]s: received, about
    to insert the event (the lookup found nothing), about to enqueue
    the fan-out (the event is stored), or answered. *)
Inductive Pending :=
| Received (req : Request)
| Creating (startTime : Z) (idempotencyKey : jsstring) (eventType payload : JsValue)
| Queueing (startTime : Z) (event : Event.t)
| Done (r : Response).

(** From the entry of [processEvent] to the answer of
    [prisma.event.findUnique]. *)
Definition receive (env : Env) (req : Request) : M Pending :=
  match x_idempotency_key req with
  | None =>
      ret (Done (mkResponse 400
        (error_body "Missing required header: x-idempotency-key"
           "MISSING_IDEMPOTENCY_KEY")))
  | Some idempotencyKey =>
      if str_eqb idempotencyKey [] then
        ret (Done (mkResponse 400
          (error_body "Missing required header: x-idempotency-key"
             "MISSING_IDEMPOTENCY_KEY")))
      else
        validationResult <- lift (validateEventRequest (req_body req)) ;;
        if negb (isValid validationResult) then
          ret (Done (mkResponse 400
            (obj [ ("success", JBool false);
                   ("error", match error validationResult with
                             | Some msg => JStr msg
                             | None => JUndefined
                             end);
                   ("code", JStr "VALIDATION_ERROR") ])))
        else
          let eventType := get (req_body req) "eventType" in
          let payload := get (req_body req) "payload" in
          existingEvent <- Prisma.event_findUnique_by_key idempotencyKey ;;
          match existingEvent with
          | Some existingEvent =>
              ret (Done (mkResponse 202
                (obj [ ("success", JBool true);
                       ("message", JStr "Event already processed (idempotent)");
                       ("eventId", JString (Event.id existingEvent));
                       ("idempotencyKey",
                          JString (Event.idempotency_key existingEvent));
                       ("processedAt",
                          JString (toISOString (Event.received_at existingEvent))) ])))
          | None => ret (Creating (now env) idempotencyKey eventType payload)
          end
  end.

(** [prisma.event.create] with [received_at: new Date()]. *)
Definition create (env : Env) (startTime : Z) (idempotencyKey : jsstring)
    (eventType payload : JsValue) : M Pending :=
  event_type <- string_arg eventType ;;
  event <- Prisma.event_create idempotencyKey event_type payload (now env) ;;
  ret (Queueing startTime event).

(** The enqueue of the fan-out job, whose failure is only logged, and
    the 202 answer. *)
Definition enqueue (env : Env) (startTime : Z) (event : Event.t) : M Pending :=
  try_catch
    (WebhookService.queueWebhookDeliveries env (Event.id event)
       (Event.event_type event))
    (fun queueError => ret tt) ;;;
  let processingTime := now env - startTime in
  ret (Done (mkResponse 202
    (obj [ ("success", JBool true);
           ("message", JStr "Event accepted and queued for processing");
           ("eventId", JString (Event.id event));
           ("eventType", JString (Event.event_type event));
           ("idempotencyKey", JString (Event.idempotency_key event));
           ("receivedAt", JString (toISOString (Event.received_at event)));
           ("processingTimeMs", JNum processingTime) ]))).

Definition startTime_of (env : Env) (p : Pending) : Z :=
  match p with
  | Creating startTime _ _ _ | Queueing startTime _ => startTime
  | _ => now env
  end.

(** One resumption of [processEvent]: the code up to the next [await],
    under the handler's [try]/[catch]. *)
Definition step (env : Env) (p : Pending) (w : World) : Pending * World :=
  let run :=
    match p with
    | Received req => receive env req
    | Creating startTime k eventType payload =>
        create env startTime k eventType payload
    | Queueing startTime event => enqueue env startTime event
    | Done r => ret (Done r)
    end in
  match run w with
  | (Ok p', w') => (p', w')
  | (Throw e, w') => (Done (processEvent_catch (startTime_of env p) env e), w')
  end.

(** A request served with no other request in between: the three
    resumptions in a row, [env k] being the environment at the k-th. *)
Definition processEvent (env : nat -> Env) (req : Request) (w : World)
    : Pending * World :=
  let (p1, w1) := step (env 0%nat) (Received req) w in
  let (p2, w2) := step (env 1%nat) p1 w1 in
  step (env 2%nat) p2 w2.

(** Two requests in flight: [schedule] says whose turn each resumption
    is ([true] for the first request); the k-th resumption runs in
    [env k]. *)
Fixpoint interleave (env : nat -> Env) (k : nat) (schedule : list bool)
    (a b : Pending) (w : World) : Pending * Pending * World :=
  match schedule with
  | [] => (a, b, w)
  | true :: rest =>
      let (a', w') := step (env k) a w in
      interleave env (S k) rest a' b w'
  | false :: rest =>
      let (b', w') := step (env k) b w in
      interleave env (S k) rest a b' w'
  end.

(** *** GET /events/:eventId *)

Definition status_text (st : DeliveryLog.Status) : string :=
  match st with
  | DeliveryLog.pending => "pending"
  | DeliveryLog.success => "success"
  | DeliveryLog.failed => "failed"
  end.

(** The [select] of a subscription in the log listings: the secret key
    is not among the selected fields. *)
Definition subscription_select (s : Subscription.t) : JsValue :=
  obj [ ("id", JString (Subscription.id s));
        ("event_type", JString (Subscription.event_type s));
        ("target_url", JString (Subscription.target_url s));
        ("is_active", JBool (Subscription.is_active s)) ].

Definition nullable {A} (f : A -> JsValue) (o : option A) : JsValue :=
  match o with
  | Some a => f a
  | None => JNull
  end.

(** A delivery log row as Prisma returns it with its subscription
    included (the columns in the order of the data model). *)
Definition deliveryLog_json (d : DeliveryLog.t) (s : option Subscription.t) : JsValue :=
  obj [ ("id", JString (DeliveryLog.id d));
        ("event_id", JString (DeliveryLog.event_id d));
        ("subscription_id", JString (DeliveryLog.subscription_id d));
        ("status", JStr (status_text (DeliveryLog.status d)));
        ("attempt_count", JNum (DeliveryLog.attempt_count d));
        ("attempted_at", JString (toISOString (DeliveryLog.attempted_at d)));
        ("response_status_code", nullable JNum (DeliveryLog.response_status_code d));
        ("response_body", nullable JString (DeliveryLog.response_body d));
        ("error_message", nullable JString (DeliveryLog.error_message d));
        ("subscription", nullable subscription_select s) ].

Definition getEventById (req : Request) : World -> Response * World :=
  respond
    (let eventId := param req in
     if str_eqb eventId [] then
       ret (mkResponse 400 (error_body "Event ID is required" "MISSING_EVENT_ID"))
     else
       event <- Prisma.event_findUnique_with_logs eventId ;;
       match event with
       | None =>
           ret (mkResponse 404 (error_body "Event not found" "EVENT_NOT_FOUND"))
       | Some (event, delivery_logs) =>
           ret (mkResponse 200
             (obj [ ("success", JBool true);
                    ("event",
                     obj [ ("id", JString (Event.id event));
                           ("eventType", JString (Event.event_type event));
                           ("idempotencyKey",
                              JString (Event.idempotency_key event));
                           ("payload", Event.payload event);
                           ("receivedAt",
                              JString (toISOString (Event.received_at event)));
                           ("deliveryLogs",
                              JArray (map (fun p => deliveryLog_json (fst p) (snd p))
                                        delivery_logs)) ]) ]))
       end)
    (fun error => mkResponse 500 (error_body "Internal server error" "INTERNAL_ERROR")).

End WithPlatform.
End EventController.


(* ===================================================================== *)
(** ** controllers/admin.controller *)
(* ===================================================================== *)

Module AdminController.
Section WithPlatform.
Context `{Platform}.

Definition internal_error (msg : string) (e : JsError) : Response :=
  mkResponse 500 (error_body msg "INTERNAL_ERROR").

Definition createSubscription (env : Env) (req : Request)
    : World -> Response * World :=
  respond
    (b <- destructure (req_body req) ;;
     let eventType := get b "eventType" in
     let targetUrl := get b "targetUrl" in
     if negb (truthy eventType) || negb (truthy targetUrl) then
       ret (mkResponse 400
         (error_body "eventType and targetUrl are required" "VALIDATION_ERROR"))
     else if negb (SecurityUtils.isValidWebhookUrl targetUrl) then
       ret (mkResponse 400 (error_body "Invalid webhook URL format" "INVALID_URL"))
     else
       existingSubscription <- Prisma.subscription_findFirst eventType targetUrl true ;;
       match existingSubscription with
       | Some _ =>
           ret (mkResponse 409
             (error_body
                "Active subscription already exists for this event type and URL"
                "DUPLICATE_SUBSCRIPTION"))
       | None =>
           let secretKey := SecurityUtils.generateSecretKey env in
           subscription <-
             Prisma.subscription_create eventType targetUrl secretKey true
               (now env) (now env) ;;
           ret (mkResponse 201
             (obj [ ("success", JBool true);
                    ("message", JStr "Subscription created successfully");
                    ("subscription",
                     obj [ ("id", JString (Subscription.id subscription));
                           ("eventType",
                              JString (Subscription.event_type subscription));
                           ("targetUrl",
                              JString (Subscription.target_url subscription));
                           ("isActive",
                              JBool (Subscription.is_active subscription));
                           ("createdAt",
                              JString (toISOString
                                         (Subscription.created_at subscription)));
                           ("secretKey",
                              JString (Subscription.secret_key subscription)) ]) ]))
       end)
    (internal_error "Failed to create subscription").

(** [x !== undefined ? x : absent]. *)
Definition defined (v : JsValue) : option JsValue :=
  match v with
  | JUndefined => None
  | _ => Some v
  end.

(** The [catch] block of [updateSubscription]. *)
Definition updateSubscription_catch (e : JsError) : Response :=
  if includes (message e) (js "Record to update not found") then
    mkResponse 404 (error_body "Subscription not found" "SUBSCRIPTION_NOT_FOUND")
  else
    mkResponse 500 (error_body "Failed to update subscription" "INTERNAL_ERROR").

Definition updateSubscription (env : Env) (req : Request)
    : World -> Response * World :=
  respond
    (let subscriptionId := param req in
     b <- destructure (req_body req) ;;
     let eventType := get b "eventType" in
     let targetUrl := get b "targetUrl" in
     let isActive := get b "isActive" in
     if str_eqb subscriptionId [] then
       ret (mkResponse 400
         (error_body "Subscription ID is required" "MISSING_SUBSCRIPTION_ID"))
     else if match targetUrl with
             | JUndefined => false
             | _ => negb (SecurityUtils.isValidWebhookUrl targetUrl)
             end then
       ret (mkResponse 400 (error_body "Invalid webhook URL format" "INVALID_URL"))
     else
       let updateData :=
         Prisma.mkPatch (now env) (defined eventType) (defined targetUrl)
           (defined isActive) in
       subscription <- Prisma.subscription_update subscriptionId updateData ;;
       ret (mkResponse 200
         (obj [ ("success", JBool true);
                ("message", JStr "Subscription updated successfully");
                ("subscription",
                 obj [ ("id", JString (Subscription.id subscription));
                       ("eventType",
                          JString (Subscription.event_type subscription));
                       ("targetUrl",
                          JString (Subscription.target_url subscription));
                       ("isActive", JBool (Subscription.is_active subscription));
                       ("createdAt",
                          JString (toISOString
                                     (Subscription.created_at subscription)));
                       ("updatedAt",
                          JString (toISOString
                                     (Subscription.updated_at subscription))) ]) ])))
    updateSubscription_catch.

Definition deleteSubscription (env : Env) (req : Request)
    : World -> Response * World :=
  respond
    (let subscriptionId := param req in
     if str_eqb subscriptionId [] then
       ret (mkResponse 400
         (error_body "Subscription ID is required" "MISSING_SUBSCRIPTION_ID"))
     else
       Prisma.subscription_delete subscriptionId ;;;
       ret (mkResponse 200
         (obj [ ("success", JBool true);
                ("message", JStr "Subscription deleted successfully") ])))
    (fun e =>
       if includes (message e) (js "Record to delete does not exist") then
         mkResponse 404
           (error_body "Subscription not found" "SUBSCRIPTION_NOT_FOUND")
       else
         mkResponse 500
           (error_body "Failed to delete subscription" "INTERNAL_ERROR")).

Definition retryFailedDelivery (env : Env) (req : Request)
    : World -> Response * World :=
  respond
    (let logId := param req in
     if str_eqb logId [] then
       ret (mkResponse 400
         (error_body "Delivery log ID is required" "MISSING_LOG_ID"))
     else
       deliveryLog <- Prisma.deliveryLog_findUnique logId ;;
       match deliveryLog with
       | None =>
           ret (mkResponse 404
             (error_body "Delivery log not found" "LOG_NOT_FOUND"))
       | Some (log, subscription) =>
           if DeliveryLog.Status_eqb (DeliveryLog.status log) DeliveryLog.success
           then
             ret (mkResponse 400
               (error_body "Cannot retry successful delivery" "INVALID_RETRY"))
           else
             match subscription with
             | None =>
                 throw (Error (js "Cannot read properties of null (reading 'is_active')"))
             | Some subscription =>
                 if negb (Subscription.is_active subscription) then
                   ret (mkResponse 400
                     (error_body
                        "Cannot retry delivery for inactive subscription"
                        "INACTIVE_SUBSCRIPTION"))
                 else
                   WebhookService.queueWebhookDelivery env
                     (DeliveryLog.event_id log)
                     (DeliveryLog.subscription_id log) ;;;
                   ret (mkResponse 200
                     (obj [ ("success", JBool true);
                            ("message", JStr "Retry job queued successfully");
                            ("logId", JString logId);
                            ("eventId", JString (DeliveryLog.event_id log));
                            ("subscriptionId",
                               JString (DeliveryLog.subscription_id log)) ]))
             end
       end)
    (internal_error "Failed to retry delivery").

End WithPlatform.
Section Listing.
Context `{Platform}.

(** *** GET /subscriptions *)



End Listing.

Section Stats.

(** The text of [Math.round(((successful / total) * 100) * 100) / 100]
    in double arithmetic, for a positive [total]. *)
Variable percentage : Z -> Z -> jsstring.

(** *** GET /stats *)

Definition getSystemStats : World -> Response * World :=
  respond
    (totalEvents <- (fun w => (Ok (List.length (events w)), w)) ;;
     totalSubscriptions <- Prisma.subscription_count None None ;;
     activeSubscriptions <- Prisma.subscription_count None (Some true) ;;
     totalDeliveries <- Prisma.deliveryLog_count None ;;
     successfulDeliveries <- Prisma.deliveryLog_count (Some DeliveryLog.success) ;;
     failedDeliveries <- Prisma.deliveryLog_count (Some DeliveryLog.failed) ;;
     pendingDeliveries <- Prisma.deliveryLog_count (Some DeliveryLog.pending) ;;
     let successRate :=
       if (0 <? totalDeliveries)%nat
       then JNumber (percentage (Z.of_nat successfulDeliveries)
                       (Z.of_nat totalDeliveries))
       else JNum 0 in
     ret (mkResponse 200
       (obj [ ("success", JBool true);
              ("stats",
               obj [ ("events", obj [ ("total", JNum (Z.of_nat totalEvents)) ]);
                     ("subscriptions",
                      obj [ ("total", JNum (Z.of_nat totalSubscriptions));
                            ("active", JNum (Z.of_nat activeSubscriptions));
                            ("inactive",
                               JNum (Z.of_nat totalSubscriptions
                                     - Z.of_nat activeSubscriptions)) ]);
                     ("deliveries",
                      obj [ ("total", JNum (Z.of_nat totalDeliveries));
                            ("successful", JNum (Z.of_nat successfulDeliveries));
                            ("failed", JNum (Z.of_nat failedDeliveries));
                            ("pending", JNum (Z.of_nat pendingDeliveries));
                            ("successRate", successRate) ]);
                     ("queue",
                      obj [ ("pending", JNum 0); ("processing", JNum 0) ]) ]) ])))
    (fun e => mkResponse 500
                (error_body "Failed to fetch system statistics" "INTERNAL_ERROR")).

End Stats.

End AdminController.

(* ===================================================================== *)
(** ** workers/webhook.worker *)
(* ===================================================================== *)

Record HttpRequest := mkHttpRequest {
  url : jsstring;
  http_body : jsstring;
  headers : JsValue
}.

(** What the target endpoint does with a POST: it answers with a status
    and a body, or no response arrives (DNS, connect, TLS, timeout,
    abort) and the transport reports why. *)
Inductive HttpOutcome :=
| Replied (status : Z) (data : JsValue)
| NoReply (reason : jsstring).

Module WebhookWorker.
Section WithPlatform.
Context `{Platform}.

Variable sink : HttpRequest -> HttpOutcome.

(** [axios.post(url, payload, { headers, timeout, validateStatus })]
    with [validateStatus: status >= 200 && status < 300]: a response
    with a rejected status is thrown as an error that carries it. *)
Definition axios_post (url payload : jsstring) (headers : JsValue)
    : M HttpResponse :=
  match sink (mkHttpRequest url payload headers) with
  | Replied status data =>
      if (status >=? 200) && (status <? 300)
      then ret (mkHttpResponse status data)
      else throw (mkError (js "Request failed with status code " ++ decimal status)
                    (Some (mkHttpResponse status data)))
  | NoReply reason => throw (Error reason)
  end.

Definition queueIndividualDelivery (env : Env) (eventId subscriptionId : jsstring)
    : M unit :=
  try_catch
    (WebhookService.queue_add env
       (Job.mk (Job.deliver_webhook eventId subscriptionId)
          (WebhookService.max_retry_attempts env) 2000 0))
    (fun error => throw error).

(** [await Promise.all(subscriptions.map(...))]. *)
Fixpoint queue_all (env : Env) (eventId : jsstring)
    (subscriptions : list Subscription.t) : M unit :=
  match subscriptions with
  | [] => ret tt
  | subscription :: rest =>
      queueIndividualDelivery env eventId (Subscription.id subscription) ;;;
      queue_all env eventId rest
  end.

Definition processWebhookDeliveries (env : Env) (eventId eventType : jsstring)
    : M JsValue :=
  try_catch
    (subscriptions <- Prisma.subscription_findMany eventType true ;;
     if (List.length subscriptions =? 0)%nat then
       ret (obj [ ("processed", JNum 0);
                  ("message", JStr "No active subscriptions") ])
     else
       queue_all env eventId subscriptions ;;;
       ret (obj [ ("processed", JNum (Z.of_nat (List.length subscriptions))) ]))
    (fun error => throw error).

Definition finish (status : DeliveryLog.Status) (code : option Z)
    (response_body error_message : option jsstring) (attempted_at : Z)
    (d : DeliveryLog.t) : DeliveryLog.t :=
  DeliveryLog.mk (DeliveryLog.id d) (DeliveryLog.event_id d)
    (DeliveryLog.subscription_id d) status (DeliveryLog.attempt_count d)
    attempted_at code response_body error_message.

(** The object whose JSON text is the body of the delivery. *)
Definition envelope (event : Event.t) : JsValue :=
  obj [ ("id", JString (Event.id event));
        ("eventType", JString (Event.event_type event));
        ("payload", Event.payload event);
        ("receivedAt", JString (toISOString (Event.received_at event)));
        ("idempotencyKey", JString (Event.idempotency_key event)) ].

Definition processWebhookDelivery (env : Env) (eventId subscriptionId : jsstring)
    : M JsValue :=
  try_catch
    (event <- Prisma.event_findUnique eventId ;;
     subscription <- Prisma.subscription_findUnique subscriptionId ;;
     match event, subscription with
     | None, _ => throw (Error (js "Event not found: " ++ eventId))
     | Some _, None =>
         throw (Error (js "Subscription not found: " ++ subscriptionId))
     | Some event, Some subscription =>
         if negb (Subscription.is_active subscription) then
           throw (Error (js "Subscription is inactive: " ++ subscriptionId))
         else
           deliveryLog <-
             Prisma.deliveryLog_create eventId subscriptionId
               DeliveryLog.pending 1 (now env) ;;
           try_catch
             (payload <- lift (stringify_string (envelope event)) ;;
              let headers :=
                SecurityUtils.generateWebhookHeaders env payload
                  (Subscription.secret_key subscription)
                  (Event.event_type event) (Event.id event) in
              response <-
                axios_post (Subscription.target_url subscription) payload headers ;;
              text <- lift (stringify_string (resp_data response)) ;;
              Prisma.deliveryLog_update (DeliveryLog.id deliveryLog)
                (fun d =>
                   finish DeliveryLog.success (Some (resp_status response))
                     (Some (substring0 text 1000))
                     (DeliveryLog.error_message d) (now env) d) ;;;
              ret (obj [ ("success", JBool true);
                         ("statusCode", JNum (resp_status response));
                         ("deliveryLogId", JString (DeliveryLog.id deliveryLog)) ]))
             (fun deliveryError =>
                let errorMessage :=
                  if str_eqb (message deliveryError) [] then js "Unknown error"
                  else message deliveryError in
                let statusCode :=
                  match response deliveryError with
                  | Some r => if resp_status r =? 0 then 0 else resp_status r
                  | None => 0
                  end in
                responseBody <-
                  match response deliveryError with
                  | Some r =>
                      if truthy (resp_data r) then
                        text <- lift (stringify_string (resp_data r)) ;;
                        ret (Some (substring0 text 1000))
                      else ret None
                  | None => ret None
                  end ;;
                Prisma.deliveryLog_update (DeliveryLog.id deliveryLog)
                  (finish DeliveryLog.failed (Some statusCode) responseBody
                     (Some errorMessage) (now env)) ;;;
                throw deliveryError)
     end)
    (fun error => throw error).

(** What [this] is while a static method of the class runs: the class,
    when the method is called on it ([WebhookWorker.processJob(job)]);
    [undefined], when the function is called bare (class code is
    strict); or the object the function is called on, which has none of
    the methods of the class (the worker object of the queue). *)
Inductive Receiver :=
| the_class
| no_receiver
| another_object.

(** The call [this.name(...)] of a method of the class, [run] being
    what the method does. *)
Definition this_call {A} (this : Receiver) (name : string) (run : M A) : M A :=
  match this with
  | the_class => run
  | no_receiver =>
      throw (Error (js "Cannot read properties of undefined (reading '"
                    ++ js name ++ js "')"))
  | another_object =>
      throw (Error (js "this." ++ js name ++ js " is not a function"))
  end.

(** The processor: it routes on the [type] of the job's data, calling
    the handlers through [this]. *)
Definition processJob (this : Receiver) (env : Env) (job : Job.t) : M JsValue :=
  try_catch
    match Job.data job with
    | Job.process_webhook_deliveries eventId eventType =>
        this_call this "processWebhookDeliveries"
          (processWebhookDeliveries env eventId eventType)
    | Job.deliver_webhook eventId subscriptionId =>
        this_call this "processWebhookDelivery"
          (processWebhookDelivery env eventId subscriptionId)
    end
    (fun error => throw error).

Inductive JobOutcome :=
| completed (returnvalue : JsValue)
| permanently_failed (e : JsError).

Definition next_attempt (job : Job.t) : Job.t :=
  Job.mk (Job.data job) (Job.attempts job) (Job.backoff_delay job)
    (S (Job.attemptsMade job)).

(** The queue's retry policy for one job: the processor runs; when it
    throws and [attemptsMade + 1 < attempts] the job is run again
    (after its backoff delay), otherwise it is marked failed.  [this]
    is the receiver the queue calls the processor with: [initialize]
    hands it the function alone ([new Worker('webhook-delivery',
    this.processJob, ...)], nothing binds it), so for the running
    worker it is not the class.  [env k] is the environment of the
    attempt made after [k] earlier ones; [retries] bounds the attempts
    that may still follow. *)
Fixpoint attempt (this : Receiver) (retries : nat) (env : nat -> Env) (job : Job.t)
    (w : World) : JobOutcome * World :=
  match processJob this (env (Job.attemptsMade job)) job w with
  | (Ok v, w') => (completed v, w')
  | (Throw e, w') =>
      match retries with
      | O => (permanently_failed e, w')
      | S retries' => attempt this retries' env (next_attempt job) w'
      end
  end.

Definition run_job (this : Receiver) (env : nat -> Env) (job : Job.t)
    : World -> JobOutcome * World :=
  attempt this (Job.attempts job - Job.attemptsMade job - 1) env job.

End WithPlatform.
End WebhookWorker.

(* ===================================================================== *)
(** ** frontend pages (Dashboard, DeliveryLogs, Subscriptions) *)
(* ===================================================================== *)

Module Pages.

(** [formatTimeAgo(dateString)] at the time [now], [date] being the time
    value of [new Date(dateString)] ([None] for an invalid date, whose
    time value is NaN). *)
Definition formatTimeAgo (now : Z) (date : option Z) : jsstring :=
  match date with
  | None => js "NaNd ago"
  | Some t =>
      let diffInMinutes := (now - t) / (1000 * 60) in
      if diffInMinutes <? 1 then js "Just now"
      else if diffInMinutes <? 60 then decimal diffInMinutes ++ js "m ago"
      else
        let diffInHours := diffInMinutes / 60 in
        if diffInHours <? 24 then decimal diffInHours ++ js "h ago"
        else
          let diffInDays := diffInHours / 24 in
          decimal diffInDays ++ js "d ago"
  end.

End Pages.

(* ===================================================================== *)
(** ** A platform to run the model on *)
(* ===================================================================== *)

(** Stand-ins for the runtime services, used where a lemma runs the
    handlers on concrete requests: identifiers are numbered, dates print
    as their millisecond count, only [http://] and [https://] strings
    parse as URLs, and the keyed hash is a fixed 32-byte fold of key and
    data (it is not SHA-256; no lemma depends on its values). *)
Module Sample.

Definition toy_hash (key data : jsstring) : list Z :=
  let seed := fold_left (fun acc c => (acc * 31 + c) mod 256) (key ++ [0] ++ data) 7 in
  map (fun i => (seed + 13 * Z.of_nat i) mod 256) (seq 0 32).

Definition protocol_of (v : JsValue) : option jsstring :=
  match v with
  | JString s =>
      if startsWith s (js "https://") then Some (js "https:")
      else if startsWith s (js "http://") then Some (js "http:")
      else None
  | _ => None
  end.

(** Update operations as [{ set: v }]. *)
Definition set_string (v : JsValue) : Result (option jsstring) :=
  match get v "set" with
  | JString s => Ok (Some s)
  | _ => Throw (Error (js "Invalid value provided. Expected String."))
  end.

Definition set_bool (v : JsValue) : Result (option bool) :=
  match get v "set" with
  | JBool b => Ok (Some b)
  | _ => Throw (Error (js "Invalid value provided. Expected Boolean."))
  end.

#[export] Instance platform : Platform := {|
  hmac_sha256 := toy_hash;
  toISOString := decimal;
  URL_protocol := protocol_of;
  uuid := fun n => js "id-" ++ decimal (Z.of_nat n);
  string_update_operation := set_string;
  bool_update_operation := set_bool
|}.

Definition empty : World := mkWorld [] [] [] [] 0.

(** The environment at time [t] with Redis up and the default retry
    budget. *)
Definition at_time (t : Z) : Env := mkEnv t true (fun _ => 171) None.

Definition clock (k : nat) : Env := at_time (1000 * Z.of_nat k).

(** Requests. *)
Definition subscribe (eventType targetUrl : string) : Request :=
  mkRequest None []
    (obj [ ("eventType", JStr eventType); ("targetUrl", JStr targetUrl) ]).

Definition post_event (key eventType : string) (payload : JsValue) : Request :=
  mkRequest (Some (js key)) []
    (obj [ ("eventType", JStr eventType); ("payload", payload) ]).

Definition patch (id : string) (fields : list (string * JsValue)) : Request :=
  mkRequest None (js id) (obj fields).

Definition retry (logId : string) : Request :=
  mkRequest None (js logId) (obj []).

(** Endpoints. *)
Definition always_500 (r : HttpRequest) : HttpOutcome :=
  Replied 500 (obj [ ("error", JStr "boom") ]).

Definition always_200 (r : HttpRequest) : HttpOutcome :=
  Replied 200 (obj [ ("ok", JBool true) ]).

Definition unreachable (r : HttpRequest) : HttpOutcome :=
  NoReply (js "timeout of 30000ms exceeded").

(** One subscription (id-0) to http://sink/ok for user.created. *)
Definition subscribed : World :=
  snd (AdminController.createSubscription (at_time 5)
         (subscribe "user.created" "http://sink/ok") empty).

(** ... then one event (id-1) posted under the key k1. *)
Definition posted : World :=
  snd (EventController.processEvent clock
         (post_event "k1" "user.created" (obj [ ("x", JNum 1) ])) subscribed).

(** The delivery job of that event to that subscription, as the
    fan-out enqueues it. *)
Definition delivery : Job.t :=
  Job.mk (Job.deliver_webhook (js "id-1") (js "id-0")) 3 2000 0.

(** ... then the subscription deactivated. *)
Definition deactivated : World :=
  snd (AdminController.updateSubscription (at_time 6)
         (patch "id-0" [ ("isActive", JBool false) ]) posted).

(** ... or the delivery retried to exhaustion against a failing
    endpoint, the processor called on the class (logs id-2, id-3,
    id-4). *)
Definition exhausted : World :=
  snd (WebhookWorker.run_job always_500 WebhookWorker.the_class clock delivery
         posted).

(** Two subscriptions for order.paid, to two targets (id-0 to
    http://sink/a and id-1 to http://sink/b). *)
Definition two_targets : World :=
  snd (AdminController.createSubscription (at_time 2)
         (subscribe "order.paid" "http://sink/b")
         (snd (AdminController.createSubscription (at_time 1)
                 (subscribe "order.paid" "http://sink/a") empty))).

End Sample.

(* ===================================================================== *)
(** ** Vocabulary of the properties *)
(* ===================================================================== *)

(** The (event_type, target_url) pairs of the active subscriptions, one
    entry per row. *)
Definition active_pairs (l : list Subscription.t) : list (jsstring * jsstring) :=
  map (fun s => (Subscription.event_type s, Subscription.target_url s))
    (filter Subscription.is_active l).

(** The delivery logs of one subscription. *)
Definition rows_for (subscriptionId : jsstring) (l : list DeliveryLog.t)
    : list DeliveryLog.t :=
  filter (fun d => str_eqb (DeliveryLog.subscription_id d) subscriptionId) l.

(** The subscription is missing or has [is_active = false]: no stored
    subscription with this id is active. *)
Definition dropped (subscriptionId : jsstring) (w : World) : bool :=
  forallb (fun s => negb (str_eqb (Subscription.id s) subscriptionId)
                    || negb (Subscription.is_active s))
    (subscriptions w).

(** The job is a delivery to the subscription. *)
Definition delivers_to (subscriptionId : jsstring) (j : Job.t) : bool :=
  match Job.data j with
  | Job.deliver_webhook _ s => str_eqb s subscriptionId
  | Job.process_webhook_deliveries _ _ => false
  end.

(** No stored row already bears the identifier the database will hand
    out next. *)
Definition next_log_id_fresh `{Platform} (w : World) : bool :=
  forallb (fun d => negb (str_eqb (DeliveryLog.id d) (uuid (next_uuid w))))
    (delivery_logs w).

(** An object payload with one property whose value starts with
    U+00E9 (one code unit, two bytes in UTF-8) followed by [n] letters
    x: its JSON text has [n + 9] code units and [n + 10] bytes. *)
Definition wide_payload (n : nat) : JsValue :=
  JObject [ (js "a", JString (233 :: repeat 120 n)) ].

Definition MiB : Z := 1024 * 1024.

(** Every run of the computation relates the world before to the world
    after. *)
Definition preserves {A} (R : World -> World -> Prop) (c : M A) : Prop :=
  forall w, R w (snd (c w)).

(** The delivery logs carry the same attempt counts, row by row. *)
Definition same_attempt_counts (w w' : World) : Prop :=
  map DeliveryLog.attempt_count (delivery_logs w')
  = map DeliveryLog.attempt_count (delivery_logs w).

(** *** Answers of POST /events *)

Section Answers.
Context `{Platform}.

(** A POST /events request that passes the header check and the
    validation of the body, with idempotency key [k]. *)
Definition valid_request (k : jsstring) (req : Request) : Prop :=
  x_idempotency_key req = Some k /\ k <> []
  /\ EventController.validateEventRequest (req_body req)
     = Ok (EventController.mkValidation true None).

(** 202 for an event stored by this very request. *)
Definition accepted (e : Event.t) (r : Response) : Prop :=
  status r = 202
  /\ get (body r) "message" = JStr "Event accepted and queued for processing"
  /\ get (body r) "eventId" = JString (Event.id e)
  /\ get (body r) "receivedAt" = JString (toISOString (Event.received_at e)).

(** 202 for an event that was already stored: the answer names the
    stored row and its [received_at]. *)
Definition duplicate_of (e : Event.t) (r : Response) : Prop :=
  status r = 202
  /\ get (body r) "message" = JStr "Event already processed (idempotent)"
  /\ get (body r) "eventId" = JString (Event.id e)
  /\ get (body r) "processedAt" = JString (toISOString (Event.received_at e)).

(** 409 for an insert that hit the unique index. *)
Definition conflict (r : Response) : Prop :=
  status r = 409 /\ code_of r = JStr "DUPLICATE_IDEMPOTENCY_KEY".

Definition fanout_job (e : Event.t) : Job.t :=
  Job.mk (Job.process_webhook_deliveries (Event.id e) (Event.event_type e)) 1 0 0.

(** *** Two requests racing on one key *)

(** The request that inserted [e]: about to enqueue the fan-out, or
    answered, the fan-out job enqueued at most once. *)
Definition won (e : Event.t) (q0 q : list Job.t) (p : EventController.Pending) : Prop :=
  (exists startTime, p = EventController.Queueing startTime e /\ q = q0)
  \/ (exists r, p = EventController.Done r /\ accepted e r
                /\ (q = q0 \/ q = q0 ++ [fanout_job e])).

(** The request that looks the key up after [e] was inserted: not
    resumed yet, or answered with the stored row. *)
Definition late (k : jsstring) (e : Event.t) (p : EventController.Pending) : Prop :=
  (exists req, p = EventController.Received req /\ valid_request k req)
  \/ (exists r, p = EventController.Done r /\ duplicate_of e r).

(** The request that looked the key up before it was inserted and did
    not insert it: about to insert, or answered with a conflict. *)
Definition early (k : jsstring) (p : EventController.Pending) : Prop :=
  (exists startTime eventType payload,
     p = EventController.Creating startTime k (JString eventType) payload)
  \/ (exists r, p = EventController.Done r /\ conflict r).

(** The resumptions a request still needs, at most. *)
Definition remaining (p : EventController.Pending) : nat :=
  match p with
  | EventController.Received _ => 3
  | EventController.Creating _ _ _ _ => 2
  | EventController.Queueing _ _ => 1
  | EventController.Done _ => 0
  end.

(** The number of turns the schedule gives to one of the two requests. *)
Definition turns (who : bool) (schedule : list bool) : nat :=
  List.length (filter (Bool.eqb who) schedule).

(** The place in the schedule of the [n]-th turn (counted from 0) of
    one of the two requests. *)
Fixpoint turn (who : bool) (n : nat) (schedule : list bool) : nat :=
  match schedule with
  | [] => 0
  | x :: rest =>
      if Bool.eqb x who then
        match n with
        | O => 0
        | S n' => S (turn who n' rest)
        end
      else S (turn who n rest)
  end.

(** A valid request looks the key up at its first turn and, the key not
    found, inserts the event at its second. *)
Definition lookup_turn (who : bool) (schedule : list bool) : nat := turn who 0 schedule.
Definition insert_turn (who : bool) (schedule : list bool) : nat := turn who 1 schedule.

(** The answer of one of the two requests. *)
Definition answer_of (who : bool) (ra rb : Response) : Response :=
  if who then ra else rb.

End Answers.

(** *** Further vocabulary *)

(** What a delivery throws when its event is not stored, or its
    subscription is not stored or not active. *)
Definition drop_error `{Platform} (eventId subscriptionId : jsstring) (w : World)
    : JsError :=
  match find (fun e => str_eqb (Event.id e) eventId) (events w) with
  | None => Error (js "Event not found: " ++ eventId)
  | Some _ =>
      match find (fun s => str_eqb (Subscription.id s) subscriptionId)
              (subscriptions w) with
      | None => Error (js "Subscription not found: " ++ subscriptionId)
      | Some _ => Error (js "Subscription is inactive: " ++ subscriptionId)
      end
  end.

(** The handler the processor calls for a job. *)
Definition handler_name (job : Job.t) : string :=
  match Job.data job with
  | Job.process_webhook_deliveries _ _ => "processWebhookDeliveries"
  | Job.deliver_webhook _ _ => "processWebhookDelivery"
  end.

(** What the processor throws when [this] is not the class. *)
Definition detached_error (this : WebhookWorker.Receiver) (job : Job.t) : JsError :=
  match this with
  | WebhookWorker.another_object =>
      Error (js "this." ++ js (handler_name job) ++ js " is not a function")
  | _ =>
      Error (js "Cannot read properties of undefined (reading '"
             ++ js (handler_name job) ++ js "')")
  end.

(** The endpoint answered with a status that [validateStatus] lets
    through. *)
Definition accepts (o : HttpOutcome) : bool :=
  match o with
  | Replied st _ => (st >=? 200) && (st <? 300)
  | NoReply _ => false
  end.

(** The endpoint answered with an accepted status and a body that has
    a JSON text. *)
Definition delivered (o : HttpOutcome) : bool :=
  match o with
  | Replied st data =>
      (st >=? 200) && (st <? 300)
      && match JSON_stringify data with Some _ => true | None => false end
  | NoReply _ => false
  end.

(** A row marked success carries a status code from 200 to 299. *)
Definition success_has_2xx (d : DeliveryLog.t) : Prop :=
  DeliveryLog.status d = DeliveryLog.success ->
  exists code, DeliveryLog.response_status_code d = Some code /\ 200 <= code <= 299.

(** The delivery job the worker and the admin retry enqueue. *)
Definition delivery_job (env : Env) (eventId subscriptionId : jsstring) : Job.t :=
  Job.mk (Job.deliver_webhook eventId subscriptionId)
    (WebhookService.max_retry_attempts env) 2000 0.

(** What an update must leave alone in a subscription. *)
Definition identity_of (s : Subscription.t) : jsstring * jsstring * Z :=
  (Subscription.id s, Subscription.secret_key s, Subscription.created_at s).

(** A String column after an update whose body carries [v] for it: the
    stored value when the body leaves the field out, the string when
    the body gives one. *)
Definition string_written (v : JsValue) (stored new : jsstring) : Prop :=
  match v with
  | JUndefined => new = stored
  | JString s => new = s
  | _ => True
  end.

(** The same for a Boolean column. *)
Definition bool_written (v : JsValue) (stored new : bool) : Prop :=
  match v with
  | JUndefined => new = stored
  | JBool b => new = b
  | _ => True
  end.




(** Every value the computation returns satisfies [Q]. *)
Definition returns {A} (Q : A -> Prop) (c : M A) : Prop :=
  forall w a w', c w = (Ok a, w') -> Q a.

(** The rows marked success in the second world carry a 2xx code if
    those of the first do. *)
Definition keeps_success_2xx (w w' : World) : Prop :=
  Forall success_has_2xx (delivery_logs w) ->
  Forall success_has_2xx (delivery_logs w').

(** The subscriptions matching a fan-out: active, of the event type. *)
Definition subscribers (eventType : jsstring) (w : World) : list Subscription.t :=
  filter (fun s => str_eqb (Subscription.event_type s) eventType
                   && Subscription.is_active s)
    (subscriptions w).

(* ===================================================================== *)
(** ** Strings *)
(* ===================================================================== *)

Unset Implicit Arguments.

Lemma str_eqb_eq (a b : jsstring) : str_eqb a b = true <-> a = b.
Proof.
  revert b; induction a as [|x a IH]; intros [|y b]; simpl;
    try (split; [discriminate | congruence]); [tauto|].
  rewrite andb_true_iff, Z.eqb_eq, IH.
  split; [intros [-> ->]; reflexivity | intros [= -> ->]; auto].
Qed.

Lemma str_eqb_refl (a : jsstring) : str_eqb a a = true.
Proof. apply str_eqb_eq; reflexivity. Qed.

Lemma str_eqb_neq (a b : jsstring) : a <> b -> str_eqb a b = false.
Proof.
  intros Hab; destruct (str_eqb a b) eqn:E; [|reflexivity].
  apply str_eqb_eq in E; contradiction.
Qed.

Lemma str_eqb_false (a b : jsstring) : str_eqb a b = false -> a <> b.
Proof. intros E ->; rewrite str_eqb_refl in E; discriminate. Qed.

Lemma str_eqb_sym (a b : jsstring) : str_eqb a b = str_eqb b a.
Proof.
  destruct (str_eqb b a) eqn:E.
  - apply str_eqb_eq in E; subst; apply str_eqb_refl.
  - apply str_eqb_neq; intros ->; rewrite str_eqb_refl in E; discriminate.
Qed.

Lemma land_15_range (x : Z) : 0 <= Z.land x 15 < 16.
Proof.
  change 15 with (Z.ones 4); rewrite Z.land_ones by lia.
  apply Z.mod_pos_bound; reflexivity.
Qed.

Lemma hex_digit_lower (d : Z) : 0 <= d < 16 -> is_lower_hex (hex_digit d) = true.
Proof.
  intros Hd; unfold is_lower_hex, hex_digit.
  destruct (d <? 10) eqn:E; [apply Z.ltb_lt in E | apply Z.ltb_ge in E].
  - apply orb_true_iff; left; apply andb_true_iff; split; apply Z.leb_le; lia.
  - apply orb_true_iff; right; apply andb_true_iff; split; apply Z.leb_le; lia.
Qed.

(** [Buffer.toString('hex')] only produces the digits 0-9 and a-f. *)
Lemma hex_lowercase (bytes : list Z) : forallb is_lower_hex (hex bytes) = true.
Proof.
  induction bytes as [|b bytes IH]; [reflexivity|].
  unfold hex in *; simpl flat_map; unfold hex_byte at 1.
  simpl; rewrite !hex_digit_lower by apply land_15_range; exact IH.
Qed.

Lemma str_length_app (a b : jsstring) :
  str_length (a ++ b) = str_length a + str_length b.
Proof. unfold str_length; rewrite length_app; lia. Qed.

Lemma str_length_cons (c : Z) (s : jsstring) : str_length (c :: s) = 1 + str_length s.
Proof. unfold str_length; simpl List.length; lia. Qed.

Lemma str_length_repeat (c : Z) (n : nat) : str_length (repeat c n) = Z.of_nat n.
Proof. unfold str_length; rewrite repeat_length; reflexivity. Qed.

Lemma str_length_nonneg (s : jsstring) : 0 <= str_length s.
Proof. unfold str_length; lia. Qed.

(* ===================================================================== *)
(** ** The signer *)
(* ===================================================================== *)

Section Signer.
Context `{Platform}.

Lemma signature_value (payload secret : jsstring) :
  SecurityUtils.generateWebhookSignature payload secret
  = js "sha256=" ++ hex (hmac_sha256 secret payload).
Proof. reflexivity. Qed.

Lemma signature_header_of (env : Env) (payload secret eventType eventId : jsstring) :
  get (SecurityUtils.generateWebhookHeaders env payload secret eventType eventId)
    "X-AlgoHire-Signature"
  = JString (SecurityUtils.generateWebhookSignature payload secret).
Proof. reflexivity. Qed.

Lemma no_plain_signature_header (env : Env) (payload secret eventType eventId : jsstring) :
  get (SecurityUtils.generateWebhookHeaders env payload secret eventType eventId)
    "X-Signature"
  = JUndefined.
Proof. reflexivity. Qed.

Lemma envelope_serialises (event : Event.t) :
  exists B, JSON_stringify (WebhookWorker.envelope event) = Some B.
Proof. eexists; reflexivity. Qed.

(** The worker consults the endpoint on one request only: two endpoints
    that treat that request alike give the same attempt. *)
Lemma delivery_posts_one_request (sink sink' : HttpRequest -> HttpOutcome)
    (env : Env) (eventId subscriptionId : jsstring) (w : World)
    (event : Event.t) (subscription : Subscription.t) (B : jsstring) :
  find (fun e => str_eqb (Event.id e) eventId) (events w) = Some event ->
  find (fun s => str_eqb (Subscription.id s) subscriptionId) (subscriptions w)
    = Some subscription ->
  JSON_stringify (WebhookWorker.envelope event) = Some B ->
  let r := mkHttpRequest (Subscription.target_url subscription) B
             (SecurityUtils.generateWebhookHeaders env B
                (Subscription.secret_key subscription)
                (Event.event_type event) (Event.id event)) in
  sink' r = sink r ->
  WebhookWorker.processWebhookDelivery sink' env eventId subscriptionId w
  = WebhookWorker.processWebhookDelivery sink env eventId subscriptionId w.
Proof.
  intros He Hs HB r Hr.
  unfold WebhookWorker.processWebhookDelivery, try_catch, bind,
    Prisma.event_findUnique, Prisma.subscription_findUnique.
  rewrite He, Hs.
  destruct (Subscription.is_active subscription); simpl negb; cbv iota; [|reflexivity].
  unfold Prisma.deliveryLog_create, Prisma.fresh_id, bind.
  unfold lift, stringify_string; rewrite HB.
  unfold WebhookWorker.axios_post; fold r; rewrite Hr; reflexivity.
Qed.

End Signer.

(** C8, as the code has it: the request of every delivery (to an active
    subscription with secret [s], body [B] the JSON text of the
    envelope) carries the header [X-AlgoHire-Signature] -- there is no
    header named [X-Signature] -- and its value is ["sha256="] followed
    by the lowercase hexadecimal digest of HMAC-SHA256 keyed with [s]
    over [B]; that request is the only one the attempt depends on. *)
Theorem C8_signature_header `{Platform} (sink : HttpRequest -> HttpOutcome)
    (env : Env) (eventId subscriptionId : jsstring) (w : World)
    (event : Event.t) (subscription : Subscription.t) (B : jsstring) :
  find (fun e => str_eqb (Event.id e) eventId) (events w) = Some event ->
  find (fun s => str_eqb (Subscription.id s) subscriptionId) (subscriptions w)
    = Some subscription ->
  JSON_stringify (WebhookWorker.envelope event) = Some B ->
  let s := Subscription.secret_key subscription in
  let r := mkHttpRequest (Subscription.target_url subscription) B
             (SecurityUtils.generateWebhookHeaders env B s
                (Event.event_type event) (Event.id event)) in
  (forall sink', sink' r = sink r ->
     WebhookWorker.processWebhookDelivery sink' env eventId subscriptionId w
     = WebhookWorker.processWebhookDelivery sink env eventId subscriptionId w)
  /\ get (headers r) "X-AlgoHire-Signature"
     = JString (js "sha256=" ++ hex (hmac_sha256 s (http_body r)))
  /\ forallb is_lower_hex (hex (hmac_sha256 s (http_body r))) = true
  /\ get (headers r) "X-Signature" = JUndefined.
Proof.
  intros He Hs HB s r; repeat split.
  - intros sink' Hr.
    exact (delivery_posts_one_request sink sink' env eventId subscriptionId w event subscription B He Hs HB Hr).
  - apply hex_lowercase.
Qed.

(* ===================================================================== *)
(** ** Subscription management *)
(* ===================================================================== *)

(** Case analysis on the next test a handler makes. *)
Ltac next_case :=
  match goal with
  | |- context [match ?x with _ => _ end] =>
      lazymatch x with
      | context [match _ with _ => _ end] => fail
      | _ => destruct x eqn:?
      end
  end.

Ltac run_handler := repeat (simpl; try next_case).

Section Subscriptions.
Context `{Platform}.

Lemma createSubscription_rows (env : Env) (req : Request) (w : World) :
  let (r, w') := AdminController.createSubscription env req w in
  (status r = 201 /\
     exists s, subscriptions w' = subscriptions w ++ [s]
               /\ Subscription.is_active s = true
               /\ find (Prisma.subscription_matches (Subscription.event_type s)
                          (Subscription.target_url s) true) (subscriptions w) = None)
  \/ (status r <> 201 /\ w' = w).
Proof.
  unfold AdminController.createSubscription, respond, bind, destructure,
    Prisma.subscription_findFirst, Prisma.subscription_create, Prisma.fresh_id,
    string_arg, bind, ret, throw.
  run_handler; try (right; split; [discriminate | congruence]).
  all: repeat match goal with H : (_, _) = (_, _) |- _ => inversion H; clear H; subst end.
  all: try (right; split; [discriminate | reflexivity]).
  all: left; split; [reflexivity|]; eexists; repeat split; simpl; assumption.
Qed.

End Subscriptions.

Section Subscriptions2.
Context `{Platform}.

Lemma active_pairs_app (l l' : list Subscription.t) :
  active_pairs (l ++ l') = active_pairs l ++ active_pairs l'.
Proof. unfold active_pairs; rewrite filter_app, map_app; reflexivity. Qed.

Lemma find_none_not_active (et u : jsstring) (l : list Subscription.t) :
  find (Prisma.subscription_matches et u true) l = None ->
  ~ In (et, u) (active_pairs l).
Proof.
  intros Hf Hin; unfold active_pairs in Hin.
  apply in_map_iff in Hin; destruct Hin as [s [Hp Hs]].
  apply filter_In in Hs; destruct Hs as [Hs Ha].
  apply (find_none _ _ Hf) in Hs.
  unfold Prisma.subscription_matches in Hs.
  inversion Hp; subst; rewrite !str_eqb_refl, Ha in Hs; discriminate.
Qed.

(** Creating a subscription keeps the rule of one active subscription
    per (event_type, target_url): the handler looks for an active row
    with the pair first and answers 409 when there is one. *)
Lemma createSubscription_keeps_uniqueness (env : Env) (req : Request) (w : World) :
  NoDup (active_pairs (subscriptions w)) ->
  NoDup (active_pairs (subscriptions (snd (AdminController.createSubscription env req w)))).
Proof.
  intros Hnd; pose proof (createSubscription_rows env req w) as Hrows.
  destruct (AdminController.createSubscription env req w) as [r w']; simpl.
  destruct Hrows as [[_ [s [-> [Ha Hf]]]] | [_ ->]]; [|exact Hnd].
  rewrite active_pairs_app; unfold active_pairs at 2; simpl; rewrite Ha; simpl.
  apply NoDup_app; repeat split.
  - exact Hnd.
  - constructor; [intros []|constructor].
  - intros p Hp [<-|[]]; revert Hp; apply find_none_not_active; exact Hf.
Qed.

Lemma createSubscription_duplicate (env : Env) (req : Request) (w : World)
    (et u : jsstring) (s : Subscription.t) :
  get (req_body req) "eventType" = JString et -> et <> [] ->
  get (req_body req) "targetUrl" = JString u -> u <> [] ->
  SecurityUtils.isValidWebhookUrl (JString u) = true ->
  In (et, u) (active_pairs (subscriptions w)) ->
  let (r, w') := AdminController.createSubscription env req w in
  status r = 409 /\ code_of r = JStr "DUPLICATE_SUBSCRIPTION" /\ w' = w.
Proof.
  intros Het Hne Hu Hne' Hv Hin.
  assert (Hb : exists ps, req_body req = JObject ps).
  { destruct (req_body req); try discriminate; eauto. }
  destruct Hb as [ps Hb].
  unfold AdminController.createSubscription, respond, bind, destructure,
    Prisma.subscription_findFirst, string_arg, bind, ret.
  rewrite Hb in *; rewrite Het, Hu; unfold truthy.
  rewrite (str_eqb_neq _ _ Hne), (str_eqb_neq _ _ Hne'), Hv; simpl.
  destruct (find _ (subscriptions w)) eqn:Hf; [repeat split|].
  exfalso; revert Hin; apply find_none_not_active; exact Hf.
Qed.

(** Whatever the store throws at an update, the handler answers 404 or
    500: no error is reported as a duplicate subscription. *)
Lemma updateSubscription_catch_status (e : JsError) :
  status (AdminController.updateSubscription_catch e) = 404
  \/ status (AdminController.updateSubscription_catch e) = 500.
Proof.
  unfold AdminController.updateSubscription_catch.
  destruct (includes _ _); [left|right]; reflexivity.
Qed.

Lemma updateSubscription_never_409 (env : Env) (req : Request) (w : World) :
  status (fst (AdminController.updateSubscription env req w)) <> 409.
Proof.
  unfold AdminController.updateSubscription, respond.
  match goal with |- context [match ?c w with _ => _ end] => destruct (c w) as [[r|e] w'] eqn:E end;
    simpl.
  - revert E; unfold bind, destructure, ret, throw.
    run_handler; intros; repeat match goal with H : (_, _) = (_, _) |- _ => inversion H; clear H; subst end;
      simpl; try discriminate.
  - destruct (updateSubscription_catch_status e) as [-> | ->]; discriminate.
Qed.

End Subscriptions2.

(** C10: whatever the request, POST /subscriptions leaves the stored
    subscriptions as they were and adds at most one row, exactly one
    when it answers 201, and every row it adds has [is_active = true]. *)
Theorem C10_created_subscription_is_active `{Platform} (env : Env) (req : Request)
    (w : World) :
  exists added,
    subscriptions (snd (AdminController.createSubscription env req w))
    = subscriptions w ++ added
    /\ Forall (fun s => Subscription.is_active s = true) added
    /\ List.length added
       = if status (fst (AdminController.createSubscription env req w)) =? 201
         then 1%nat else 0%nat.
Proof.
  pose proof (createSubscription_rows env req w) as Hrows.
  destruct (AdminController.createSubscription env req w) as [r w']; simpl.
  destruct Hrows as [[Hr [s [-> [Ha _]]]] | [Hr ->]].
  - exists [s]; rewrite Hr; repeat split; repeat constructor; exact Ha.
  - exists []; rewrite app_nil_r; repeat split; [constructor|].
    destruct (status r =? 201) eqn:E; [apply Z.eqb_eq in E; contradiction | reflexivity].
Qed.

Section UpdateOnSample.
#[local] Existing Instance Sample.platform.

(** C5 (the update path): on two active subscriptions for order.paid
    with different targets, PUT /subscriptions/id-1 with the target of
    id-0 is applied and answered 200, and leaves two active
    subscriptions with the same (event_type, target_url) pair, where
    POST /subscriptions with that pair is answered 409. *)
Theorem C5_update_skips_uniqueness :
  let w := Sample.two_targets in
  let duplicate := (js "order.paid", js "http://sink/a") in
  NoDup (active_pairs (subscriptions w))
  /\ (let (r, w') := AdminController.updateSubscription (Sample.at_time 3)
                       (Sample.patch "id-1" [ ("targetUrl", JStr "http://sink/a") ]) w in
      status r = 200
      /\ active_pairs (subscriptions w') = [duplicate; duplicate]
      /\ ~ NoDup (active_pairs (subscriptions w')))
  /\ (let (r, w') := AdminController.createSubscription (Sample.at_time 3)
                       (Sample.subscribe "order.paid" "http://sink/a") w in
      status r = 409 /\ code_of r = JStr "DUPLICATE_SUBSCRIPTION" /\ w' = w).
Proof.
  split; [|split].
  - vm_compute. repeat constructor; simpl; intuition discriminate.
  - vm_compute. repeat split.
    intros Hnd; inversion Hnd as [|? ? Hin _]; apply Hin; left; reflexivity.
  - vm_compute. repeat split.
Qed.

End UpdateOnSample.

(* ===================================================================== *)
(** ** Manual retry *)
(* ===================================================================== *)

(** C7: POST /delivery-logs/:id/retry on an existing log never touches
    the delivery logs; it answers 400 INVALID_RETRY when the log's status
    is success; otherwise 400 INACTIVE_SUBSCRIPTION when the log's
    subscription is inactive; otherwise, the queue accepting the job, it
    answers 200 and has added one delivery job for the log's (event,
    subscription) with the full retry budget and no attempt made. *)
Theorem C7_manual_retry `{Platform} (env : Env) (req : Request) (w : World)
    (log : DeliveryLog.t) (subscription : Subscription.t) :
  param req <> [] ->
  find (fun d => str_eqb (DeliveryLog.id d) (param req)) (delivery_logs w) = Some log ->
  find (fun s => str_eqb (Subscription.id s) (DeliveryLog.subscription_id log))
    (subscriptions w) = Some subscription ->
  let (r, w') := AdminController.retryFailedDelivery env req w in
  delivery_logs w' = delivery_logs w
  /\ (DeliveryLog.status log = DeliveryLog.success ->
      status r = 400 /\ code_of r = JStr "INVALID_RETRY" /\ w' = w)
  /\ (DeliveryLog.status log <> DeliveryLog.success ->
      Subscription.is_active subscription = false ->
      status r = 400 /\ code_of r = JStr "INACTIVE_SUBSCRIPTION" /\ w' = w)
  /\ (DeliveryLog.status log <> DeliveryLog.success ->
      Subscription.is_active subscription = true ->
      redis_up env = true ->
      status r = 200
      /\ queue w' = queue w ++
           [ Job.mk (Job.deliver_webhook (DeliveryLog.event_id log)
                       (DeliveryLog.subscription_id log))
               (WebhookService.max_retry_attempts env) 2000 0 ]).
Proof.
  intros Hid Hlog Hsub.
  unfold AdminController.retryFailedDelivery, respond, bind,
    Prisma.deliveryLog_findUnique, WebhookService.queueWebhookDelivery,
    WebhookService.queue_add, try_catch, ret, throw.
  rewrite (str_eqb_neq _ _ Hid), Hlog, Hsub.
  destruct (DeliveryLog.status log) eqn:Hst; simpl;
    destruct (Subscription.is_active subscription) eqn:Hact; simpl;
    destruct (redis_up env) eqn:Hup; simpl;
    repeat split; intros; try reflexivity; try congruence; try discriminate.
Qed.

(* ===================================================================== *)
(** ** The delivery worker *)
(* ===================================================================== *)

Section Worker.
Context `{Platform}.
Variable sink : HttpRequest -> HttpOutcome.

Lemma existsb_last_log (i : jsstring) (l : list DeliveryLog.t) (d : DeliveryLog.t) :
  DeliveryLog.id d = i ->
  existsb (fun x => str_eqb (DeliveryLog.id x) i) (l ++ [d]) = true.
Proof.
  intros <-; rewrite existsb_app; simpl.
  rewrite str_eqb_refl, orb_true_r; reflexivity.
Qed.

Lemma replace_log_last (i : jsstring) (f : DeliveryLog.t -> DeliveryLog.t)
    (l : list DeliveryLog.t) (d : DeliveryLog.t) :
  forallb (fun x => negb (str_eqb (DeliveryLog.id x) i)) l = true ->
  DeliveryLog.id d = i ->
  Prisma.replace_log i f (l ++ [d]) = l ++ [f d].
Proof.
  intros Hl Hd; induction l as [|x l IH]; simpl in *.
  - rewrite Hd, str_eqb_refl; reflexivity.
  - apply andb_true_iff in Hl; destruct Hl as [Hx Hl].
    apply negb_true_iff in Hx; rewrite Hx, IH by exact Hl; reflexivity.
Qed.

Lemma replace_log_attempt_count (i : jsstring) (f : DeliveryLog.t -> DeliveryLog.t)
    (l : list DeliveryLog.t) :
  (forall d, DeliveryLog.attempt_count (f d) = DeliveryLog.attempt_count d) ->
  map DeliveryLog.attempt_count (Prisma.replace_log i f l)
  = map DeliveryLog.attempt_count l.
Proof.
  intros Hf; induction l as [|x l IH]; simpl; [reflexivity|].
  destruct (str_eqb (DeliveryLog.id x) i); simpl; [rewrite Hf | rewrite IH]; reflexivity.
Qed.

(** The row a transport failure leaves behind. *)
Lemma transport_error_row (env : Env) (eventId subscriptionId : jsstring)
    (w : World) (event : Event.t) (subscription : Subscription.t)
    (B reason : jsstring) :
  find (fun e => str_eqb (Event.id e) eventId) (events w) = Some event ->
  find (fun s => str_eqb (Subscription.id s) subscriptionId) (subscriptions w)
    = Some subscription ->
  Subscription.is_active subscription = true ->
  JSON_stringify (WebhookWorker.envelope event) = Some B ->
  sink (mkHttpRequest (Subscription.target_url subscription) B
          (SecurityUtils.generateWebhookHeaders env B
             (Subscription.secret_key subscription)
             (Event.event_type event) (Event.id event)))
    = NoReply reason ->
  next_log_id_fresh w = true ->
  exists w',
    WebhookWorker.processWebhookDelivery sink env eventId subscriptionId w
    = (Throw (Error reason), w')
    /\ delivery_logs w'
       = delivery_logs w ++
           [ DeliveryLog.mk (uuid (next_uuid w)) eventId subscriptionId
               DeliveryLog.failed 1 (now env) (Some 0) None
               (Some (if str_eqb reason [] then js "Unknown error" else reason)) ].
Proof.
  intros He Hs Ha HB Hsink Hfresh.
  unfold WebhookWorker.processWebhookDelivery, try_catch, bind,
    Prisma.event_findUnique, Prisma.subscription_findUnique.
  rewrite He, Hs, Ha; simpl negb; cbv iota.
  unfold Prisma.deliveryLog_create, Prisma.fresh_id, bind.
  unfold lift, stringify_string; rewrite HB.
  unfold WebhookWorker.axios_post; rewrite Hsink.
  unfold throw, Error, ret, Prisma.deliveryLog_update; simpl.
  rewrite existsb_last_log by reflexivity.
  eexists; split; [reflexivity|]; simpl.
  rewrite replace_log_last; [reflexivity | exact Hfresh | reflexivity].
Qed.

End Worker.

(** C4, as the code has it: when no response arrives for an attempt, the
    worker throws the transport error back to the queue and the row of
    the attempt ends as failed with [response_status_code = 0] (a
    number, not null), [response_body = null] and the error's message
    in [error_message] ("Unknown error" when the message is empty). *)
Theorem C4_transport_error_row `{Platform} (sink : HttpRequest -> HttpOutcome)
    (env : Env) (eventId subscriptionId : jsstring) (w : World)
    (event : Event.t) (subscription : Subscription.t) (B reason : jsstring) :
  find (fun e => str_eqb (Event.id e) eventId) (events w) = Some event ->
  find (fun s => str_eqb (Subscription.id s) subscriptionId) (subscriptions w)
    = Some subscription ->
  Subscription.is_active subscription = true ->
  JSON_stringify (WebhookWorker.envelope event) = Some B ->
  sink (mkHttpRequest (Subscription.target_url subscription) B
          (SecurityUtils.generateWebhookHeaders env B
             (Subscription.secret_key subscription)
             (Event.event_type event) (Event.id event)))
    = NoReply reason ->
  next_log_id_fresh w = true ->
  exists w' row,
    WebhookWorker.processWebhookDelivery sink env eventId subscriptionId w
    = (Throw (Error reason), w')
    /\ delivery_logs w' = delivery_logs w ++ [row]
    /\ DeliveryLog.event_id row = eventId
    /\ DeliveryLog.subscription_id row = subscriptionId
    /\ DeliveryLog.status row = DeliveryLog.failed
    /\ DeliveryLog.response_status_code row = Some 0
    /\ DeliveryLog.response_body row = None
    /\ DeliveryLog.error_message row
       = Some (if str_eqb reason [] then js "Unknown error" else reason).
Proof.
  intros He Hs Ha HB Hsink Hfresh.
  destruct (transport_error_row sink env eventId subscriptionId w event subscription B reason
              He Hs Ha HB Hsink Hfresh)
    as [w' [Hrun Hlogs]].
  exists w'; eexists; split; [exact Hrun|]; split; [exact Hlogs|].
  repeat split.
Qed.

Section Drop.
Context `{Platform}.
Variable sink : HttpRequest -> HttpOutcome.

Lemma classic_receiver (this : WebhookWorker.Receiver) :
  this = WebhookWorker.the_class \/ this <> WebhookWorker.the_class.
Proof. destruct this; [left; reflexivity | right; discriminate ..]. Qed.

Lemma dropped_find (sid : jsstring) (w : World) (s : Subscription.t) :
  dropped sid w = true ->
  find (fun s => str_eqb (Subscription.id s) sid) (subscriptions w) = Some s ->
  Subscription.is_active s = false.
Proof.
  intros Hd Hf; apply find_some in Hf; destruct Hf as [Hin Hid].
  unfold dropped in Hd; rewrite forallb_forall in Hd.
  specialize (Hd s Hin); rewrite Hid in Hd; simpl in Hd.
  apply negb_true_iff in Hd; exact Hd.
Qed.

(** An attempt against a missing or inactive subscription throws before
    any row is written. *)
Lemma delivery_dropped (env : Env) (eventId sid : jsstring) (w : World) :
  dropped sid w = true ->
  WebhookWorker.processWebhookDelivery sink env eventId sid w
  = (Throw (drop_error eventId sid w), w).
Proof.
  intros Hd.
  unfold WebhookWorker.processWebhookDelivery, try_catch, bind,
    Prisma.event_findUnique, Prisma.subscription_findUnique, drop_error.
  destruct (find _ (events w)) as [event|]; [|reflexivity].
  destruct (find _ (subscriptions w)) as [s|] eqn:Hs; [|reflexivity].
  rewrite (dropped_find _ _ _ Hd Hs); reflexivity.
Qed.

(** Called on anything but the class, the processor throws before it
    reads the store. *)
Lemma processJob_detached (this : WebhookWorker.Receiver) (env : Env) (job : Job.t)
    (w : World) :
  this <> WebhookWorker.the_class ->
  WebhookWorker.processJob sink this env job w = (Throw (detached_error this job), w).
Proof.
  intros Hthis; unfold WebhookWorker.processJob, try_catch, detached_error,
    handler_name, WebhookWorker.this_call.
  destruct this; [contradiction | |]; destruct (Job.data job); reflexivity.
Qed.

Lemma attempts_detached (this : WebhookWorker.Receiver) (env : nat -> Env)
    (retries : nat) :
  this <> WebhookWorker.the_class ->
  forall job w,
    WebhookWorker.attempt sink this retries env job w
    = (WebhookWorker.permanently_failed (detached_error this job), w).
Proof.
  intros Hthis; induction retries as [|retries IH]; intros job w;
    cbn [WebhookWorker.attempt]; rewrite (processJob_detached _ _ _ _ Hthis).
  - reflexivity.
  - rewrite IH; reflexivity.
Qed.

Lemma attempts_dropped (this : WebhookWorker.Receiver) (env : nat -> Env)
    (sid : jsstring) (w : World) (retries : nat) :
  dropped sid w = true ->
  forall job eventId,
    Job.data job = Job.deliver_webhook eventId sid ->
    exists e,
      WebhookWorker.attempt sink this retries env job w
      = (WebhookWorker.permanently_failed e, w)
      /\ (this = WebhookWorker.the_class -> e = drop_error eventId sid w).
Proof.
  intros Hd job eventId Hjob.
  destruct this;
    [|eexists; split; [apply attempts_detached; discriminate | discriminate] ..].
  exists (drop_error eventId sid w); split; [|reflexivity].
  revert job Hjob; induction retries as [|retries IH]; intros job Hjob;
    cbn [WebhookWorker.attempt]; unfold WebhookWorker.processJob, try_catch,
      WebhookWorker.this_call;
    rewrite Hjob, (delivery_dropped (env (Job.attemptsMade job)) eventId sid w Hd).
  - reflexivity.
  - apply IH; exact Hjob.
Qed.

Lemma queue_all_effect (env : Env) (eventId : jsstring)
    (subs : list Subscription.t) (w : World) :
  exists added,
    delivery_logs (snd (WebhookWorker.queue_all env eventId subs w)) = delivery_logs w
    /\ subscriptions (snd (WebhookWorker.queue_all env eventId subs w)) = subscriptions w
    /\ queue (snd (WebhookWorker.queue_all env eventId subs w)) = queue w ++ added
    /\ Forall (fun j => exists s, In s subs
                        /\ Job.data j = Job.deliver_webhook eventId (Subscription.id s))
         added.
Proof.
  revert w; induction subs as [|s subs IH]; intros w; simpl.
  - exists []; rewrite app_nil_r; repeat split; constructor.
  - unfold bind, WebhookWorker.queueIndividualDelivery, try_catch,
      WebhookService.queue_add.
    destruct (redis_up env); simpl.
    + match goal with |- context [WebhookWorker.queue_all env eventId subs ?w1] =>
        destruct (IH w1) as [added [Hl [Hs [Hq Hall]]]] end.
      simpl in *.
      eexists (_ :: added); rewrite Hl, Hs, Hq, <- app_assoc; repeat split.
      constructor; [exists s; split; [left|]; reflexivity|].
      eapply Forall_impl; [|exact Hall].
      intros j [s' [Hin Hj]]; exists s'; split; [right|]; assumption.
    + exists []; rewrite app_nil_r; repeat split; constructor.
Qed.

Lemma fanout_effect (env : Env) (eventId eventType : jsstring) (w : World) :
  exists added,
    delivery_logs (snd (WebhookWorker.processWebhookDeliveries env eventId eventType w))
    = delivery_logs w
    /\ subscriptions (snd (WebhookWorker.processWebhookDeliveries env eventId eventType w))
       = subscriptions w
    /\ queue (snd (WebhookWorker.processWebhookDeliveries env eventId eventType w))
       = queue w ++ added
    /\ Forall (fun j => exists s, In s (subscriptions w)
                        /\ Subscription.is_active s = true
                        /\ Subscription.event_type s = eventType
                        /\ Job.data j = Job.deliver_webhook eventId (Subscription.id s))
         added.
Proof.
  unfold WebhookWorker.processWebhookDeliveries, try_catch, bind,
    Prisma.subscription_findMany.
  set (subs := filter _ (subscriptions w)).
  destruct (List.length subs =? 0)%nat; simpl.
  - exists []; rewrite app_nil_r; repeat split; constructor.
  - destruct (queue_all_effect env eventId subs w) as [added [Hl [Hs [Hq Hall]]]].
    exists added.
    destruct (WebhookWorker.queue_all env eventId subs w) as [[[]|e] w']; simpl in *;
      (repeat split; try assumption;
       eapply Forall_impl; [|exact Hall];
       intros j [s [Hin Hj]]; apply filter_In in Hin; destruct Hin as [Hin Hp];
       apply andb_true_iff in Hp; destruct Hp as [Het Hact];
       apply str_eqb_eq in Het; apply eqb_prop in Hact;
       exists s; repeat split; assumption).
Qed.

Lemma fanout_attempts (this : WebhookWorker.Receiver) (env : nat -> Env)
    (retries : nat) :
  forall job eventId eventType w,
    Job.data job = Job.process_webhook_deliveries eventId eventType ->
    exists added,
      delivery_logs (snd (WebhookWorker.attempt sink this retries env job w))
      = delivery_logs w
      /\ subscriptions (snd (WebhookWorker.attempt sink this retries env job w))
         = subscriptions w
      /\ queue (snd (WebhookWorker.attempt sink this retries env job w))
         = queue w ++ added
      /\ Forall (fun j => exists s, In s (subscriptions w)
                          /\ Subscription.is_active s = true
                          /\ Subscription.event_type s = eventType
                          /\ Job.data j = Job.deliver_webhook eventId (Subscription.id s))
           added.
Proof.
  destruct (classic_receiver this) as [-> | Hthis].
  - induction retries as [|retries IH]; intros job eventId eventType w Hjob;
      destruct (fanout_effect (env (Job.attemptsMade job)) eventId eventType w)
        as [added [Hl [Hs [Hq Hall]]]];
      simpl; unfold WebhookWorker.processJob, try_catch, WebhookWorker.this_call;
      rewrite Hjob;
      destruct (WebhookWorker.processWebhookDeliveries _ _ _ w) as [[v|e] w'];
      simpl in *; try (exists added; repeat split; assumption).
    destruct (IH (WebhookWorker.next_attempt job) eventId eventType w' Hjob)
      as [added' [Hl' [Hs' [Hq' Hall']]]].
    exists (added ++ added'); rewrite Hl', Hs', Hq', Hl, Hs, Hq, app_assoc.
    repeat split. apply Forall_app; split; [exact Hall|].
    rewrite Hs in Hall'; exact Hall'.
  - intros job eventId eventType w _.
    rewrite (attempts_detached this env retries Hthis job w).
    exists []; rewrite app_nil_r; repeat split; constructor.
Qed.

Lemma dropped_not_delivered (sid : jsstring) (w : World) (s : Subscription.t)
    (j : Job.t) (eventId : jsstring) :
  dropped sid w = true ->
  In s (subscriptions w) -> Subscription.is_active s = true ->
  Job.data j = Job.deliver_webhook eventId (Subscription.id s) ->
  delivers_to sid j = false.
Proof.
  intros Hd Hin Hact Hj; unfold delivers_to; rewrite Hj.
  unfold dropped in Hd; rewrite forallb_forall in Hd.
  specialize (Hd s Hin); rewrite Hact in Hd; simpl in Hd.
  rewrite orb_false_r in Hd; apply negb_true_iff in Hd; exact Hd.
Qed.

End Drop.

(** C1, as the code has it: while a subscription is missing or inactive,
    a delivery for it writes no DeliveryLog row and changes nothing, and
    it does not complete.  [processWebhookDelivery] throws "Event not
    found: <id>" when the event is missing too, otherwise "Subscription
    not found: <id>" or "Subscription is inactive: <id>"; whatever the
    queue calls the processor on, every attempt of the job throws and
    the queue ends by marking it failed, with that error when the
    processor is called on the class.  The fan-out of an event writes no
    row either and enqueues no delivery job for that subscription.  So
    an event posted after the deactivation leaves the subscription
    without a DeliveryLog row. *)
Theorem C1_dropped_delivery_fails `{Platform} (sink : HttpRequest -> HttpOutcome)
    (env : nat -> Env) (w : World) (sid : jsstring) :
  dropped sid w = true ->
  (forall env0 eventId,
     WebhookWorker.processWebhookDelivery sink env0 eventId sid w
     = (Throw (drop_error eventId sid w), w))
  /\ (forall this job eventId,
        Job.data job = Job.deliver_webhook eventId sid ->
        exists e,
          WebhookWorker.run_job sink this env job w
          = (WebhookWorker.permanently_failed e, w)
          /\ (this = WebhookWorker.the_class -> e = drop_error eventId sid w))
  /\ (forall this job eventId eventType,
        Job.data job = Job.process_webhook_deliveries eventId eventType ->
        exists added,
          delivery_logs (snd (WebhookWorker.run_job sink this env job w))
          = delivery_logs w
          /\ queue (snd (WebhookWorker.run_job sink this env job w)) = queue w ++ added
          /\ forallb (fun j => negb (delivers_to sid j)) added = true).
Proof.
  intros Hd; split; [|split].
  - intros env0 eventId; apply delivery_dropped; exact Hd.
  - intros this job eventId Hjob; unfold WebhookWorker.run_job.
    apply attempts_dropped; assumption.
  - intros this job eventId eventType Hjob; unfold WebhookWorker.run_job.
    destruct (fanout_attempts sink this env
                (Job.attempts job - Job.attemptsMade job - 1)
                job eventId eventType w Hjob) as [added [Hl [_ [Hq Hall]]]].
    exists added; repeat split; try assumption.
    apply forallb_forall; intros j Hj.
    rewrite Forall_forall in Hall.
    destruct (Hall j Hj) as [s [Hin [Hact [_ Hdata]]]].
    rewrite (dropped_not_delivered sid w s j eventId Hd Hin Hact Hdata); reflexivity.
Qed.

(* ===================================================================== *)
(** ** Attempt counts *)
(* ===================================================================== *)

Arguments substring0 : simpl never.

Section Preservation.
Variable R : World -> World -> Prop.
Hypothesis R_refl : forall w, R w w.
Hypothesis R_trans : forall w1 w2 w3, R w1 w2 -> R w2 w3 -> R w1 w3.

Lemma preserves_ret {A} (a : A) : preserves R (ret a).
Proof. intros w; apply R_refl. Qed.

Lemma preserves_throw {A} (e : JsError) : preserves R (@throw A e).
Proof. intros w; apply R_refl. Qed.

Lemma preserves_lift {A} (r : Result A) : preserves R (lift r).
Proof. intros w; apply R_refl. Qed.

Lemma preserves_bind {A B} (c : M A) (k : A -> M B) :
  preserves R c -> (forall a, preserves R (k a)) -> preserves R (bind c k).
Proof.
  intros Hc Hk w; unfold bind.
  specialize (Hc w); destruct (c w) as [[a|e] w1]; simpl in *; [|exact Hc].
  eapply R_trans; [exact Hc | apply Hk].
Qed.

Lemma preserves_try_catch {A} (c : M A) (h : JsError -> M A) :
  preserves R c -> (forall e, preserves R (h e)) -> preserves R (try_catch c h).
Proof.
  intros Hc Hh w; unfold try_catch.
  specialize (Hc w); destruct (c w) as [[a|e] w1]; simpl in *; [exact Hc|].
  eapply R_trans; [exact Hc | apply Hh].
Qed.

End Preservation.

Section AttemptCount.
Context `{Platform}.
Variable sink : HttpRequest -> HttpOutcome.

(** The processor never reads the number of attempts the queue has
    made. *)
Lemma processJob_ignores_attemptsMade (this : WebhookWorker.Receiver) (env : Env)
    (job : Job.t) (w : World) :
  WebhookWorker.processJob sink this env (WebhookWorker.next_attempt job) w
  = WebhookWorker.processJob sink this env job w.
Proof. reflexivity. Qed.

Lemma same_attempt_counts_refl (w : World) : same_attempt_counts w w.
Proof. reflexivity. Qed.

Lemma same_attempt_counts_trans (w1 w2 w3 : World) :
  same_attempt_counts w1 w2 -> same_attempt_counts w2 w3 -> same_attempt_counts w1 w3.
Proof. unfold same_attempt_counts; congruence. Qed.

Lemma finish_keeps_attempt_counts (i : jsstring) (st : DeliveryLog.Status)
    (code : option Z) (body err : DeliveryLog.t -> option jsstring) (t : Z) :
  preserves same_attempt_counts
    (Prisma.deliveryLog_update i
       (fun d => WebhookWorker.finish st code (body d) (err d) t d)).
Proof.
  intros w; unfold Prisma.deliveryLog_update, same_attempt_counts.
  destruct (existsb _ _); simpl; [|reflexivity].
  apply replace_log_attempt_count; reflexivity.
Qed.

Lemma axios_post_keeps (u payload : jsstring) (hs : JsValue) :
  preserves same_attempt_counts (WebhookWorker.axios_post sink u payload hs).
Proof.
  unfold WebhookWorker.axios_post.
  destruct (sink _); [destruct (_ && _)|]; intros w; reflexivity.
Qed.

Create HintDb relay.
Hint Resolve same_attempt_counts_refl same_attempt_counts_trans : relay.

(** Every row an attempt writes has [attempt_count = 1]. *)
Lemma delivery_attempt_count (env : Env) (eventId subscriptionId : jsstring)
    (w : World) :
  exists added,
    map DeliveryLog.attempt_count
      (delivery_logs
         (snd (WebhookWorker.processWebhookDelivery sink env eventId subscriptionId w)))
    = map DeliveryLog.attempt_count (delivery_logs w) ++ added
    /\ Forall (fun n => n = 1) added.
Proof.
  unfold WebhookWorker.processWebhookDelivery, try_catch at 1, bind at 1, bind at 1,
    Prisma.event_findUnique, Prisma.subscription_findUnique.
  destruct (find _ (events w)) as [event|];
    [|exists []; rewrite app_nil_r; split; [reflexivity | constructor]].
  destruct (find _ (subscriptions w)) as [s|];
    [|exists []; rewrite app_nil_r; split; [reflexivity | constructor]].
  destruct (Subscription.is_active s); unfold negb; cbv beta iota;
    [|exists []; rewrite app_nil_r; split; [reflexivity | constructor]].
  exists [1]; split; [|repeat constructor].
  unfold bind at 1, Prisma.deliveryLog_create, bind at 1, Prisma.fresh_id.
  cbv beta iota.
  match goal with
  | |- context [try_catch ?c ?h ?w1] =>
      assert (Hk : preserves same_attempt_counts (try_catch c h));
      [|specialize (Hk w1); destruct (try_catch c h w1) as [[v|e] w2]]
  end.
  - apply preserves_try_catch; eauto with relay.
    + repeat (apply preserves_bind; eauto with relay; intros).
      * apply preserves_lift; eauto with relay.
      * apply axios_post_keeps.
      * apply preserves_lift; eauto with relay.
      * apply (finish_keeps_attempt_counts _ _ _ (fun _ => _) (fun d => _)).
      * apply preserves_ret; eauto with relay.
    + intros e.
      repeat (apply preserves_bind; eauto with relay; intros).
      * destruct (response e) as [r|];
          [destruct (truthy (resp_data r))|];
          try (apply preserves_ret; eauto with relay).
        apply preserves_bind; eauto with relay; intros;
          [apply preserves_lift | apply preserves_ret]; eauto with relay.
      * apply (finish_keeps_attempt_counts _ _ _ (fun _ => _) (fun _ => _)).
      * apply preserves_throw; eauto with relay.
  - simpl in *; unfold same_attempt_counts in Hk; rewrite Hk; simpl.
    rewrite map_app; reflexivity.
  - simpl in *; unfold same_attempt_counts in Hk; rewrite Hk; simpl.
    rewrite map_app; reflexivity.
Qed.

End AttemptCount.

Section AttemptCountOfJobs.
Context `{Platform}.
Variable sink : HttpRequest -> HttpOutcome.

Lemma processJob_attempt_count (this : WebhookWorker.Receiver) (env : Env)
    (job : Job.t) (w : World) :
  exists added,
    map DeliveryLog.attempt_count
      (delivery_logs (snd (WebhookWorker.processJob sink this env job w)))
    = map DeliveryLog.attempt_count (delivery_logs w) ++ added
    /\ Forall (fun n => n = 1) added.
Proof.
  destruct (classic_receiver this) as [-> | Hthis];
    [|rewrite (processJob_detached sink this env job w Hthis);
      exists []; rewrite app_nil_r; split; [reflexivity | constructor]].
  unfold WebhookWorker.processJob, try_catch, WebhookWorker.this_call.
  destruct (Job.data job) as [eventId eventType | eventId subscriptionId].
  - destruct (fanout_effect env eventId eventType w) as [q [Hl _]].
    exists []; rewrite app_nil_r; split; [|constructor].
    destruct (WebhookWorker.processWebhookDeliveries env eventId eventType w)
      as [[v|e] w']; simpl in *; rewrite Hl; reflexivity.
  - destruct (delivery_attempt_count sink env eventId subscriptionId w)
      as [added [Hl Hall]].
    exists added; split; [|exact Hall].
    destruct (WebhookWorker.processWebhookDelivery sink env eventId subscriptionId w)
      as [[v|e] w']; simpl in *; exact Hl.
Qed.

(** However many attempts the queue makes, the rows they write all
    carry [attempt_count = 1]. *)
Lemma run_job_attempt_count (this : WebhookWorker.Receiver) (env : nat -> Env)
    (retries : nat) :
  forall job w,
    exists added,
      map DeliveryLog.attempt_count
        (delivery_logs (snd (WebhookWorker.attempt sink this retries env job w)))
      = map DeliveryLog.attempt_count (delivery_logs w) ++ added
      /\ Forall (fun n => n = 1) added.
Proof.
  induction retries as [|retries IH]; intros job w;
    destruct (processJob_attempt_count this (env (Job.attemptsMade job)) job w)
      as [added [Hl Hall]];
    simpl;
    destruct (WebhookWorker.processJob sink this (env (Job.attemptsMade job)) job w)
      as [[v|e] w']; simpl in *; try (exists added; split; assumption).
  destruct (IH (WebhookWorker.next_attempt job) w') as [added' [Hl' Hall']].
  exists (added ++ added'); rewrite Hl', Hl, app_assoc; split; [reflexivity|].
  apply Forall_app; split; assumption.
Qed.

End AttemptCountOfJobs.

Section RetriesOnSample.
#[local] Existing Instance Sample.platform.

(** C2 at a failing input: the delivery of event id-1 to subscription
    id-0 with three attempts, against an endpoint that always answers
    500, the processor called on the class.  The queue makes the
    attempts numbered 1, 2 and 3 and marks the job failed; the three
    rows are failed with status code 500 and each has [attempt_count =
    1], the second and third included, where the specification has the
    attempt numbers 1, 2 and 3.  Whatever the processor is called on,
    and whatever the job, the endpoint and the attempts, every row a job
    adds has [attempt_count = 1]. *)
Theorem C2_retried_rows_count_one :
  (exists e, fst (WebhookWorker.run_job Sample.always_500 WebhookWorker.the_class
                    Sample.clock Sample.delivery Sample.posted)
             = WebhookWorker.permanently_failed e)
  /\ map (fun d => (DeliveryLog.event_id d, DeliveryLog.subscription_id d,
                    DeliveryLog.status d, DeliveryLog.response_status_code d,
                    DeliveryLog.attempt_count d))
       (delivery_logs Sample.exhausted)
     = [ (js "id-1", js "id-0", DeliveryLog.failed, Some 500, 1);
         (js "id-1", js "id-0", DeliveryLog.failed, Some 500, 1);
         (js "id-1", js "id-0", DeliveryLog.failed, Some 500, 1) ]
  /\ map DeliveryLog.attempt_count
       (delivery_logs
          (snd (WebhookWorker.processJob Sample.always_500 WebhookWorker.the_class
                  (Sample.clock 1) (WebhookWorker.next_attempt Sample.delivery)
                  Sample.posted)))
     = [1]
  /\ (forall sink this env job w,
        exists added,
          map DeliveryLog.attempt_count
            (delivery_logs (snd (WebhookWorker.run_job sink this env job w)))
          = map DeliveryLog.attempt_count (delivery_logs w) ++ added
          /\ Forall (fun n => n = 1) added).
Proof.
  split; [|split; [|split]].
  - eexists; vm_compute; reflexivity.
  - vm_compute; reflexivity.
  - vm_compute; reflexivity.
  - intros sink this env job w; apply run_job_attempt_count.
Qed.

(** A delivery to a deactivated subscription does not complete: the
    handler throws, and the queue marks the job failed, whatever it
    calls the processor on. *)
Lemma C1_counterexample :
  (forall v w,
     WebhookWorker.processWebhookDelivery Sample.always_200 (Sample.clock 0)
       (js "id-1") (js "id-0") Sample.deactivated <> (Ok v, w))
  /\ (forall this v,
        fst (WebhookWorker.run_job Sample.always_200 this Sample.clock
               Sample.delivery Sample.deactivated)
        <> WebhookWorker.completed v).
Proof.
  split; [intros v w; vm_compute; discriminate|].
  intros [| |] v; vm_compute; discriminate.
Qed.

Lemma C1_dropped_delivery_fails_witness :
  dropped (js "id-0") Sample.deactivated = true
  /\ WebhookWorker.processWebhookDelivery Sample.always_200 (Sample.clock 0)
       (js "id-1") (js "id-0") Sample.deactivated
     = (Throw (Error (js "Subscription is inactive: id-0")), Sample.deactivated)
  /\ (forall this,
        exists e,
          WebhookWorker.run_job Sample.always_200 this Sample.clock Sample.delivery
            Sample.deactivated
          = (WebhookWorker.permanently_failed e, Sample.deactivated)).
Proof.
  split; [reflexivity|].
  destruct (C1_dropped_delivery_fails Sample.always_200 Sample.clock
              Sample.deactivated (js "id-0") eq_refl) as [Hcall [Hjob _]].
  split; [exact (Hcall (Sample.clock 0) (js "id-1"))|].
  intros this.
  destruct (Hjob this Sample.delivery (js "id-1") eq_refl) as [e [He _]].
  exists e; exact He.
Defined.

(** With the endpoint unreachable the failed row has
    [response_status_code = 0], not null. *)
Lemma C4_counterexample :
  map DeliveryLog.response_status_code
    (delivery_logs
       (snd (WebhookWorker.processWebhookDelivery Sample.unreachable
               (Sample.at_time 9) (js "id-1") (js "id-0") Sample.posted)))
  = [Some 0].
Proof. vm_compute; reflexivity. Qed.

Lemma C4_transport_error_row_witness :
  exists w' row,
    WebhookWorker.processWebhookDelivery Sample.unreachable (Sample.at_time 9)
      (js "id-1") (js "id-0") Sample.posted
    = (Throw (Error (js "timeout of 30000ms exceeded")), w')
    /\ delivery_logs w' = delivery_logs Sample.posted ++ [row]
    /\ DeliveryLog.response_status_code row = Some 0.
Proof.
  destruct (C4_transport_error_row Sample.unreachable (Sample.at_time 9)
              (js "id-1") (js "id-0") Sample.posted
              (Event.mk (js "id-1") (js "k1") (js "user.created")
                 (obj [ ("x", JNum 1) ]) 1000)
              (Subscription.mk (js "id-0") (js "user.created") (js "http://sink/ok")
                 (hex (repeat 171 32)) true 5 5)
              _ (js "timeout of 30000ms exceeded")
              eq_refl eq_refl eq_refl eq_refl eq_refl eq_refl)
    as [w' [row [Hrun [Hlogs [_ [_ [_ [Hcode _]]]]]]]].
  exists w', row; repeat split; assumption.
Defined.

(** The headers of a delivery have no entry named X-Signature. *)
Lemma C8_counterexample :
  let B := js "{}" in
  let s := js "secret" in
  get (SecurityUtils.generateWebhookHeaders (Sample.at_time 0) B s
         (js "user.created") (js "id-1")) "X-Signature"
  <> JString (js "sha256=" ++ hex (hmac_sha256 s B)).
Proof. vm_compute; discriminate. Qed.

Lemma C8_signature_header_witness :
  exists B,
    JSON_stringify
      (WebhookWorker.envelope
         (Event.mk (js "id-1") (js "k1") (js "user.created")
            (obj [ ("x", JNum 1) ]) 1000)) = Some B
    /\ get (SecurityUtils.generateWebhookHeaders (Sample.at_time 9) B
              (hex (repeat 171 32)) (js "user.created") (js "id-1"))
         "X-AlgoHire-Signature"
       = JString (js "sha256=" ++ hex (hmac_sha256 (hex (repeat 171 32)) B)).
Proof.
  eexists; split; [reflexivity|].
  exact (proj1 (proj2
    (C8_signature_header Sample.always_200 (Sample.at_time 9)
       (js "id-1") (js "id-0") Sample.posted
       (Event.mk (js "id-1") (js "k1") (js "user.created")
          (obj [ ("x", JNum 1) ]) 1000)
       (Subscription.mk (js "id-0") (js "user.created") (js "http://sink/ok")
          (hex (repeat 171 32)) true 5 5)
       _ eq_refl eq_refl eq_refl))).
Defined.

Lemma C7_manual_retry_witness :
  let (r, w') := AdminController.retryFailedDelivery (Sample.at_time 20)
                   (Sample.retry "id-4") Sample.exhausted in
  status r = 200
  /\ delivery_logs w' = delivery_logs Sample.exhausted
  /\ queue w' = queue Sample.exhausted ++
       [ Job.mk (Job.deliver_webhook (js "id-1") (js "id-0")) 3 2000 0 ].
Proof.
  pose proof (C7_manual_retry (Sample.at_time 20) (Sample.retry "id-4")
                Sample.exhausted
                (DeliveryLog.mk (js "id-4") (js "id-1") (js "id-0")
                   DeliveryLog.failed 1 2000 (Some 500)
                   (Some (js "{" ++ quote (js "error") ++ js ":" ++ quote (js "boom") ++ js "}"))
                   (Some (js "Request failed with status code 500")))
                (Subscription.mk (js "id-0") (js "user.created") (js "http://sink/ok")
                   (hex (repeat 171 32)) true 5 5)
                ltac:(discriminate) eq_refl eq_refl) as Hretry.
  destruct (AdminController.retryFailedDelivery (Sample.at_time 20)
              (Sample.retry "id-4") Sample.exhausted) as [r w'].
  destruct Hretry as [Hlogs [_ [_ Hq]]].
  destruct (Hq ltac:(discriminate) eq_refl eq_refl) as [Hst Hqueue].
  repeat split; assumption.
Defined.

End RetriesOnSample.

(* ===================================================================== *)
(** ** Ingestion and idempotency *)
(* ===================================================================== *)

Section Ingestion.
Context `{Platform}.

Lemma valid_eventType (b : JsValue) :
  EventController.validateEventRequest b = Ok (EventController.mkValidation true None) ->
  exists s, get b "eventType" = JString s.
Proof.
  unfold EventController.validateEventRequest.
  destruct (negb (truthy b) || negb (JsType_eqb (typeof b) TObject)); [discriminate|].
  destruct (get b "eventType"); try discriminate; eauto.
Qed.

Lemma find_key_exists (k : jsstring) (l : list Event.t) :
  find (Prisma.has_key k) l = None -> existsb (Prisma.has_key k) l = false.
Proof.
  induction l as [|e l IH]; simpl; [reflexivity|].
  destruct (Prisma.has_key k e); [discriminate | exact IH].
Qed.

Lemma find_key_last (k : jsstring) (l : list Event.t) (e : Event.t) :
  find (Prisma.has_key k) l = None -> Event.idempotency_key e = k ->
  find (Prisma.has_key k) (l ++ [e]) = Some e.
Proof.
  intros Hl He; induction l as [|x l IH]; simpl in *.
  - unfold Prisma.has_key; rewrite He, str_eqb_refl; reflexivity.
  - destruct (Prisma.has_key k x); [discriminate | apply IH; exact Hl].
Qed.

Lemma exists_key_last (k : jsstring) (l : list Event.t) (e : Event.t) :
  Event.idempotency_key e = k -> existsb (Prisma.has_key k) (l ++ [e]) = true.
Proof.
  intros He; rewrite existsb_app; simpl; unfold Prisma.has_key at 2.
  rewrite He, str_eqb_refl, orb_true_r; reflexivity.
Qed.

(** A valid request whose key is not stored moves on to the insert. *)
Lemma step_received_new (env : Env) (k : jsstring) (req : Request) (w : World) :
  valid_request k req ->
  find (Prisma.has_key k) (events w) = None ->
  exists eventType payload,
    EventController.step env (EventController.Received req) w
    = (EventController.Creating (now env) k (JString eventType) payload, w).
Proof.
  intros [Hk [Hne Hv]] Hf.
  destruct (valid_eventType _ Hv) as [s Hs].
  exists s, (get (req_body req) "payload").
  unfold EventController.step, EventController.receive, bind, lift,
    Prisma.event_findUnique_by_key, ret.
  rewrite Hk, (str_eqb_neq _ _ Hne), Hv; simpl.
  rewrite Hf, Hs; reflexivity.
Qed.

(** A valid request whose key is stored is answered with the stored
    row; nothing is written. *)
Lemma step_received_stored (env : Env) (k : jsstring) (req : Request) (w : World)
    (e : Event.t) :
  valid_request k req ->
  find (Prisma.has_key k) (events w) = Some e ->
  exists r,
    EventController.step env (EventController.Received req) w
    = (EventController.Done r, w)
    /\ duplicate_of e r.
Proof.
  intros [Hk [Hne Hv]] Hf.
  unfold EventController.step, EventController.receive, bind, lift,
    Prisma.event_findUnique_by_key, ret.
  rewrite Hk, (str_eqb_neq _ _ Hne), Hv; simpl.
  rewrite Hf.
  eexists; split; [reflexivity|]; repeat split.
Qed.

(** The insert of a key that is not stored appends the event. *)
Lemma step_creating_new (env : Env) (startTime : Z) (k eventType : jsstring)
    (payload : JsValue) (w : World) :
  existsb (Prisma.has_key k) (events w) = false ->
  exists e w',
    EventController.step env
      (EventController.Creating startTime k (JString eventType) payload) w
    = (EventController.Queueing startTime e, w')
    /\ Event.idempotency_key e = k
    /\ events w' = events w ++ [e]
    /\ queue w' = queue w.
Proof.
  intros Hex.
  unfold EventController.step, EventController.create, bind, string_arg, ret,
    Prisma.event_create, Prisma.fresh_id, bind.
  rewrite Hex; simpl.
  eexists; eexists; split; [reflexivity|]; repeat split.
Qed.

(** The insert of a key that is stored meets the unique index, and the
    handler turns the error into 409; nothing is written. *)
Lemma step_creating_stored (env : Env) (startTime : Z) (k eventType : jsstring)
    (payload : JsValue) (w : World) :
  existsb (Prisma.has_key k) (events w) = true ->
  exists r,
    EventController.step env
      (EventController.Creating startTime k (JString eventType) payload) w
    = (EventController.Done r, w)
    /\ conflict r.
Proof.
  intros Hex.
  unfold EventController.step, EventController.create, bind, string_arg, ret,
    Prisma.event_create.
  rewrite Hex; simpl.
  eexists; split; [reflexivity|]; split; reflexivity.
Qed.

(** The enqueue answers 202 whether or not the queue took the job. *)
Lemma step_queueing (env : Env) (startTime : Z) (e : Event.t) (w : World) :
  exists r w',
    EventController.step env (EventController.Queueing startTime e) w
    = (EventController.Done r, w')
    /\ accepted e r
    /\ events w' = events w
    /\ (queue w' = queue w \/ queue w' = queue w ++ [fanout_job e]).
Proof.
  unfold EventController.step, EventController.enqueue, bind, try_catch,
    WebhookService.queueWebhookDeliveries, try_catch, WebhookService.queue_add, ret.
  destruct (redis_up env); simpl;
    eexists; eexists; (split; [reflexivity|]); repeat split; auto.
Qed.

Lemma step_done (env : Env) (r : Response) (w : World) :
  EventController.step env (EventController.Done r) w = (EventController.Done r, w).
Proof. reflexivity. Qed.

End Ingestion.

Section Idempotency.
Context `{Platform}.

Lemma valid_result (b : JsValue) (v : EventController.ValidationResult) :
  EventController.validateEventRequest b = Ok v ->
  EventController.isValid v = true ->
  v = EventController.mkValidation true None.
Proof.
  unfold EventController.validateEventRequest, EventController.invalid.
  repeat (next_case; try discriminate);
    intros [= <-]; simpl; intros; try discriminate; reflexivity.
Qed.

(** What a request served alone leaves behind when it is answered 202:
    its key is stored, and the answer names the stored row. *)
Lemma processEvent_202 (env : nat -> Env) (req : Request) (w w1 : World)
    (r : Response) :
  EventController.processEvent env req w = (EventController.Done r, w1) ->
  status r = 202 ->
  exists k e,
    valid_request k req
    /\ find (Prisma.has_key k) (events w1) = Some e
    /\ Event.idempotency_key e = k
    /\ get (body r) "eventId" = JString (Event.id e).
Proof.
  unfold EventController.processEvent.
  destruct (x_idempotency_key req) as [k|] eqn:Hk.
  2:{ unfold EventController.step at 1, EventController.receive; rewrite Hk; simpl.
      intros [= <- <-]; discriminate. }
  destruct (str_eqb k []) eqn:Hne.
  { unfold EventController.step at 1, EventController.receive; rewrite Hk, Hne; simpl.
    intros [= <- <-]; discriminate. }
  apply str_eqb_false in Hne.
  destruct (EventController.validateEventRequest (req_body req)) as [v|e] eqn:Hv.
  2:{ unfold EventController.step at 1, EventController.receive, bind, lift.
      rewrite Hk, (str_eqb_neq _ _ Hne), Hv; simpl.
      unfold EventController.processEvent_catch.
      destruct (includes _ _); simpl; intros [= <- <-]; discriminate. }
  destruct (EventController.isValid v) eqn:Hval.
  2:{ unfold EventController.step at 1, EventController.receive, bind, lift.
      rewrite Hk, (str_eqb_neq _ _ Hne), Hv; simpl; rewrite Hval; simpl.
      intros [= <- <-]; discriminate. }
  rewrite (valid_result _ _ Hv Hval) in Hv.
  assert (Hreq : valid_request k req) by (repeat split; assumption).
  destruct (find (Prisma.has_key k) (events w)) as [e|] eqn:Hf.
  - destruct (step_received_stored (env 0%nat) k req w e Hreq Hf) as [r0 [-> Hdup]].
    simpl; intros [= <- <-] _.
    exists k, e; repeat split; try assumption.
    + apply find_some in Hf; destruct Hf as [_ Hf]; apply str_eqb_eq in Hf; exact Hf.
    + apply Hdup.
  - destruct (step_received_new (env 0%nat) k req w Hreq Hf) as [et [payload ->]].
    destruct (step_creating_new (env 1%nat) (now (env 0%nat)) k et payload w
                (find_key_exists _ _ Hf)) as [e [w' [-> [Hke [Hev Hq]]]]].
    destruct (step_queueing (env 2%nat) (now (env 0%nat)) e w')
      as [r2 [w2 [-> [Hacc [Hev2 _]]]]].
    intros [= <- <-] _.
    exists k, e; repeat split; try assumption.
    + rewrite Hev2, Hev; apply find_key_last; assumption.
    + apply Hacc.
Qed.

(** A valid request served alone is answered 202. *)
Lemma processEvent_valid (env : nat -> Env) (k : jsstring) (req : Request) (w : World) :
  valid_request k req ->
  exists r w',
    EventController.processEvent env req w = (EventController.Done r, w')
    /\ status r = 202.
Proof.
  intros Hreq; unfold EventController.processEvent.
  destruct (find (Prisma.has_key k) (events w)) as [e|] eqn:Hf.
  - destruct (step_received_stored (env 0%nat) k req w e Hreq Hf) as [r [-> Hdup]].
    exists r, w; split; [reflexivity | apply Hdup].
  - destruct (step_received_new (env 0%nat) k req w Hreq Hf) as [et [payload ->]].
    destruct (step_creating_new (env 1%nat) (now (env 0%nat)) k et payload w
                (find_key_exists _ _ Hf)) as [e [w' [-> _]]].
    destruct (step_queueing (env 2%nat) (now (env 0%nat)) e w')
      as [r [w2 [-> [Hacc _]]]].
    exists r, w2; split; [reflexivity | apply Hacc].
Qed.

End Idempotency.

(** C6: two valid POST /events requests with the same X-Idempotency-Key
    (whatever their bodies), served one after the other, are both
    answered 202 with the same event id; the second answer carries the
    stored event's id and [received_at], and the second request leaves
    the world as it was: no Event row is added and no fan-out job is
    enqueued. *)
Theorem C6_same_key_same_event `{Platform} (env1 env2 : nat -> Env)
    (req1 req2 : Request) (w : World) (k : jsstring) :
  valid_request k req1 ->
  valid_request k req2 ->
  exists r1 w1 r2 e,
    EventController.processEvent env1 req1 w = (EventController.Done r1, w1)
    /\ status r1 = 202
    /\ EventController.processEvent env2 req2 w1 = (EventController.Done r2, w1)
    /\ status r2 = 202
    /\ get (body r2) "eventId" = get (body r1) "eventId"
    /\ In e (events w1)
    /\ Event.idempotency_key e = k
    /\ duplicate_of e r2.
Proof.
  intros Hreq1 Hreq2.
  destruct (processEvent_valid env1 k req1 w Hreq1) as [r1 [w1 [Hrun H202]]].
  destruct (processEvent_202 env1 req1 w w1 r1 Hrun H202)
    as [k' [e [[Hk' _] [Hf [Hke Hid]]]]].
  assert (Hkk : k' = k) by (destruct Hreq1 as [Hk1 _]; congruence).
  rewrite Hkk in *; clear Hkk Hk'.
  destruct (step_received_stored (env2 0%nat) k req2 w1 e Hreq2 Hf) as [r2 [Hstep Hdup]].
  exists r1, w1, r2, e; repeat split; try apply Hdup; try assumption.
  - unfold EventController.processEvent; rewrite Hstep; reflexivity.
  - rewrite Hid; apply Hdup.
  - apply find_some in Hf; apply Hf.
Qed.

(* ===================================================================== *)
(** ** Two requests with the same key in flight *)
(* ===================================================================== *)

Section Race.
Context `{Platform}.
Variable k : jsstring.
Variable w0 : World.
Hypothesis key_not_stored : find (Prisma.has_key k) (events w0) = None.

Lemma step_won (env : Env) (e : Event.t) (p : EventController.Pending) (w : World) :
  won e (queue w0) (queue w) p ->
  exists p' w',
    EventController.step env p w = (p', w')
    /\ events w' = events w
    /\ won e (queue w0) (queue w') p'.
Proof.
  intros [[st [-> Hq]] | [r [-> [Hacc Hq]]]].
  - destruct (step_queueing env st e w) as [r [w' [-> [Hacc [Hev Hq']]]]].
    eexists; eexists; split; [reflexivity|]; split; [exact Hev|].
    right; exists r; repeat split; try apply Hacc.
    rewrite Hq in Hq'; exact Hq'.
  - eexists; eexists; split; [reflexivity|]; split; [reflexivity|].
    right; eauto.
Qed.

Lemma step_late (env : Env) (e : Event.t) (p : EventController.Pending) (w : World) :
  late k e p ->
  find (Prisma.has_key k) (events w) = Some e ->
  exists p', EventController.step env p w = (p', w) /\ late k e p'.
Proof.
  intros [[req [-> Hreq]] | [r [-> Hr]]] Hf.
  - destruct (step_received_stored env k req w e Hreq Hf) as [r [-> Hdup]].
    eexists; split; [reflexivity|]; right; eauto.
  - eexists; split; [reflexivity|]; right; eauto.
Qed.

Lemma step_early (env : Env) (p : EventController.Pending) (w : World) :
  early k p ->
  existsb (Prisma.has_key k) (events w) = true ->
  exists p', EventController.step env p w = (p', w) /\ early k p'.
Proof.
  intros [[st [et [payload ->]]] | [r [-> Hr]]] Hex.
  - destruct (step_creating_stored env st k et payload w Hex) as [r [-> Hc]].
    eexists; split; [reflexivity|]; right; eauto.
  - eexists; split; [reflexivity|]; right; eauto.
Qed.

(** Once [e] is inserted, the rest of the run keeps the request that
    inserted it on its way to 202 and the other one as it is described
    by [L]. *)
Lemma settled_interleave (L : EventController.Pending -> Prop) (e : Event.t)
    (env : nat -> Env) :
  (forall env0 p w, L p -> events w = events w0 ++ [e] ->
                    exists p', EventController.step env0 p w = (p', w) /\ L p') ->
  forall schedule n a b w,
    events w = events w0 ++ [e] ->
    (won e (queue w0) (queue w) a -> L b ->
     let '(a', b', w') := EventController.interleave env n schedule a b w in
     events w' = events w0 ++ [e] /\ won e (queue w0) (queue w') a' /\ L b')
    /\ (won e (queue w0) (queue w) b -> L a ->
        let '(a', b', w') := EventController.interleave env n schedule a b w in
        events w' = events w0 ++ [e] /\ won e (queue w0) (queue w') b' /\ L a').
Proof.
  intros HL; induction schedule as [|[|] schedule IH]; intros n a b w Hev;
    cbn [EventController.interleave].
  - split; intros Hw Hl; repeat split; assumption.
  - split; intros Hw Hl.
    + destruct (step_won (env n) e a w Hw) as [a' [w' [-> [Hev' Hw']]]].
      apply (IH (S n) a' b w'); [congruence | exact Hw' | exact Hl].
    + destruct (HL (env n) a w Hl Hev) as [a' [-> Hl']].
      apply (IH (S n) a' b w); assumption.
  - split; intros Hw Hl.
    + destruct (HL (env n) b w Hl Hev) as [b' [-> Hl']].
      apply (IH (S n) a b' w); assumption.
    + destruct (step_won (env n) e b w Hw) as [b' [w' [-> [Hev' Hw']]]].
      apply (IH (S n) a b' w'); [congruence | exact Hw' | exact Hl].
Qed.

Lemma late_settles (e : Event.t) :
  Event.idempotency_key e = k ->
  forall env0 p w, late k e p -> events w = events w0 ++ [e] ->
                   exists p', EventController.step env0 p w = (p', w) /\ late k e p'.
Proof.
  intros Hk env0 p w Hl Hev; apply step_late; [exact Hl|].
  rewrite Hev; apply find_key_last; assumption.
Qed.

Lemma early_settles (e : Event.t) :
  Event.idempotency_key e = k ->
  forall env0 p w, early k p -> events w = events w0 ++ [e] ->
                   exists p', EventController.step env0 p w = (p', w) /\ early k p'.
Proof.
  intros Hk env0 p w Hl Hev; apply step_early; [exact Hl|].
  rewrite Hev; apply exists_key_last; assumption.
Qed.

Lemma won_done (e : Event.t) (q : list Job.t) (r : Response) :
  won e (queue w0) q (EventController.Done r) ->
  accepted e r /\ (q = queue w0 \/ q = queue w0 ++ [fanout_job e]).
Proof. intros [[st [Hr _]] | [r' [[= <-] Hr]]]; [discriminate | exact Hr]. Qed.

Lemma late_done (e : Event.t) (r : Response) :
  late k e (EventController.Done r) -> duplicate_of e r.
Proof. intros [[req [Hr _]] | [r' [[= <-] Hr]]]; [discriminate | exact Hr]. Qed.

Lemma early_done (r : Response) :
  early k (EventController.Done r) -> conflict r.
Proof. intros [[st [et [pl Hr]]] | [r' [[= <-] Hr]]]; [discriminate | exact Hr]. Qed.

End Race.

Section Progress.
Context `{Platform}.

(** Whatever the request and the world, a resumption brings the request
    one step closer to its answer. *)
Lemma step_progress (env : Env) (p : EventController.Pending) (w : World) :
  (remaining (fst (EventController.step env p w)) <= pred (remaining p))%nat.
Proof.
  destruct p as [req | st key et payload | st e | r]; unfold EventController.step.
  - destruct (EventController.receive env req w) as [[p'|e] w'] eqn:E; simpl; [|lia].
    revert E; unfold EventController.receive, bind, lift, ret,
      Prisma.event_findUnique_by_key.
    repeat (next_case; simpl); intros E; inversion E; subst; simpl; lia.
  - destruct (EventController.create env st key et payload w) as [[p'|e] w'] eqn:E;
      simpl; [|lia].
    revert E; unfold EventController.create, bind, ret, string_arg, throw,
      Prisma.event_create, Prisma.fresh_id, bind.
    repeat (next_case; simpl); intros E; inversion E; subst; simpl; lia.
  - unfold EventController.enqueue, bind, try_catch, ret.
    destruct (WebhookService.queueWebhookDeliveries _ _ _ w) as [[[]|e'] w']; simpl; lia.
  - simpl; lia.
Qed.

Lemma interleave_progress (env : nat -> Env) (schedule : list bool) :
  forall n a b w,
    let '(a', b', _) := EventController.interleave env n schedule a b w in
    (remaining a' <= remaining a - turns true schedule)%nat
    /\ (remaining b' <= remaining b - turns false schedule)%nat.
Proof.
  unfold turns.
  induction schedule as [|[|] schedule IH]; intros n a b w; simpl.
  - lia.
  - pose proof (step_progress (env n) a w) as Hp.
    destruct (EventController.step (env n) a w) as [a1 w1]; simpl in Hp.
    specialize (IH (S n) a1 b w1).
    destruct (EventController.interleave env (S n) schedule a1 b w1) as [[a' b'] w'].
    lia.
  - pose proof (step_progress (env n) b w) as Hp.
    destruct (EventController.step (env n) b w) as [b1 w1]; simpl in Hp.
    specialize (IH (S n) a b1 w1).
    destruct (EventController.interleave env (S n) schedule a b1 w1) as [[a' b'] w'].
    lia.
Qed.

Lemma interleave_first (env : nat -> Env) (n : nat) (rest : list bool)
    (a b a' : EventController.Pending) (w w' : World) :
  EventController.step (env n) a w = (a', w') ->
  EventController.interleave env n (true :: rest) a b w
  = EventController.interleave env (S n) rest a' b w'.
Proof. intros E; cbn [EventController.interleave]; rewrite E; reflexivity. Qed.

Lemma interleave_second (env : nat -> Env) (n : nat) (rest : list bool)
    (a b b' : EventController.Pending) (w w' : World) :
  EventController.step (env n) b w = (b', w') ->
  EventController.interleave env n (false :: rest) a b w
  = EventController.interleave env (S n) rest a b' w'.
Proof. intros E; cbn [EventController.interleave]; rewrite E; reflexivity. Qed.

Lemma remaining_zero (p : EventController.Pending) :
  remaining p = 0%nat -> exists r, p = EventController.Done r.
Proof. destruct p; simpl; try discriminate; eauto. Qed.

End Progress.

(** C3, as the code has it: two valid POST /events requests with the
    same idempotency key, not stored yet, resumed in any order that
    gives each its three turns (lookup, insert, enqueue).  Both are
    answered; one event row with the key is inserted and the fan-out
    job is enqueued at most once.  The request whose second turn comes
    first inserts the row (the winner) and is answered 202 for it; the
    other is answered 202 with the winner's row when its lookup comes
    after the winner's insert, and 409 DUPLICATE_IDEMPOTENCY_KEY when
    its lookup came before: its own insert then meets the unique index.
    A lookup that finds the key stored is always answered 202 with the
    stored row, an insert that meets the unique index always 409. *)
Theorem C3_race_on_one_key `{Platform} (env : nat -> Env) (schedule : list bool)
    (reqA reqB : Request) (w0 : World) (k : jsstring) :
  valid_request k reqA ->
  valid_request k reqB ->
  find (Prisma.has_key k) (events w0) = None ->
  (3 <= turns true schedule)%nat ->
  (3 <= turns false schedule)%nat ->
  (exists ra rb w e,
     EventController.interleave env 0 schedule
       (EventController.Received reqA) (EventController.Received reqB) w0
     = (EventController.Done ra, EventController.Done rb, w)
     /\ events w = events w0 ++ [e]
     /\ Event.idempotency_key e = k
     /\ (queue w = queue w0 \/ queue w = queue w0 ++ [fanout_job e])
     /\ ((accepted e ra /\ (duplicate_of e rb \/ conflict rb))
         \/ (accepted e rb /\ (duplicate_of e ra \/ conflict ra)))
     /\ (let winner := (insert_turn true schedule <? insert_turn false schedule)%nat in
         let loser := negb winner in
         accepted e (answer_of winner ra rb)
         /\ if (insert_turn winner schedule <? lookup_turn loser schedule)%nat
            then duplicate_of e (answer_of loser ra rb)
            else conflict (answer_of loser ra rb)))
  /\ (forall env' startTime eventType payload w,
        existsb (Prisma.has_key k) (events w) = true ->
        exists r,
          EventController.step env'
            (EventController.Creating startTime k (JString eventType) payload) w
          = (EventController.Done r, w)
          /\ conflict r)
  /\ (forall env' req w e,
        valid_request k req ->
        find (Prisma.has_key k) (events w) = Some e ->
        exists r,
          EventController.step env' (EventController.Received req) w
          = (EventController.Done r, w)
          /\ duplicate_of e r).
Proof.
  intros HA HB Hf Hta Htb; split; [|split].
  - pose proof (interleave_progress env schedule 0%nat
                  (EventController.Received reqA) (EventController.Received reqB) w0)
      as Hprog.
    assert (Hex : existsb (Prisma.has_key k) (events w0) = false)
      by (apply find_key_exists; exact Hf).
    assert (Hshape : exists x y z rest, schedule = x :: y :: z :: rest).
    { destruct schedule as [|x [|y [|z rest]]];
        try (exfalso; unfold turns in Hta, Htb; simpl in Hta, Htb;
             repeat match goal with b : bool |- _ => destruct b end;
             simpl in Hta, Htb; lia).
      eauto. }
    destruct Hshape as [x [y [z [rest Hsched]]]].
    remember (turns true schedule) as ta eqn:Eta.
    remember (turns false schedule) as tb eqn:Etb.
    clear Eta Etb; subst schedule.
    unfold insert_turn, lookup_turn, answer_of.
    destruct x, y; cbn [turn Bool.eqb negb Nat.ltb Nat.leb].
    + (* the first request looks up and inserts before the second looks up *)
      destruct (step_received_new (env 0%nat) k reqA w0 HA Hf) as [et [pl E1]].
      destruct (step_creating_new (env 1%nat) (now (env 0%nat)) k et pl w0 Hex)
        as [e [w1 [E2 [Hk [Hev Hq]]]]].
      rewrite (interleave_first _ _ _ _ _ _ _ _ E1),
        (interleave_first _ _ _ _ _ _ _ _ E2) in *.
      assert (Hwon : won e (queue w0) (queue w1) (EventController.Queueing (now (env 0%nat)) e))
        by (left; eauto).
      assert (Hlose : late k e (EventController.Received reqB)) by (left; eauto).
      destruct (settled_interleave w0 (late k e) e env (late_settles k w0 Hf e Hk)
                (z :: rest) 2%nat
                (EventController.Queueing (now (env 0%nat)) e)
                (EventController.Received reqB)
                w1 Hev) as [Hs _].
      specialize (Hs Hwon Hlose).
      destruct (EventController.interleave env 2 (z :: rest)
                  (EventController.Queueing (now (env 0%nat)) e)
                  (EventController.Received reqB) w1) as [[a b] w].
      destruct Hprog as [Hpa Hpb]; cbn [remaining] in Hpa, Hpb.
      destruct (remaining_zero a ltac:(lia)) as [ra ->].
      destruct (remaining_zero b ltac:(lia)) as [rb ->].
      destruct Hs as [Hevw [Hw Hl]].
      destruct (won_done w0 e _ ra Hw) as [Hacc Hqw].
      pose proof (late_done k e rb Hl) as Hlost.
      exists ra, rb, w, e; repeat split; try assumption; try apply Hacc;
        try apply Hlost.
      left; split; [exact Hacc | left; exact Hlost].
    + (* both look up, then the third turn inserts *)
      destruct (step_received_new (env 0%nat) k reqA w0 HA Hf) as [etA [plA E1]].
      destruct (step_received_new (env 1%nat) k reqB w0 HB Hf) as [etB [plB E2]].
      rewrite (interleave_first _ _ _ _ _ _ _ _ E1),
        (interleave_second _ _ _ _ _ _ _ _ E2) in *.
      destruct z; cbn [turn Bool.eqb negb Nat.ltb Nat.leb].
      * destruct (step_creating_new (env 2%nat) (now (env 0%nat)) k etA plA w0 Hex)
          as [e [w1 [E3 [Hk [Hev Hq]]]]].
        rewrite (interleave_first _ _ _ _ _ _ _ _ E3) in *.
        assert (Hwon : won e (queue w0) (queue w1)
                         (EventController.Queueing (now (env 0%nat)) e))
          by (left; eauto).
        assert (Hlose : early k (EventController.Creating (now (env 1%nat)) k (JString etB) plB)) by (left; eauto).
      destruct (settled_interleave w0 (early k) e env (early_settles k w0 e Hk)
                rest 3%nat
                (EventController.Queueing (now (env 0%nat)) e)
                (EventController.Creating (now (env 1%nat)) k (JString etB) plB)
                w1 Hev) as [Hs _].
      specialize (Hs Hwon Hlose).
      destruct (EventController.interleave env 3 rest
                  (EventController.Queueing (now (env 0%nat)) e)
                  (EventController.Creating (now (env 1%nat)) k (JString etB) plB) w1) as [[a b] w].
      destruct Hprog as [Hpa Hpb]; cbn [remaining] in Hpa, Hpb.
      destruct (remaining_zero a ltac:(lia)) as [ra ->].
      destruct (remaining_zero b ltac:(lia)) as [rb ->].
      destruct Hs as [Hevw [Hw Hl]].
      destruct (won_done w0 e _ ra Hw) as [Hacc Hqw].
      pose proof (early_done k rb Hl) as Hlost.
      exists ra, rb, w, e; repeat split; try assumption; try apply Hacc;
        try apply Hlost.
      left; split; [exact Hacc | right; exact Hlost].
      * destruct (step_creating_new (env 2%nat) (now (env 1%nat)) k etB plB w0 Hex)
          as [e [w1 [E3 [Hk [Hev Hq]]]]].
        rewrite (interleave_second _ _ _ _ _ _ _ _ E3) in *.
        assert (Hwon : won e (queue w0) (queue w1)
                         (EventController.Queueing (now (env 1%nat)) e))
          by (left; eauto).
        assert (Hlose : early k (EventController.Creating (now (env 0%nat)) k (JString etA) plA)) by (left; eauto).
      destruct (settled_interleave w0 (early k) e env (early_settles k w0 e Hk)
                rest 3%nat
                (EventController.Creating (now (env 0%nat)) k (JString etA) plA)
                (EventController.Queueing (now (env 1%nat)) e)
                w1 Hev) as [_ Hs].
      specialize (Hs Hwon Hlose).
      destruct (EventController.interleave env 3 rest
                  (EventController.Creating (now (env 0%nat)) k (JString etA) plA)
                  (EventController.Queueing (now (env 1%nat)) e) w1) as [[a b] w].
      destruct Hprog as [Hpa Hpb]; cbn [remaining] in Hpa, Hpb.
      destruct (remaining_zero a ltac:(lia)) as [ra ->].
      destruct (remaining_zero b ltac:(lia)) as [rb ->].
      destruct Hs as [Hevw [Hw Hl]].
      destruct (won_done w0 e _ rb Hw) as [Hacc Hqw].
      pose proof (early_done k ra Hl) as Hlost.
      exists ra, rb, w, e; repeat split; try assumption; try apply Hacc;
        try apply Hlost.
      right; split; [exact Hacc | right; exact Hlost].
    + destruct (step_received_new (env 0%nat) k reqB w0 HB Hf) as [etB [plB E1]].
      destruct (step_received_new (env 1%nat) k reqA w0 HA Hf) as [etA [plA E2]].
      rewrite (interleave_second _ _ _ _ _ _ _ _ E1),
        (interleave_first _ _ _ _ _ _ _ _ E2) in *.
      destruct z; cbn [turn Bool.eqb negb Nat.ltb Nat.leb].
      * destruct (step_creating_new (env 2%nat) (now (env 1%nat)) k etA plA w0 Hex)
          as [e [w1 [E3 [Hk [Hev Hq]]]]].
        rewrite (interleave_first _ _ _ _ _ _ _ _ E3) in *.
        assert (Hwon : won e (queue w0) (queue w1)
                         (EventController.Queueing (now (env 1%nat)) e))
          by (left; eauto).
        assert (Hlose : early k (EventController.Creating (now (env 0%nat)) k (JString etB) plB)) by (left; eauto).
      destruct (settled_interleave w0 (early k) e env (early_settles k w0 e Hk)
                rest 3%nat
                (EventController.Queueing (now (env 1%nat)) e)
                (EventController.Creating (now (env 0%nat)) k (JString etB) plB)
                w1 Hev) as [Hs _].
      specialize (Hs Hwon Hlose).
      destruct (EventController.interleave env 3 rest
                  (EventController.Queueing (now (env 1%nat)) e)
                  (EventController.Creating (now (env 0%nat)) k (JString etB) plB) w1) as [[a b] w].
      destruct Hprog as [Hpa Hpb]; cbn [remaining] in Hpa, Hpb.
      destruct (remaining_zero a ltac:(lia)) as [ra ->].
      destruct (remaining_zero b ltac:(lia)) as [rb ->].
      destruct Hs as [Hevw [Hw Hl]].
      destruct (won_done w0 e _ ra Hw) as [Hacc Hqw].
      pose proof (early_done k rb Hl) as Hlost.
      exists ra, rb, w, e; repeat split; try assumption; try apply Hacc;
        try apply Hlost.
      left; split; [exact Hacc | right; exact Hlost].
      * destruct (step_creating_new (env 2%nat) (now (env 0%nat)) k etB plB w0 Hex)
          as [e [w1 [E3 [Hk [Hev Hq]]]]].
        rewrite (interleave_second _ _ _ _ _ _ _ _ E3) in *.
        assert (Hwon : won e (queue w0) (queue w1)
                         (EventController.Queueing (now (env 0%nat)) e))
          by (left; eauto).
        assert (Hlose : early k (EventController.Creating (now (env 1%nat)) k (JString etA) plA)) by (left; eauto).
      destruct (settled_interleave w0 (early k) e env (early_settles k w0 e Hk)
                rest 3%nat
                (EventController.Creating (now (env 1%nat)) k (JString etA) plA)
                (EventController.Queueing (now (env 0%nat)) e)
                w1 Hev) as [_ Hs].
      specialize (Hs Hwon Hlose).
      destruct (EventController.interleave env 3 rest
                  (EventController.Creating (now (env 1%nat)) k (JString etA) plA)
                  (EventController.Queueing (now (env 0%nat)) e) w1) as [[a b] w].
      destruct Hprog as [Hpa Hpb]; cbn [remaining] in Hpa, Hpb.
      destruct (remaining_zero a ltac:(lia)) as [ra ->].
      destruct (remaining_zero b ltac:(lia)) as [rb ->].
      destruct Hs as [Hevw [Hw Hl]].
      destruct (won_done w0 e _ rb Hw) as [Hacc Hqw].
      pose proof (early_done k ra Hl) as Hlost.
      exists ra, rb, w, e; repeat split; try assumption; try apply Hacc;
        try apply Hlost.
      right; split; [exact Hacc | right; exact Hlost].
    + (* the second request looks up and inserts before the first looks up *)
      destruct (step_received_new (env 0%nat) k reqB w0 HB Hf) as [et [pl E1]].
      destruct (step_creating_new (env 1%nat) (now (env 0%nat)) k et pl w0 Hex)
        as [e [w1 [E2 [Hk [Hev Hq]]]]].
      rewrite (interleave_second _ _ _ _ _ _ _ _ E1),
        (interleave_second _ _ _ _ _ _ _ _ E2) in *.
      assert (Hwon : won e (queue w0) (queue w1) (EventController.Queueing (now (env 0%nat)) e))
        by (left; eauto).
      assert (Hlose : late k e (EventController.Received reqA)) by (left; eauto).
      destruct (settled_interleave w0 (late k e) e env (late_settles k w0 Hf e Hk)
                (z :: rest) 2%nat
                (EventController.Received reqA)
                (EventController.Queueing (now (env 0%nat)) e)
                w1 Hev) as [_ Hs].
      specialize (Hs Hwon Hlose).
      destruct (EventController.interleave env 2 (z :: rest)
                  (EventController.Received reqA)
                  (EventController.Queueing (now (env 0%nat)) e) w1) as [[a b] w].
      destruct Hprog as [Hpa Hpb]; cbn [remaining] in Hpa, Hpb.
      destruct (remaining_zero a ltac:(lia)) as [ra ->].
      destruct (remaining_zero b ltac:(lia)) as [rb ->].
      destruct Hs as [Hevw [Hw Hl]].
      destruct (won_done w0 e _ rb Hw) as [Hacc Hqw].
      pose proof (late_done k e ra Hl) as Hlost.
      exists ra, rb, w, e; repeat split; try assumption; try apply Hacc;
        try apply Hlost.
      right; split; [exact Hacc | left; exact Hlost].
  - intros env' st et payload w Hex.
    apply step_creating_stored; exact Hex.
  - intros env' req w e Hreq Hfe.
    exact (step_received_stored env' k req w e Hreq Hfe).
Qed.

Section RaceOnSample.
#[local] Existing Instance Sample.platform.

(** Two posts of the key k1 resumed in turn: both look the key up before
    either inserts; the second insert meets the unique index and that
    request is answered 409, not 202. *)
Lemma C3_counterexample :
  let req := Sample.post_event "k1" "user.created" (obj [ ("x", JNum 1) ]) in
  let '(a, b, w) :=
    EventController.interleave Sample.clock 0 [true; false; true; false; true; false]
      (EventController.Received req) (EventController.Received req) Sample.subscribed in
  exists ra rb,
    a = EventController.Done ra /\ b = EventController.Done rb
    /\ status ra = 202 /\ status rb = 409
    /\ code_of rb = JStr "DUPLICATE_IDEMPOTENCY_KEY".
Proof. vm_compute; eexists; eexists; repeat split. Qed.

Lemma C3_race_on_one_key_witness :
  let req := Sample.post_event "k1" "user.created" (obj [ ("x", JNum 1) ]) in
  (exists ra rb w e,
     EventController.interleave Sample.clock 0 [true; false; true; false; true; false]
       (EventController.Received req) (EventController.Received req) Sample.subscribed
     = (EventController.Done ra, EventController.Done rb, w)
     /\ events w = events Sample.subscribed ++ [e]
     /\ Event.idempotency_key e = js "k1"
     /\ accepted e ra /\ conflict rb)
  /\ (exists ra rb w e,
        EventController.interleave Sample.clock 0
          [false; false; true; false; true; true]
          (EventController.Received req) (EventController.Received req)
          Sample.subscribed
        = (EventController.Done ra, EventController.Done rb, w)
        /\ accepted e rb /\ duplicate_of e ra).
Proof.
  intros req; split.
  - destruct (C3_race_on_one_key Sample.clock [true; false; true; false; true; false]
                req req Sample.subscribed (js "k1")) as [Hrace _].
    + repeat split; discriminate.
    + repeat split; discriminate.
    + reflexivity.
    + vm_compute; lia.
    + vm_compute; lia.
    + destruct Hrace as [ra [rb [w [e [Hrun [Hev [Hk [_ [_ Hord]]]]]]]]].
      unfold insert_turn, lookup_turn, answer_of in Hord;
        cbn [turn Bool.eqb negb Nat.ltb Nat.leb] in Hord.
      exists ra, rb, w, e; repeat split; try assumption; apply Hord.
  - destruct (C3_race_on_one_key Sample.clock [false; false; true; false; true; true]
                req req Sample.subscribed (js "k1")) as [Hrace _].
    + repeat split; discriminate.
    + repeat split; discriminate.
    + reflexivity.
    + vm_compute; lia.
    + vm_compute; lia.
    + destruct Hrace as [ra [rb [w [e [Hrun [Hev [Hk [_ [_ Hord]]]]]]]]].
      unfold insert_turn, lookup_turn, answer_of in Hord;
        cbn [turn Bool.eqb negb Nat.ltb Nat.leb] in Hord.
      exists ra, rb, w, e; repeat split; try assumption; apply Hord.
Defined.

Lemma C6_same_key_same_event_witness :
  let req1 := Sample.post_event "k1" "user.created" (obj [ ("x", JNum 1) ]) in
  let req2 := Sample.post_event "k1" "user.created" (obj [ ("x", JNum 2) ]) in
  exists r2 e,
    EventController.processEvent Sample.clock req2 Sample.posted
    = (EventController.Done r2, Sample.posted)
    /\ In e (events Sample.posted)
    /\ duplicate_of e r2.
Proof.
  intros req1 req2.
  destruct (C6_same_key_same_event Sample.clock Sample.clock req1 req2
              Sample.subscribed (js "k1"))
    as [r1 [w1 [r2 [e [Hrun1 [_ [Hrun2 [_ [_ [Hin [_ Hdup]]]]]]]]]]].
  - repeat split; discriminate.
  - repeat split; discriminate.
  - assert (Hw1 : w1 = Sample.posted).
    { unfold Sample.posted; fold req1; rewrite Hrun1; reflexivity. }
    rewrite Hw1 in *.
    exists r2, e; repeat split; assumption || apply Hdup.
Defined.

(** Deactivation goes through PUT /subscriptions/:id. *)
Example update_deactivates :
  map Subscription.is_active (subscriptions Sample.posted) = [true]
  /\ map Subscription.is_active (subscriptions Sample.deactivated) = [false].
Proof. split; vm_compute; reflexivity. Qed.

End RaceOnSample.

(* ===================================================================== *)
(** ** The payload size limit *)
(* ===================================================================== *)

Section PayloadSize.
Context `{Platform}.

Lemma utf8_length_nonneg (s : jsstring) : 0 <= utf8_length s.
Proof.
  assert (Hn : forall n s, (List.length s <= n)%nat -> 0 <= utf8_length s).
  { clear s; induction n as [|n IH]; intros [|c s] Hlen; cbn [List.length] in Hlen;
      try lia; try reflexivity.
    cbn [utf8_length].
    destruct (is_high_surrogate c).
    - destruct s as [|d s]; [lia|].
      destruct (is_low_surrogate d).
      + assert (0 <= utf8_length s) by (apply IH; cbn [List.length] in Hlen; lia); lia.
      + assert (0 <= utf8_length (d :: s)) by (apply IH; lia); lia.
    - assert (0 <= utf8_length s) by (apply IH; lia).
      destruct (c <? 128); [lia|]; destruct (c <? 2048); lia. }
  apply (Hn (List.length s)); lia.
Qed.

(** A string never has more code units than UTF-8 bytes. *)
Lemma length_le_utf8_length (s : jsstring) : str_length s <= utf8_length s.
Proof.
  assert (Hn : forall n s, (List.length s <= n)%nat -> str_length s <= utf8_length s).
  { clear s; unfold str_length.
    induction n as [|n IH]; intros [|c s] Hlen; cbn [List.length] in *;
      try (cbn [utf8_length]; lia).
    cbn [utf8_length].
    destruct (is_high_surrogate c).
    - destruct s as [|d s]; [cbn [List.length]; lia|].
      destruct (is_low_surrogate d).
      + assert (Z.of_nat (List.length s) <= utf8_length s)
          by (apply IH; cbn [List.length] in Hlen; lia).
        cbn [List.length]; lia.
      + assert (Z.of_nat (List.length (d :: s)) <= utf8_length (d :: s))
          by (apply IH; lia).
        cbn [List.length] in *; lia.
    - assert (Z.of_nat (List.length s) <= utf8_length s) by (apply IH; lia).
      destruct (c <? 128); [lia|]; destruct (c <? 2048); lia. }
  apply (Hn (List.length s)); lia.
Qed.

(** On text made of ASCII characters the two sizes agree. *)
Lemma utf8_length_ascii (s : jsstring) :
  Forall (fun c => 0 <= c < 128) s -> utf8_length s = str_length s.
Proof.
  induction 1 as [|c s Hc _ IH]; [reflexivity|].
  rewrite str_length_cons; cbn [utf8_length].
  assert (Hs : is_high_surrogate c = false).
  { unfold is_high_surrogate; apply andb_false_iff; left; apply Z.leb_gt; lia. }
  assert (Hlt : (c <? 128) = true) by (apply Z.ltb_lt; lia).
  rewrite Hs, Hlt, IH; reflexivity.
Qed.

Lemma object_serialises (v : JsValue) :
  typeof v = TObject -> v <> JNull -> exists s, JSON_stringify v = Some s.
Proof.
  destruct v; simpl; intros Ht Hn; try discriminate; try contradiction;
    eexists; reflexivity.
Qed.

Lemma eventType_char_not_space (c : Z) :
  EventController.eventType_char c = true -> is_space c = false.
Proof.
  unfold EventController.eventType_char, is_space; intros Hc.
  repeat rewrite orb_true_iff in Hc; repeat rewrite andb_true_iff in Hc.
  repeat rewrite Z.leb_le in Hc; repeat rewrite Z.eqb_eq in Hc.
  repeat (apply orb_false_iff; split);
    try (apply andb_false_iff; rewrite !Z.leb_gt; lia);
    apply Z.eqb_neq; lia.
Qed.

Lemma trimStart_no_space (s : jsstring) :
  forallb (fun c => negb (is_space c)) s = true -> trimStart s = s.
Proof.
  destruct s as [|c s]; simpl; [reflexivity|].
  intros Hs; apply andb_true_iff in Hs; destruct Hs as [Hc _].
  apply negb_true_iff in Hc; rewrite Hc; reflexivity.
Qed.

Lemma trim_no_space (s : jsstring) :
  forallb (fun c => negb (is_space c)) s = true -> trim s = s.
Proof.
  intros Hs; unfold trim.
  rewrite (trimStart_no_space s Hs), trimStart_no_space, rev_involutive;
    [reflexivity|].
  apply forallb_forall; intros c Hc; apply in_rev in Hc.
  rewrite forallb_forall in Hs; apply Hs; exact Hc.
Qed.

Lemma eventType_passes (et : jsstring) :
  EventController.eventTypeRegex_test et = true ->
  str_eqb et [] = false /\ (str_length (trim et) =? 0) = false.
Proof.
  unfold EventController.eventTypeRegex_test; intros Hr.
  apply andb_true_iff in Hr; destruct Hr as [Hne Hall].
  apply negb_true_iff in Hne; split; [exact Hne|].
  rewrite trim_no_space.
  - destruct et; [discriminate|]; rewrite str_length_cons.
    apply Z.eqb_neq; pose proof (str_length_nonneg et); lia.
  - apply forallb_forall; intros c Hc; rewrite forallb_forall in Hall.
    rewrite (eventType_char_not_space c (Hall c Hc)); reflexivity.
Qed.

(** With a well-formed event type and an object payload, the validation
    comes down to the length test on the JSON text of the payload. *)
Lemma validate_by_length (b payload : JsValue) (et s : jsstring) :
  get b "eventType" = JString et ->
  EventController.eventTypeRegex_test et = true ->
  get b "payload" = payload ->
  typeof payload = TObject -> payload <> JNull ->
  JSON_stringify payload = Some s ->
  EventController.validateEventRequest b
  = Ok (if str_length s >? 1024 * 1024
        then EventController.invalid "payload size exceeds 1MB limit"
        else EventController.mkValidation true None).
Proof.
  intros Het Hre Hp Hty Hnn Hs.
  destruct (eventType_passes et Hre) as [Hne Htrim].
  assert (Hb : exists ps, b = JObject ps).
  { destruct b; try discriminate; eauto. }
  destruct Hb as [ps ->].
  unfold EventController.validateEventRequest.
  change (negb (truthy (JObject ps)) || negb (JsType_eqb (typeof (JObject ps)) TObject))
    with false; cbv iota.
  rewrite Het, Hp; unfold truthy; rewrite Hne, Htrim, Hre; simpl negb; cbv iota.
  unfold stringify_string; rewrite Hs, Hty; simpl negb; cbv iota.
  destruct payload; try discriminate; try contradiction;
    destruct (str_length s >? 1024 * 1024); reflexivity.
Qed.

Lemma processEvent_invalid (env : nat -> Env) (k : jsstring) (req : Request)
    (w : World) (msg : string) :
  x_idempotency_key req = Some k -> k <> [] ->
  EventController.validateEventRequest (req_body req)
  = Ok (EventController.invalid msg) ->
  exists r,
    EventController.processEvent env req w = (EventController.Done r, w)
    /\ status r = 400 /\ code_of r = JStr "VALIDATION_ERROR".
Proof.
  intros Hk Hne Hv.
  unfold EventController.processEvent, EventController.step at 1,
    EventController.receive, bind, lift.
  rewrite Hk, (str_eqb_neq _ _ Hne), Hv; simpl.
  eexists; repeat split.
Qed.

(** The JSON text of [wide_payload n]. *)
Lemma wide_payload_text (n : nat) :
  JSON_stringify (wide_payload n)
  = Some ([123; 34; 97; 34; 58; 34; 233] ++ repeat 120 n ++ [34; 125]).
Proof.
  assert (Hq : quote_units (repeat 120 n) = repeat 120 n).
  { induction n as [|n IH]; simpl; [reflexivity | rewrite IH; reflexivity]. }
  unfold JSON_stringify, wide_payload; simpl.
  rewrite Hq, <- app_assoc; reflexivity.
Qed.

Lemma wide_payload_length (n : nat) :
  str_length ([123; 34; 97; 34; 58; 34; 233] ++ repeat 120 n ++ [34; 125])
  = Z.of_nat n + 9.
Proof.
  rewrite !str_length_app, str_length_repeat; unfold str_length; simpl List.length; lia.
Qed.

Lemma wide_payload_bytes (n : nat) :
  utf8_length ([123; 34; 97; 34; 58; 34; 233] ++ repeat 120 n ++ [34; 125])
  = Z.of_nat n + 10.
Proof.
  assert (Hr : utf8_length (repeat 120 n ++ [34; 125]) = Z.of_nat n + 2).
  { induction n as [|n IH]; [reflexivity|].
    change (repeat 120 (S n) ++ [34; 125]) with (120 :: (repeat 120 n ++ [34; 125])).
    change (utf8_length (120 :: (repeat 120 n ++ [34; 125])))
      with (1 + utf8_length (repeat 120 n ++ [34; 125])).
    rewrite IH; lia. }
  change (utf8_length ([123; 34; 97; 34; 58; 34; 233] ++ repeat 120 n ++ [34; 125]))
    with (1 + (1 + (1 + (1 + (1 + (1 + (2 + utf8_length (repeat 120 n ++ [34; 125])))))))).
  rewrite Hr; lia.
Qed.

End PayloadSize.

(** C9, as the code has it: for a request with an idempotency key, a
    well-formed event type and an object (or array) payload, the size
    that is tested is the length of [JSON.stringify(payload)] in UTF-16
    code units, not its size in bytes.  A payload whose JSON text is at
    most 1 MiB in UTF-8 bytes (so one of exactly 1 MiB) is accepted with
    202; a payload whose JSON text is longer than 1,048,576 code units
    is rejected with 400 VALIDATION_ERROR; the two sizes agree on ASCII
    text, so an ASCII-only payload of 1 MiB + 1 byte is rejected.  But
    every payload whose JSON text has at most 1,048,576 code units is
    accepted, however many bytes it takes: with characters outside
    ASCII that is more than 1 MiB. *)
Theorem C9_payload_size_limit `{Platform} (env : nat -> Env) (req : Request)
    (w : World) (k et s : jsstring) (payload : JsValue) :
  x_idempotency_key req = Some k -> k <> [] ->
  get (req_body req) "eventType" = JString et ->
  EventController.eventTypeRegex_test et = true ->
  get (req_body req) "payload" = payload ->
  typeof payload = TObject -> payload <> JNull ->
  JSON_stringify payload = Some s ->
  (utf8_length s <= MiB ->
   exists r w',
     EventController.processEvent env req w = (EventController.Done r, w')
     /\ status r = 202)
  /\ (str_length s > MiB ->
      exists r,
        EventController.processEvent env req w = (EventController.Done r, w)
        /\ status r = 400 /\ code_of r = JStr "VALIDATION_ERROR")
  /\ (Forall (fun c => 0 <= c < 128) s -> utf8_length s = MiB + 1 ->
      exists r,
        EventController.processEvent env req w = (EventController.Done r, w)
        /\ status r = 400 /\ code_of r = JStr "VALIDATION_ERROR")
  /\ (str_length s <= MiB ->
      exists r w',
        EventController.processEvent env req w = (EventController.Done r, w')
        /\ status r = 202).
Proof.
  intros Hk Hne Het Hre Hp Hty Hnn Hs.
  pose proof (validate_by_length (req_body req) payload et s Het Hre Hp Hty Hnn Hs) as Hv.
  assert (Hlong : str_length s > MiB ->
            exists r,
              EventController.processEvent env req w = (EventController.Done r, w)
              /\ status r = 400 /\ code_of r = JStr "VALIDATION_ERROR").
  { intros Hlen.
    assert (Hgt : (str_length s >? 1024 * 1024) = true)
      by (apply Z.gtb_lt; unfold MiB in Hlen; lia).
    rewrite Hgt in Hv.
    exact (processEvent_invalid env k req w _ Hk Hne Hv). }
  assert (Hshort : str_length s <= MiB ->
            exists r w',
              EventController.processEvent env req w = (EventController.Done r, w')
              /\ status r = 202).
  { intros Hlen.
    assert (Hle : (str_length s >? 1024 * 1024) = false).
    { destruct (str_length s >? 1024 * 1024) eqn:E; [|reflexivity].
      apply Z.gtb_lt in E; unfold MiB in Hlen; lia. }
    rewrite Hle in Hv.
    apply (processEvent_valid env k); repeat split; assumption. }
  split; [|split; [|split]].
  - intros Hlen; apply Hshort.
    pose proof (length_le_utf8_length s); lia.
  - exact Hlong.
  - intros Hascii Hlen; apply Hlong.
    rewrite <- (utf8_length_ascii s Hascii); lia.
  - exact Hshort.
Qed.

Section SizeOnSample.
#[local] Existing Instance Sample.platform.

(** C9 at a failing input: an object payload whose JSON text is 1 MiB +
    1 bytes of UTF-8 passes the validation and the request is answered
    202: the text has one two-byte character, hence 1,048,576 code
    units. *)
Lemma C9_counterexample :
  let payload := wide_payload (Z.to_nat 1048567) in
  let body := JObject [ (js "eventType", JStr "a.b_c-1"); (js "payload", payload) ] in
  exists s,
    JSON_stringify payload = Some s
    /\ utf8_length s = MiB + 1
    /\ EventController.validateEventRequest body
       = Ok (EventController.mkValidation true None)
    /\ exists r w',
         EventController.processEvent Sample.clock (mkRequest (Some (js "k9")) [] body)
           Sample.subscribed
         = (EventController.Done r, w')
         /\ status r = 202.
Proof.
  intros payload body; subst payload body.
  remember (Z.to_nat 1048567) as n eqn:Hn.
  assert (Hz : Z.of_nat n = 1048567) by (subst n; apply Z2Nat.id; lia).
  assert (Hvalid : EventController.validateEventRequest
                     (JObject [ (js "eventType", JStr "a.b_c-1");
                                (js "payload", wide_payload n) ])
                   = Ok (EventController.mkValidation true None)).
  { rewrite (validate_by_length
               (JObject [ (js "eventType", JStr "a.b_c-1");
                          (js "payload", wide_payload n) ])
               (wide_payload n) (js "a.b_c-1") _
               eq_refl eq_refl eq_refl eq_refl ltac:(discriminate)
               (wide_payload_text n)).
    rewrite wide_payload_length, Hz; reflexivity. }
  eexists; split; [apply wide_payload_text|]; split; [|split; [exact Hvalid|]].
  - rewrite wide_payload_bytes, Hz; reflexivity.
  - apply (processEvent_valid Sample.clock (js "k9")).
    split; [reflexivity|]; split; [discriminate | exact Hvalid].
Qed.

Lemma C9_payload_size_limit_witness :
  exists r w',
    EventController.processEvent Sample.clock
      (Sample.post_event "k1" "user.created" (obj [ ("x", JNum 1) ]))
      Sample.subscribed
    = (EventController.Done r, w')
    /\ status r = 202.
Proof.
  destruct (C9_payload_size_limit Sample.clock
              (Sample.post_event "k1" "user.created" (obj [ ("x", JNum 1) ]))
              Sample.subscribed (js "k1") (js "user.created")
              (js "{" ++ quote (js "x") ++ js ":1}")
              (obj [ ("x", JNum 1) ])
              eq_refl ltac:(discriminate) eq_refl eq_refl eq_refl eq_refl
              ltac:(discriminate) eq_refl) as [Hsmall _].
  apply Hsmall; vm_compute; discriminate.
Defined.

End SizeOnSample.

(* ===================================================================== *)
(** ** Verifying signatures and timestamps *)
(* ===================================================================== *)

Section Verification.
Context `{Platform}.

Lemma hex_value_digit (d : Z) :
  0 <= d < 16 -> hex_value (hex_digit d mod 256) = Some d.
Proof.
  intros Hd.
  assert (Hsmall : hex_digit d mod 256 = hex_digit d).
  { apply Z.mod_small; unfold hex_digit; destruct (d <? 10); lia. }
  rewrite Hsmall; unfold hex_value, hex_digit.
  destruct (d <? 10) eqn:E; [apply Z.ltb_lt in E | apply Z.ltb_ge in E].
  - assert (H1 : (48 <=? 48 + d) && (48 + d <=? 57) = true)
      by (apply andb_true_iff; split; apply Z.leb_le; lia).
    rewrite H1; f_equal; lia.
  - assert (H1 : (48 <=? 87 + d) && (87 + d <=? 57) = false)
      by (apply andb_false_iff; right; apply Z.leb_gt; lia).
    assert (H2 : (97 <=? 87 + d) && (87 + d <=? 102) = true)
      by (apply andb_true_iff; split; apply Z.leb_le; lia).
    rewrite H1, H2; f_equal; lia.
Qed.

Lemma hex_byte_value (b : Z) :
  16 * Z.land (Z.shiftr b 4) 15 + Z.land b 15 = b mod 256.
Proof.
  change 15 with (Z.ones 4); rewrite !Z.land_ones by lia.
  rewrite Z.shiftr_div_pow2 by lia.
  change (2 ^ 4) with 16.
  rewrite (Z.mod_eq (b / 16) 16) by lia.
  rewrite Z.div_div by lia; change (16 * 16) with 256.
  rewrite (Z.mod_eq b 16) by lia; rewrite (Z.mod_eq b 256) by lia.
  pose proof (Z.div_div b 16 16 ltac:(lia) ltac:(lia)) as Hdd.
  change (16 * 16) with 256 in Hdd. lia.
Qed.

(** Decoding the hexadecimal text of a buffer gives the buffer back
    (each entry reduced to a byte), whatever follows that does not
    decode. *)
Lemma from_hex_hex (bytes : list Z) (rest : jsstring) :
  from_hex (hex bytes ++ rest) = map (fun b => b mod 256) bytes ++ from_hex rest.
Proof.
  induction bytes as [|b bytes IH]; [reflexivity|].
  unfold hex in *; cbn [flat_map hex_byte app map].
  cbn [from_hex].
  rewrite !hex_value_digit by apply land_15_range.
  rewrite hex_byte_value, IH; reflexivity.
Qed.

Lemma from_hex_hex_exact (bytes : list Z) :
  from_hex (hex bytes) = map (fun b => b mod 256) bytes.
Proof.
  rewrite <- (app_nil_r (hex bytes)), from_hex_hex; simpl; apply app_nil_r.
Qed.

Lemma startsWith_app (prefix s : jsstring) : startsWith (prefix ++ s) prefix = true.
Proof.
  induction prefix as [|c prefix IH]; simpl; [destruct s; reflexivity|].
  rewrite Z.eqb_refl, IH; reflexivity.
Qed.

Lemma timingSafeEqual_same (a : list Z) :
  SecurityUtils.timingSafeEqual a a = Ok true.
Proof.
  unfold SecurityUtils.timingSafeEqual; rewrite Nat.eqb_refl, str_eqb_refl; reflexivity.
Qed.

End Verification.

(** X1: a signature header produced by the signer verifies against the
    same payload and secret: [verifyWebhookSignature] returns true on
    the value that [generateWebhookHeaders] puts in
    [X-AlgoHire-Signature]. *)
Theorem X1_generated_signature_verifies `{Platform} (env : Env)
    (payload secret eventType eventId : jsstring) :
  exists header,
    get (SecurityUtils.generateWebhookHeaders env payload secret eventType eventId)
      "X-AlgoHire-Signature" = JString header
    /\ SecurityUtils.verifyWebhookSignature payload header secret = Ok true.
Proof.
  exists (js "sha256=" ++ hex (hmac_sha256 secret payload)); split; [reflexivity|].
  unfold SecurityUtils.verifyWebhookSignature.
  rewrite startsWith_app; cbv iota beta zeta; simpl negb; cbv iota.
  change 7%nat with (List.length (js "sha256=")).
  rewrite skipn_app, skipn_all, Nat.sub_diag; simpl skipn; simpl app.
  unfold SecurityUtils.verifyHmacSignature; apply timingSafeEqual_same.
Qed.

(** X2: a signature whose text decodes, as [Buffer.from(s, 'hex')]
    decodes it (by the low byte of each code unit, up to the first pair
    that is not two hexadecimal digits), to another number of bytes
    than the digest (an empty or truncated one, say) makes
    [verifyHmacSignature] throw the RangeError of [timingSafeEqual]; it
    does not return false. *)
Theorem X2_wrong_length_signature_throws `{Platform}
    (payload signature secret : jsstring) :
  List.length (from_hex signature) <> List.length (hmac_sha256 secret payload) ->
  SecurityUtils.verifyHmacSignature payload signature secret
  = Throw (Error (js "Input buffers must have the same byte length")).
Proof.
  intros Hlen.
  unfold SecurityUtils.verifyHmacSignature, SecurityUtils.timingSafeEqual,
    SecurityUtils.generateHmacSignature.
  rewrite from_hex_hex_exact, length_map.
  apply Nat.eqb_neq in Hlen; rewrite Hlen; reflexivity.
Qed.

(** X3: what follows the hexadecimal digits of the signature is not
    compared: the genuine signature followed by any text from which
    [Buffer.from(s, 'hex')] decodes no byte (its first two code units
    are not both hexadecimal digits in their low byte, or it is shorter
    than two) still verifies. *)
Theorem X3_trailing_text_is_ignored `{Platform}
    (payload secret junk : jsstring) :
  from_hex junk = [] ->
  SecurityUtils.verifyHmacSignature payload
    (SecurityUtils.generateHmacSignature payload secret ++ junk) secret
  = Ok true.
Proof.
  intros Hjunk.
  unfold SecurityUtils.verifyHmacSignature, SecurityUtils.generateHmacSignature.
  rewrite from_hex_hex, Hjunk, app_nil_r, from_hex_hex_exact.
  apply timingSafeEqual_same.
Qed.

Section Timestamps.
Context `{Platform}.

Lemma decimal_prefix_of_uint (u : Decimal.uint) :
  decimal_prefix (js (NilEmpty.string_of_uint u)) = u.
Proof.
  unfold js; induction u; simpl; try rewrite IHu; reflexivity.
Qed.

Lemma js_cons (c : ascii) (t : string) : js (String c t) = unit_of_ascii c :: js t.
Proof. reflexivity. Qed.

(** Expose the first character of the text of a numeral. *)
Ltac head_digit :=
  cbn [NilEmpty.string_of_uint]; rewrite js_cons;
  match goal with
  | |- context [unit_of_ascii ?c] =>
      let x := eval vm_compute in (unit_of_ascii c) in
      change (unit_of_ascii c) with x
  end.

(** The shape of a printed numeral: it starts with a digit, which is
    neither white space nor a sign, and has no radix prefix. *)
Lemma parse_printed_uint (u : Decimal.uint) :
  u <> Decimal.Nil ->
  parseInt (js (NilEmpty.string_of_uint u)) = Some (Z.of_uint u)
  /\ parseInt (45 :: js (NilEmpty.string_of_uint u)) = Some (- Z.of_uint u).
Proof.
  intros Hu.
  destruct u as [|u|u|u|u|u|u|u|u|u|u]; try contradiction.
  2-10: head_digit; pose proof (decimal_prefix_of_uint u) as Hp;
    remember (js (NilEmpty.string_of_uint u)) as s eqn:Hs; clear Hs;
    unfold parseInt; simpl; rewrite Hp; split; reflexivity.
  (* a leading zero: the next character is a digit or the end, not x *)
  head_digit.
  destruct u as [|u|u|u|u|u|u|u|u|u|u]; [split; reflexivity|..];
    head_digit; pose proof (decimal_prefix_of_uint u) as Hp;
    remember (js (NilEmpty.string_of_uint u)) as s eqn:Hs; clear Hs;
    unfold parseInt; simpl; rewrite Hp; split; reflexivity.
Qed.

(** No number is read from a text whose first character is neither
    white space, a sign nor a digit. *)
Lemma parseInt_no_digit (c : Z) (rest : jsstring) :
  is_space c = false -> c <> 45 -> c <> 43 -> ~ 48 <= c <= 57 ->
  parseInt (c :: rest) = None.
Proof.
  intros Hsp Hminus Hplus Hdigit.
  unfold parseInt; cbn [trimStart]; rewrite Hsp.
  destruct c as [|p|p]; [reflexivity | | reflexivity].
  do 7 (try destruct p as [p|p|]); try reflexivity; exfalso; lia.
Qed.

(** [parseInt] reads back what [toString] printed of an integer. *)
Lemma parseInt_decimal (z : Z) : parseInt (decimal z) = Some z.
Proof.
  unfold decimal; destruct z as [|p|p]; [reflexivity| |];
    unfold Z.to_int, NilZero.string_of_int, NilZero.string_of_uint;
    pose proof (DecimalPos.Unsigned.to_uint_nonnil p) as Hn;
    pose proof (DecimalPos.Unsigned.of_to p) as Hof;
    destruct (parse_printed_uint (Pos.to_uint p) Hn) as [Hpos Hneg];
    assert (Hv : Z.of_uint (Pos.to_uint p) = Z.pos p)
      by (unfold Z.of_uint; rewrite Hof; reflexivity);
    rewrite Hv in *.
  - destruct (Pos.to_uint p); try contradiction; exact Hpos.
  - rewrite js_cons; change (unit_of_ascii "-") with 45.
    destruct (Pos.to_uint p); try contradiction; exact Hneg.
Qed.

End Timestamps.

(** X4: the [X-AlgoHire-Timestamp] header a delivery is given at time
    [t] passes [isValidTimestamp] at time [t'] exactly when [t'] is
    within five minutes of the whole second of [t]; in particular it
    passes at the time it was made.  The empty timestamp does not pass,
    nor does any timestamp whose first character is neither white
    space, a sign nor a digit (a letter, say). *)
Theorem X4_timestamp_window `{Platform} (env env' : Env)
    (payload secret eventType eventId : jsstring) :
  get (SecurityUtils.generateWebhookHeaders env payload secret eventType eventId)
    "X-AlgoHire-Timestamp" = JString (decimal (now env / 1000))
  /\ SecurityUtils.isValidTimestamp env' (decimal (now env / 1000))
     = (Z.abs (now env' - now env / 1000 * 1000) <=? 300000)
  /\ SecurityUtils.isValidTimestamp env (decimal (now env / 1000)) = true
  /\ SecurityUtils.isValidTimestamp env' [] = false
  /\ (forall c rest,
        is_space c = false -> c <> 45 -> c <> 43 -> ~ 48 <= c <= 57 ->
        SecurityUtils.isValidTimestamp env' (c :: rest) = false).
Proof.
  split; [reflexivity|].
  assert (Hw : forall e, SecurityUtils.isValidTimestamp e (decimal (now env / 1000))
               = (Z.abs (now e - now env / 1000 * 1000) <=? 300000)).
  { intros e; unfold SecurityUtils.isValidTimestamp.
    rewrite parseInt_decimal; reflexivity. }
  split; [apply Hw|]; split; [|split; [reflexivity|]].
  2:{ intros c rest Hsp Hminus Hplus Hdigit.
      unfold SecurityUtils.isValidTimestamp.
      rewrite (parseInt_no_digit c rest Hsp Hminus Hplus Hdigit); reflexivity. }
  rewrite Hw; apply Z.leb_le.
  pose proof (Z.mod_pos_bound (now env) 1000 ltac:(lia)).
  pose proof (Z.div_mod (now env) 1000 ltac:(lia)); lia.
Qed.

(* ===================================================================== *)
(** ** More on ingestion *)
(* ===================================================================== *)

Section Validation.
Context `{Platform}.

(** Validation never throws: an object payload always has a JSON
    text. *)
Lemma validateEventRequest_total (b : JsValue) :
  exists v, EventController.validateEventRequest b = Ok v.
Proof.
  unfold EventController.validateEventRequest, stringify_string.
  repeat (next_case; eauto).
  all: match goal with
       | Hs : JSON_stringify ?p = None |- _ => destruct p; discriminate
       end.
Qed.

Lemma validate_valid_shape (b : JsValue) :
  EventController.validateEventRequest b = Ok (EventController.mkValidation true None) ->
  exists et payload s,
    get b "eventType" = JString et
    /\ EventController.eventTypeRegex_test et = true
    /\ get b "payload" = payload
    /\ typeof payload = TObject /\ payload <> JNull
    /\ JSON_stringify payload = Some s
    /\ str_length s <= MiB.
Proof.
  unfold EventController.validateEventRequest, EventController.invalid, stringify_string.
  destruct (negb (truthy b) || negb (JsType_eqb (typeof b) TObject)); [discriminate|].
  destruct (get b "eventType") as [| |?|?|et|?|?] eqn:Het; try discriminate.
  destruct (negb (truthy (JString et))); [discriminate|].
  destruct (str_length (trim et) =? 0); [discriminate|].
  destruct (EventController.eventTypeRegex_test et) eqn:Hre; [|discriminate].
  simpl negb; cbv iota.
  destruct (get b "payload") as [| |?|?|?|items|props] eqn:Hp;
    cbn [typeof JsType_eqb negb]; try discriminate.
  - destruct (object_serialises (JArray items) eq_refl ltac:(discriminate)) as [s Hs].
    rewrite Hs; destruct (str_length s >? 1024 * 1024) eqn:Hlen; [discriminate|].
    intros _; exists et, (JArray items), s; repeat split; try assumption;
      try discriminate.
    rewrite Z.gtb_ltb in Hlen; apply Z.ltb_ge in Hlen; exact Hlen.
  - destruct (object_serialises (JObject props) eq_refl ltac:(discriminate)) as [s Hs].
    rewrite Hs; destruct (str_length s >? 1024 * 1024) eqn:Hlen; [discriminate|].
    intros _; exists et, (JObject props), s; repeat split; try assumption;
      try discriminate.
    rewrite Z.gtb_ltb in Hlen; apply Z.ltb_ge in Hlen; exact Hlen.
Qed.

End Validation.

(** X5: the validation of a POST /events body never throws, and it
    accepts exactly the bodies that are objects whose [eventType] is a
    string matching the event-type grammar and whose [payload] is an
    object or array with a JSON text of at most 1,048,576 code units. *)
Theorem X5_validation_accepts_exactly `{Platform} (b : JsValue) :
  (exists v, EventController.validateEventRequest b = Ok v)
  /\ (EventController.validateEventRequest b
      = Ok (EventController.mkValidation true None)
      <-> exists et payload s,
            get b "eventType" = JString et
            /\ EventController.eventTypeRegex_test et = true
            /\ get b "payload" = payload
            /\ typeof payload = TObject /\ payload <> JNull
            /\ JSON_stringify payload = Some s
            /\ str_length s <= MiB).
Proof.
  split; [apply validateEventRequest_total|]; split.
  - apply validate_valid_shape.
  - intros [et [payload [s [Het [Hre [Hp [Hty [Hnn [Hs Hlen]]]]]]]]].
    rewrite (validate_by_length b payload et s Het Hre Hp Hty Hnn Hs).
    assert (Hle : (str_length s >? 1024 * 1024) = false).
    { rewrite Z.gtb_ltb; apply Z.ltb_ge; unfold MiB in Hlen; exact Hlen. }
    rewrite Hle; reflexivity.
Qed.

(** X6: the two rejections POST /events makes before it reads the
    store.  Without an idempotency key (the header absent or empty) the
    answer is 400 MISSING_IDEMPOTENCY_KEY, whatever the body; with a key
    and a body that fails the validation it is 400 VALIDATION_ERROR
    with the message of the validation.  Neither touches the store or
    the queue, whatever state they are in. *)
Theorem X6_rejected_before_the_store `{Platform} (env : nat -> Env) (req : Request)
    (w : World) :
  (x_idempotency_key req = None \/ x_idempotency_key req = Some [] ->
   EventController.processEvent env req w
   = (EventController.Done
        (mkResponse 400
           (error_body "Missing required header: x-idempotency-key"
              "MISSING_IDEMPOTENCY_KEY")), w))
  /\ (forall k,
        x_idempotency_key req = Some k -> k <> [] ->
        EventController.validateEventRequest (req_body req)
        <> Ok (EventController.mkValidation true None) ->
        exists v,
          EventController.validateEventRequest (req_body req) = Ok v
          /\ EventController.isValid v = false
          /\ EventController.processEvent env req w
             = (EventController.Done
                  (mkResponse 400
                     (obj [ ("success", JBool false);
                            ("error", match EventController.error v with
                                      | Some msg => JStr msg
                                      | None => JUndefined
                                      end);
                            ("code", JStr "VALIDATION_ERROR") ])), w)).
Proof.
  split.
  - intros [Hk | Hk];
      unfold EventController.processEvent, EventController.step at 1,
        EventController.receive;
      rewrite Hk; reflexivity.
  - intros k Hk Hne Hbad.
    destruct (validateEventRequest_total (req_body req)) as [v Hv].
    assert (Hval : EventController.isValid v = false).
    { destruct (EventController.isValid v) eqn:E; [|reflexivity].
      rewrite (valid_result _ _ Hv E) in Hv; contradiction. }
    exists v; split; [exact Hv|]; split; [exact Hval|].
    unfold EventController.processEvent, EventController.step at 1,
      EventController.receive, bind, lift.
    rewrite Hk, (str_eqb_neq _ _ Hne), Hv; cbv beta iota.
    rewrite Hval; reflexivity.
Qed.

(** X7: the first valid POST /events with a key stores one event with
    that key, the event type and payload of the body, the clock of the
    insert and a fresh id, and is answered 202 with that event; the
    fan-out job is enqueued when Redis takes it, and when Redis is down
    the answer is still 202 and the event is still stored, with no
    job. *)
Theorem X7_first_sighting `{Platform} (env : nat -> Env) (req : Request) (w : World)
    (k et : jsstring) :
  valid_request k req ->
  get (req_body req) "eventType" = JString et ->
  find (Prisma.has_key k) (events w) = None ->
  let e := Event.mk (uuid (next_uuid w)) k et (get (req_body req) "payload")
             (now (env 1%nat)) in
  exists r w',
    EventController.processEvent env req w = (EventController.Done r, w')
    /\ accepted e r
    /\ events w' = events w ++ [e]
    /\ queue w' = (if redis_up (env 2%nat) then queue w ++ [fanout_job e] else queue w)
    /\ subscriptions w' = subscriptions w
    /\ delivery_logs w' = delivery_logs w.
Proof.
  intros [Hk [Hne Hv]] Het Hf e.
  unfold EventController.processEvent, EventController.step at 1,
    EventController.receive, bind, lift, Prisma.event_findUnique_by_key, ret.
  rewrite Hk, (str_eqb_neq _ _ Hne), Hv; simpl.
  rewrite Hf, Het.
  unfold EventController.step at 1, EventController.create, bind, string_arg, ret,
    Prisma.event_create, Prisma.fresh_id, bind.
  rewrite (find_key_exists _ _ Hf); simpl.
  unfold EventController.step, EventController.enqueue, bind, try_catch,
    WebhookService.queueWebhookDeliveries, try_catch, WebhookService.queue_add, ret.
  destruct (redis_up (env 2%nat)); simpl;
    eexists; eexists; (split; [reflexivity|]); repeat split.
Qed.

(* ===================================================================== *)
(** ** More on the worker *)
(* ===================================================================== *)

Section FanOut.
Context `{Platform}.

Lemma queue_all_up (env : Env) (eventId : jsstring) (subs : list Subscription.t) :
  redis_up env = true ->
  forall w,
    WebhookWorker.queue_all env eventId subs w
    = (Ok tt,
       Prisma.set_queue w
         (queue w ++ map (fun s => delivery_job env eventId (Subscription.id s)) subs)).
Proof.
  intros Hup; induction subs as [|s subs IH]; intros w; simpl.
  - unfold ret, Prisma.set_queue; rewrite app_nil_r; destruct w; reflexivity.
  - unfold bind, WebhookWorker.queueIndividualDelivery, try_catch,
      WebhookService.queue_add.
    rewrite Hup, IH; unfold Prisma.set_queue; simpl.
    rewrite <- app_assoc; reflexivity.
Qed.

Lemma subscribers_filter (eventType : jsstring) (w : World) :
  filter (fun s => str_eqb (Subscription.event_type s) eventType
                   && Bool.eqb (Subscription.is_active s) true)
    (subscriptions w)
  = subscribers eventType w.
Proof.
  unfold subscribers; apply filter_ext; intros s.
  destruct (Subscription.is_active s); reflexivity.
Qed.

End FanOut.

(** X9: the fan-out of an event enqueues exactly one delivery job per
    active subscription of the event type, in stored order, each with
    the retry budget of the environment, a 2000 ms backoff and no
    attempt made, and reports their number; with no such subscription
    it reports "No active subscriptions" and enqueues nothing; with
    Redis down it throws and enqueues nothing.  Nothing else in the
    world changes. *)
Theorem X9_fanout_one_job_per_subscriber `{Platform} (env : Env)
    (eventId eventType : jsstring) (w : World) :
  WebhookWorker.processWebhookDeliveries env eventId eventType w
  = match subscribers eventType w with
    | [] =>
        (Ok (obj [ ("processed", JNum 0);
                   ("message", JStr "No active subscriptions") ]), w)
    | subs =>
        if redis_up env then
          (Ok (obj [ ("processed", JNum (Z.of_nat (List.length subs))) ]),
           Prisma.set_queue w
             (queue w ++ map (fun s => delivery_job env eventId (Subscription.id s)) subs))
        else (Throw (Error (js "Connection is closed.")), w)
    end.
Proof.
  unfold WebhookWorker.processWebhookDeliveries, try_catch, bind,
    Prisma.subscription_findMany.
  rewrite subscribers_filter.
  destruct (subscribers eventType w) as [|s subs] eqn:Hsubs; [reflexivity|].
  cbn [List.length Nat.eqb].
  destruct (redis_up env) eqn:Hup.
  - rewrite (queue_all_up env eventId (s :: subs) Hup w); reflexivity.
  - simpl; unfold bind, WebhookWorker.queueIndividualDelivery, try_catch,
      WebhookService.queue_add; rewrite Hup; reflexivity.
Qed.

Section Replies.
Context `{Platform}.
Variable sink : HttpRequest -> HttpOutcome.

Lemma truthy_serialises (v : JsValue) :
  truthy v = true -> exists t, JSON_stringify v = Some t.
Proof. destruct v as [| |[|]| | | |]; simpl; try discriminate; eauto. Qed.

Lemma firstn_length_bound (s : jsstring) : str_length (substring0 s 1000) <= 1000.
Proof. unfold str_length, substring0; rewrite length_firstn; lia. Qed.

(** The row and the result of an attempt that got a response. *)
Lemma reply_row (env : Env) (eventId subscriptionId : jsstring)
    (w : World) (event : Event.t) (subscription : Subscription.t)
    (B : jsstring) (st : Z) (data : JsValue) :
  find (fun e => str_eqb (Event.id e) eventId) (events w) = Some event ->
  find (fun s => str_eqb (Subscription.id s) subscriptionId) (subscriptions w)
    = Some subscription ->
  Subscription.is_active subscription = true ->
  JSON_stringify (WebhookWorker.envelope event) = Some B ->
  sink (mkHttpRequest (Subscription.target_url subscription) B
          (SecurityUtils.generateWebhookHeaders env B
             (Subscription.secret_key subscription)
             (Event.event_type event) (Event.id event)))
    = Replied st data ->
  next_log_id_fresh w = true ->
  let id := uuid (next_uuid w) in
  let row status code text err :=
    DeliveryLog.mk id eventId subscriptionId status 1 (now env) code text err in
  (200 <= st < 300 ->
   forall text, JSON_stringify data = Some text ->
   exists w',
     WebhookWorker.processWebhookDelivery sink env eventId subscriptionId w
     = (Ok (obj [ ("success", JBool true); ("statusCode", JNum st);
                  ("deliveryLogId", JString id) ]), w')
     /\ delivery_logs w'
        = delivery_logs w ++
            [ row DeliveryLog.success (Some st) (Some (substring0 text 1000)) None ])
  /\ (~ 200 <= st < 300 ->
      exists w',
        WebhookWorker.processWebhookDelivery sink env eventId subscriptionId w
        = (Throw (mkError (js "Request failed with status code " ++ decimal st)
                    (Some (mkHttpResponse st data))), w')
        /\ delivery_logs w'
           = delivery_logs w ++
               [ row DeliveryLog.failed (Some st)
                   (if truthy data
                    then match JSON_stringify data with
                         | Some text => Some (substring0 text 1000)
                         | None => None
                         end
                    else None)
                   (Some (js "Request failed with status code " ++ decimal st)) ]).
Proof.
  intros He Hs Ha HB Hsink Hfresh id row; split.
  - intros Hst text Htext.
    unfold WebhookWorker.processWebhookDelivery, try_catch, bind,
      Prisma.event_findUnique, Prisma.subscription_findUnique.
    rewrite He, Hs, Ha; unfold negb; cbv beta iota.
    unfold Prisma.deliveryLog_create, Prisma.fresh_id, bind.
    unfold lift at 1, stringify_string at 1; rewrite HB.
    unfold WebhookWorker.axios_post; rewrite Hsink.
    assert (H2 : (st >=? 200) && (st <? 300) = true).
    { apply andb_true_iff; split; [apply Z.geb_le | apply Z.ltb_lt]; lia. }
    rewrite H2; unfold ret; cbv beta iota.
    unfold lift, stringify_string; cbn [resp_data resp_status DeliveryLog.id].
    rewrite Htext; cbv beta iota.
    unfold Prisma.deliveryLog_update; cbn [delivery_logs Prisma.set_delivery_logs
      DeliveryLog.id resp_status resp_data].
    rewrite existsb_last_log by reflexivity.
    eexists; split; [reflexivity|]; cbn [delivery_logs Prisma.set_delivery_logs].
    rewrite replace_log_last; [reflexivity | exact Hfresh | reflexivity].
  - intros Hst.
    unfold WebhookWorker.processWebhookDelivery, try_catch, bind,
      Prisma.event_findUnique, Prisma.subscription_findUnique.
    rewrite He, Hs, Ha; unfold negb; cbv beta iota.
    unfold Prisma.deliveryLog_create, Prisma.fresh_id, bind.
    unfold lift at 1, stringify_string at 1; rewrite HB.
    unfold WebhookWorker.axios_post; rewrite Hsink.
    assert (H2 : (st >=? 200) && (st <? 300) = false).
    { apply andb_false_iff.
      destruct (Z_lt_dec st 200); [left; rewrite Z.geb_leb; apply Z.leb_gt; lia|].
      right; apply Z.ltb_ge; lia. }
    rewrite H2; unfold throw; cbv beta iota; cbn [response message resp_status resp_data].
    assert (Hcode : (if st =? 0 then 0 else st) = st).
    { destruct (st =? 0) eqn:E; [apply Z.eqb_eq in E; lia | reflexivity]. }
    rewrite Hcode.
    assert (Hmsg : str_eqb (js "Request failed with status code " ++ decimal st) []
                   = false) by reflexivity.
    rewrite Hmsg.
    destruct (truthy data) eqn:Ht.
    + destruct (truthy_serialises data Ht) as [text Htext].
      unfold lift, stringify_string, ret; rewrite Htext.
      unfold Prisma.deliveryLog_update; cbn [delivery_logs Prisma.set_delivery_logs
        DeliveryLog.id].
      rewrite existsb_last_log by reflexivity.
      eexists; split; [reflexivity|]; cbn [delivery_logs Prisma.set_delivery_logs].
      rewrite replace_log_last; [reflexivity | exact Hfresh | reflexivity].
    + unfold ret.
      unfold Prisma.deliveryLog_update; cbn [delivery_logs Prisma.set_delivery_logs
        DeliveryLog.id].
      rewrite existsb_last_log by reflexivity.
      eexists; split; [reflexivity|]; cbn [delivery_logs Prisma.set_delivery_logs].
      rewrite replace_log_last; [reflexivity | exact Hfresh | reflexivity].
Qed.

End Replies.

(** X10: an attempt answered with a status from 200 to 299 completes the
    job and leaves one row for the pair, marked success, with the status
    code, the JSON text of the response body cut to its first 1000 code
    units, and no error message. *)
Theorem X10_accepted_reply_row `{Platform} (sink : HttpRequest -> HttpOutcome)
    (env : Env) (eventId subscriptionId : jsstring) (w : World)
    (event : Event.t) (subscription : Subscription.t)
    (B text : jsstring) (st : Z) (data : JsValue) :
  find (fun e => str_eqb (Event.id e) eventId) (events w) = Some event ->
  find (fun s => str_eqb (Subscription.id s) subscriptionId) (subscriptions w)
    = Some subscription ->
  Subscription.is_active subscription = true ->
  JSON_stringify (WebhookWorker.envelope event) = Some B ->
  sink (mkHttpRequest (Subscription.target_url subscription) B
          (SecurityUtils.generateWebhookHeaders env B
             (Subscription.secret_key subscription)
             (Event.event_type event) (Event.id event)))
    = Replied st data ->
  next_log_id_fresh w = true ->
  200 <= st < 300 ->
  JSON_stringify data = Some text ->
  exists v w' row,
    WebhookWorker.processWebhookDelivery sink env eventId subscriptionId w = (Ok v, w')
    /\ get v "statusCode" = JNum st
    /\ get v "deliveryLogId" = JString (DeliveryLog.id row)
    /\ delivery_logs w' = delivery_logs w ++ [row]
    /\ DeliveryLog.event_id row = eventId
    /\ DeliveryLog.subscription_id row = subscriptionId
    /\ DeliveryLog.status row = DeliveryLog.success
    /\ DeliveryLog.response_status_code row = Some st
    /\ DeliveryLog.response_body row = Some (substring0 text 1000)
    /\ str_length (substring0 text 1000) <= 1000
    /\ DeliveryLog.error_message row = None.
Proof.
  intros He Hs Ha HB Hsink Hfresh Hst Htext.
  destruct (reply_row sink env eventId subscriptionId w event subscription B st data
              He Hs Ha HB Hsink Hfresh) as [Hok _].
  destruct (Hok Hst text Htext) as [w' [Hrun Hlogs]].
  refine (ex_intro _ _ (ex_intro _ w' (ex_intro _ _
            (conj Hrun (conj _ (conj _ (conj Hlogs _))))))); try reflexivity.
  repeat split; apply firstn_length_bound.
Qed.

(** X11: an attempt answered with any other status is thrown back to the
    queue as "Request failed with status code N", carrying the response,
    and leaves one row for the pair, marked failed, with the status code,
    that message, and the JSON text of the response body cut to 1000
    code units (null when the body is falsy, an empty string say). *)
Theorem X11_rejected_reply_row `{Platform} (sink : HttpRequest -> HttpOutcome)
    (env : Env) (eventId subscriptionId : jsstring) (w : World)
    (event : Event.t) (subscription : Subscription.t)
    (B : jsstring) (st : Z) (data : JsValue) :
  find (fun e => str_eqb (Event.id e) eventId) (events w) = Some event ->
  find (fun s => str_eqb (Subscription.id s) subscriptionId) (subscriptions w)
    = Some subscription ->
  Subscription.is_active subscription = true ->
  JSON_stringify (WebhookWorker.envelope event) = Some B ->
  sink (mkHttpRequest (Subscription.target_url subscription) B
          (SecurityUtils.generateWebhookHeaders env B
             (Subscription.secret_key subscription)
             (Event.event_type event) (Event.id event)))
    = Replied st data ->
  next_log_id_fresh w = true ->
  ~ 200 <= st < 300 ->
  exists w' row,
    WebhookWorker.processWebhookDelivery sink env eventId subscriptionId w
    = (Throw (mkError (js "Request failed with status code " ++ decimal st)
                (Some (mkHttpResponse st data))), w')
    /\ delivery_logs w' = delivery_logs w ++ [row]
    /\ DeliveryLog.event_id row = eventId
    /\ DeliveryLog.subscription_id row = subscriptionId
    /\ DeliveryLog.status row = DeliveryLog.failed
    /\ DeliveryLog.response_status_code row = Some st
    /\ DeliveryLog.response_body row
       = (if truthy data
          then match JSON_stringify data with
               | Some text => Some (substring0 text 1000)
               | None => None
               end
          else None)
    /\ DeliveryLog.error_message row
       = Some (js "Request failed with status code " ++ decimal st).
Proof.
  intros He Hs Ha HB Hsink Hfresh Hst.
  destruct (reply_row sink env eventId subscriptionId w event subscription B st data
              He Hs Ha HB Hsink Hfresh) as [_ Hko].
  destruct (Hko Hst) as [w' [Hrun Hlogs]].
  exists w'; eexists; split; [exact Hrun|]; split; [exact Hlogs|].
  repeat split.
Qed.

Section SuccessInvariant.
Context `{Platform}.
Variable sink : HttpRequest -> HttpOutcome.

Lemma keeps_success_2xx_refl (w : World) : keeps_success_2xx w w.
Proof. intros Hw; exact Hw. Qed.

Lemma keeps_success_2xx_trans (w1 w2 w3 : World) :
  keeps_success_2xx w1 w2 -> keeps_success_2xx w2 w3 -> keeps_success_2xx w1 w3.
Proof. unfold keeps_success_2xx; auto. Qed.

Lemma preserves_bind_returns {A B} (R : World -> World -> Prop) (Q : A -> Prop)
    (c : M A) (k : A -> M B) :
  (forall w1 w2 w3, R w1 w2 -> R w2 w3 -> R w1 w3) ->
  preserves R c -> returns Q c -> (forall a, Q a -> preserves R (k a)) ->
  preserves R (bind c k).
Proof.
  intros Htrans Hc Hq Hk w; unfold bind.
  specialize (Hc w); specialize (Hq w).
  destruct (c w) as [[a|e] w1]; simpl in *; [|exact Hc].
  eapply Htrans; [exact Hc | apply Hk; eapply Hq; reflexivity].
Qed.

Lemma replace_log_Forall (P : DeliveryLog.t -> Prop) (i : jsstring)
    (f : DeliveryLog.t -> DeliveryLog.t) (l : list DeliveryLog.t) :
  (forall d, P (f d)) -> Forall P l -> Forall P (Prisma.replace_log i f l).
Proof.
  intros Hf; induction 1 as [|d l Hd Hl IH]; simpl; [constructor|].
  destruct (str_eqb (DeliveryLog.id d) i); constructor; auto.
Qed.

Lemma update_keeps_success_2xx (i : jsstring) (f : DeliveryLog.t -> DeliveryLog.t) :
  (forall d, success_has_2xx (f d)) ->
  preserves keeps_success_2xx (Prisma.deliveryLog_update i f).
Proof.
  intros Hf w Hw; unfold Prisma.deliveryLog_update.
  destruct (existsb _ _); simpl; [|exact Hw].
  apply replace_log_Forall; assumption.
Qed.

Lemma axios_post_keeps_2xx (u payload : jsstring) (hs : JsValue) :
  preserves keeps_success_2xx (WebhookWorker.axios_post sink u payload hs)
  /\ returns (fun r => 200 <= resp_status r <= 299)
       (WebhookWorker.axios_post sink u payload hs).
Proof.
  unfold WebhookWorker.axios_post; split.
  - destruct (sink _); [destruct (_ && _)|]; intros w Hw; exact Hw.
  - intros w a w'; destruct (sink _) as [st data|reason]; [|discriminate].
    destruct ((st >=? 200) && (st <? 300)) eqn:E; [|discriminate].
    intros [= <- _]; simpl.
    apply andb_true_iff in E; destruct E as [E1 E2].
    apply Z.geb_le in E1; apply Z.ltb_lt in E2; lia.
Qed.

Create HintDb relay2.
#[local] Hint Resolve keeps_success_2xx_refl keeps_success_2xx_trans : relay2.

Lemma delivery_keeps_success_2xx (env : Env) (eventId subscriptionId : jsstring) :
  preserves keeps_success_2xx
    (WebhookWorker.processWebhookDelivery sink env eventId subscriptionId).
Proof.
  unfold WebhookWorker.processWebhookDelivery.
  apply preserves_try_catch; eauto with relay2;
    [|intros; apply preserves_throw; eauto with relay2].
  apply preserves_bind; eauto with relay2; [intros w Hw; exact Hw|]; intros event.
  apply preserves_bind; eauto with relay2; [intros w Hw; exact Hw|]; intros subscription.
  destruct event as [event|]; [|apply preserves_throw; eauto with relay2].
  destruct subscription as [subscription|]; [|apply preserves_throw; eauto with relay2].
  destruct (negb (Subscription.is_active subscription));
    [apply preserves_throw; eauto with relay2|].
  apply preserves_bind; eauto with relay2.
  { intros w Hw; unfold Prisma.deliveryLog_create, Prisma.fresh_id, bind; simpl.
    apply Forall_app; split; [exact Hw|].
    constructor; [intros Hst; discriminate | constructor]. }
  intros deliveryLog.
  apply preserves_try_catch; eauto with relay2.
  - apply preserves_bind; eauto with relay2;
      [apply preserves_lift; eauto with relay2|]; intros payload.
    eapply preserves_bind_returns; eauto with relay2;
      [apply axios_post_keeps_2xx | apply axios_post_keeps_2xx |].
    intros response Hresp.
    apply preserves_bind; eauto with relay2;
      [apply preserves_lift; eauto with relay2|]; intros text.
    apply preserves_bind; eauto with relay2;
      [|intros; apply preserves_ret; eauto with relay2].
    apply update_keeps_success_2xx; intros d _; eexists; split; [reflexivity|exact Hresp].
  - intros deliveryError.
    apply preserves_bind; eauto with relay2.
    + destruct (response deliveryError) as [r|];
        [destruct (truthy (resp_data r))|];
        try (apply preserves_ret; eauto with relay2).
      apply preserves_bind; eauto with relay2; intros;
        [apply preserves_lift | apply preserves_ret]; eauto with relay2.
    + intros responseBody.
      apply preserves_bind; eauto with relay2;
        [|intros; apply preserves_throw; eauto with relay2].
      apply update_keeps_success_2xx; intros d Hst; discriminate.
Qed.

Lemma processJob_keeps_success_2xx (this : WebhookWorker.Receiver) (env : Env)
    (job : Job.t) :
  preserves keeps_success_2xx (WebhookWorker.processJob sink this env job).
Proof.
  destruct (classic_receiver this) as [-> | Hthis];
    [|intros w; rewrite (processJob_detached sink this env job w Hthis);
      apply keeps_success_2xx_refl].
  unfold WebhookWorker.processJob, WebhookWorker.this_call.
  apply preserves_try_catch; eauto with relay2;
    [|intros; apply preserves_throw; eauto with relay2].
  destruct (Job.data job) as [eventId eventType | eventId subscriptionId].
  - intros w Hw.
    destruct (fanout_effect env eventId eventType w) as [added [Hl _]].
    rewrite Hl; exact Hw.
  - apply delivery_keeps_success_2xx.
Qed.

End SuccessInvariant.

(** X12: whatever job the worker runs, against whatever endpoint, for
    however many attempts and whatever the queue calls the processor on,
    if every stored row marked success carries a status code from 200
    to 299 before, every row does after; the same holds of one call of
    [processWebhookDelivery]. *)
Theorem X12_success_rows_carry_2xx `{Platform} (sink : HttpRequest -> HttpOutcome)
    (env : nat -> Env) (job : Job.t) (w : World) :
  Forall success_has_2xx (delivery_logs w) ->
  (forall this,
     Forall success_has_2xx
       (delivery_logs (snd (WebhookWorker.run_job sink this env job w))))
  /\ (forall env0 eventId subscriptionId,
        Forall success_has_2xx
          (delivery_logs
             (snd (WebhookWorker.processWebhookDelivery sink env0 eventId
                     subscriptionId w)))).
Proof.
  intros Hw0; split;
    [|intros env0 eventId subscriptionId;
      exact (delivery_keeps_success_2xx sink env0 eventId subscriptionId w Hw0)].
  intros this; revert Hw0; unfold WebhookWorker.run_job.
  generalize (Job.attempts job - Job.attemptsMade job - 1)%nat; intros retries.
  revert job w; induction retries as [|retries IH]; intros job w Hw; simpl;
    pose proof (processJob_keeps_success_2xx sink this (env (Job.attemptsMade job))
                  job w Hw) as Hstep;
    destruct (WebhookWorker.processJob sink this (env (Job.attemptsMade job)) job w)
      as [[v|e] w']; simpl in *; try exact Hstep.
  apply IH; exact Hstep.
Qed.

Section Attempts.
Context `{Platform}.
Variable sink : HttpRequest -> HttpOutcome.

Lemma replace_log_length (i : jsstring) (f : DeliveryLog.t -> DeliveryLog.t)
    (l : list DeliveryLog.t) :
  List.length (Prisma.replace_log i f l) = List.length l.
Proof.
  induction l as [|x l IH]; simpl; [reflexivity|].
  destruct (str_eqb (DeliveryLog.id x) i); simpl; rewrite ?IH; reflexivity.
Qed.

End Attempts.

(** The end of an attempt: the row created for it is updated. *)
Ltac close_attempt :=
  unfold Prisma.deliveryLog_update;
  cbn [delivery_logs Prisma.set_delivery_logs DeliveryLog.id];
  rewrite existsb_last_log by reflexivity;
  eexists; eexists; split; [reflexivity|]; split; [reflexivity|];
  cbn [events subscriptions delivery_logs queue Prisma.set_delivery_logs];
  rewrite ?replace_log_length, ?length_app; cbn [List.length];
  split; [reflexivity|]; split; [reflexivity|]; split; [reflexivity|];
  split; [lia|].

(** X13: the queue is handed the processor without its class, so when
    a job runs [this] is not the class: the processor then throws a
    TypeError at the call of the handler, before the store is read, on
    every attempt.  A job of either kind ends marked failed with that
    error, and store and queue are as they were: nothing is delivered
    and no delivery log is written. *)
Theorem X13_detached_processor_fails `{Platform} (sink : HttpRequest -> HttpOutcome)
    (this : WebhookWorker.Receiver) (env : nat -> Env) (job : Job.t) (w : World) :
  this <> WebhookWorker.the_class ->
  WebhookWorker.run_job sink this env job w
  = (WebhookWorker.permanently_failed (detached_error this job), w)
  /\ (forall env0,
        WebhookWorker.processJob sink this env0 job w
        = (Throw (detached_error this job), w))
  /\ message (detached_error this job)
     = match this with
       | WebhookWorker.another_object =>
           js "this." ++ js (handler_name job) ++ js " is not a function"
       | _ =>
           js "Cannot read properties of undefined (reading '"
           ++ js (handler_name job) ++ js "')"
       end.
Proof.
  intros Hthis; split; [|split].
  - unfold WebhookWorker.run_job; apply attempts_detached; exact Hthis.
  - intros env0; apply processJob_detached; exact Hthis.
  - destruct this; reflexivity.
Qed.

(** X14: one call of [processWebhookDelivery] for a stored event and an
    active subscription adds exactly one delivery log and changes
    nothing else stored or queued, whatever the endpoint does; it
    returns exactly when the endpoint answered the request with a
    status from 200 to 299 and a body that has a JSON text, and throws
    otherwise. *)
Theorem X14_attempt_adds_one_row `{Platform} (sink : HttpRequest -> HttpOutcome)
    (env : Env) (eventId subscriptionId : jsstring) (w : World)
    (event : Event.t) (subscription : Subscription.t) :
  find (fun e => str_eqb (Event.id e) eventId) (events w) = Some event ->
  find (fun s => str_eqb (Subscription.id s) subscriptionId) (subscriptions w)
    = Some subscription ->
  Subscription.is_active subscription = true ->
  exists B r w',
    JSON_stringify (WebhookWorker.envelope event) = Some B
    /\ WebhookWorker.processWebhookDelivery sink env eventId subscriptionId w = (r, w')
    /\ events w' = events w
    /\ subscriptions w' = subscriptions w
    /\ queue w' = queue w
    /\ List.length (delivery_logs w') = S (List.length (delivery_logs w))
    /\ ((exists v, r = Ok v)
        <-> delivered
              (sink (mkHttpRequest (Subscription.target_url subscription) B
                       (SecurityUtils.generateWebhookHeaders env B
                          (Subscription.secret_key subscription)
                          (Event.event_type event) (Event.id event))))
            = true).
Proof.
  intros He Hs Ha.
  destruct (envelope_serialises event) as [B HB].
  exists B.
  unfold WebhookWorker.processWebhookDelivery, try_catch, bind,
    Prisma.event_findUnique, Prisma.subscription_findUnique.
  rewrite He, Hs, Ha; unfold negb; cbv beta iota.
  unfold Prisma.deliveryLog_create, Prisma.fresh_id, bind.
  unfold lift at 1, stringify_string at 1; rewrite HB.
  unfold WebhookWorker.axios_post.
  match goal with |- context [sink ?q] => set (req := q) end.
  destruct (sink req) as [st data|reason] eqn:Hsink; cbn [delivered].
  - destruct ((st >=? 200) && (st <? 300)) eqn:H2.
    + unfold ret; cbv beta iota.
      unfold lift, stringify_string; cbn [resp_data resp_status DeliveryLog.id].
      destruct (JSON_stringify data) as [text|] eqn:Htext; cbv beta iota.
      * close_attempt.
        split; [reflexivity | intros _; eexists; reflexivity].
      * unfold throw, Error; cbv beta iota; cbn [response message].
        unfold ret.
        close_attempt.
        split; [intros [v Hv]; discriminate | cbn; discriminate].
    + unfold throw; cbv beta iota; cbn [response message resp_status resp_data].
      destruct (truthy data) eqn:Ht.
      * destruct (truthy_serialises data Ht) as [text Htext].
        unfold lift, stringify_string, ret; rewrite Htext.
        close_attempt.
        split; [intros [v Hv]; discriminate | cbn; discriminate].
      * unfold ret.
        close_attempt.
        split; [intros [v Hv]; discriminate | cbn; discriminate].
  - unfold throw, Error; cbv beta iota; cbn [response message].
    unfold ret.
    close_attempt.
    split; [intros [v Hv]; discriminate | cbn; discriminate].
Qed.

(* ===================================================================== *)
(** ** Looking an event up *)
(* ===================================================================== *)

Section Ordering.
Variable A : Type.
Variable key : A -> Z.

Lemma insert_desc_perm (x : A) (l : list A) :
  Permutation (Prisma.insert_desc key x l) (x :: l).
Proof.
  induction l as [|y l IH]; simpl; [apply Permutation_refl|].
  destruct (key y <=? key x); [apply Permutation_refl|].
  eapply Permutation_trans; [apply perm_skip, IH | apply perm_swap].
Qed.

Lemma orderBy_desc_perm (l : list A) : Permutation (Prisma.orderBy_desc key l) l.
Proof.
  induction l as [|x l IH]; simpl; [constructor|].
  eapply Permutation_trans; [apply insert_desc_perm | apply perm_skip, IH].
Qed.

Lemma insert_desc_sorted (x : A) (l : list A) :
  StronglySorted (fun a b => key b <= key a) l ->
  StronglySorted (fun a b => key b <= key a) (Prisma.insert_desc key x l).
Proof.
  induction 1 as [|y l Hl IH Hy]; simpl; [repeat constructor|].
  destruct (key y <=? key x) eqn:E.
  - apply Z.leb_le in E; constructor; [constructor; assumption|].
    constructor; [exact E|].
    eapply Forall_impl; [|exact Hy]; simpl; intros; lia.
  - apply Z.leb_gt in E; constructor; [exact IH|].
    eapply Permutation_Forall; [apply Permutation_sym, insert_desc_perm|].
    constructor; [lia | exact Hy].
Qed.

Lemma orderBy_desc_sorted (l : list A) :
  StronglySorted (fun a b => key b <= key a) (Prisma.orderBy_desc key l).
Proof.
  induction l as [|x l IH]; simpl; [constructor | apply insert_desc_sorted, IH].
Qed.


End Ordering.

(** X15: looking an event up by id changes nothing stored; an unknown id
    is answered 404 EVENT_NOT_FOUND, a known one 200 with the stored
    fields of the event and, under [deliveryLogs], exactly the delivery
    rows of that event, latest attempt first, each with the subscription
    it points to. *)
Theorem X15_event_lookup `{Platform} (req : Request) (w : World) :
  param req <> [] ->
  match find (fun e => str_eqb (Event.id e) (param req)) (events w) with
  | None =>
      EventController.getEventById req w
      = (mkResponse 404 (error_body "Event not found" "EVENT_NOT_FOUND"), w)
  | Some event =>
      exists logs,
        EventController.getEventById req w
        = (mkResponse 200
             (obj [ ("success", JBool true);
                    ("event",
                     obj [ ("id", JString (param req));
                           ("eventType", JString (Event.event_type event));
                           ("idempotencyKey", JString (Event.idempotency_key event));
                           ("payload", Event.payload event);
                           ("receivedAt",
                              JString (toISOString (Event.received_at event)));
                           ("deliveryLogs",
                              JArray
                                (map (fun d =>
                                        EventController.deliveryLog_json d
                                          (find (fun s =>
                                                   str_eqb (Subscription.id s)
                                                     (DeliveryLog.subscription_id d))
                                             (subscriptions w)))
                                   logs)) ]) ]), w)
        /\ Permutation logs
             (filter (fun d => str_eqb (DeliveryLog.event_id d) (param req))
                (delivery_logs w))
        /\ StronglySorted
             (fun a b => DeliveryLog.attempted_at b <= DeliveryLog.attempted_at a)
             logs
  end.
Proof.
  intros Hparam.
  unfold EventController.getEventById, respond.
  rewrite (str_eqb_neq _ _ Hparam).
  unfold bind, Prisma.event_findUnique_with_logs.
  destruct (find _ (events w)) as [event|] eqn:He; [|reflexivity].
  apply find_some in He; destruct He as [_ Hid]; apply str_eqb_eq in Hid.
  rewrite Hid.
  eexists; split; [|split; [apply orderBy_desc_perm | apply orderBy_desc_sorted]].
  unfold ret; rewrite map_map; reflexivity.
Qed.

(* ===================================================================== *)
(** ** More on the administration of subscriptions *)
(* ===================================================================== *)

Section Secrets.
Context `{Platform}.

Lemma hex_length (bytes : list Z) :
  str_length (hex bytes) = 2 * Z.of_nat (List.length bytes).
Proof.
  unfold str_length, hex; induction bytes as [|b bytes IH]; [reflexivity|].
  cbn [flat_map hex_byte List.length app] in *; lia.
Qed.

Lemma randomBytes_length (env : Env) (size : nat) :
  List.length (randomBytes env size) = size.
Proof. unfold randomBytes; rewrite length_map, length_seq; reflexivity. Qed.

Lemma randomBytes_bytes (env : Env) (size : nat) :
  map (fun b => b mod 256) (randomBytes env size) = randomBytes env size
  /\ Forall (fun b => 0 <= b < 256) (randomBytes env size).
Proof.
  unfold randomBytes; split.
  - rewrite map_map; apply map_ext; intros i; apply Z.mod_mod; lia.
  - apply Forall_forall; intros b Hb; apply in_map_iff in Hb.
    destruct Hb as [i [<- _]]; apply Z.mod_pos_bound; lia.
Qed.

Lemma createSubscription_secret (env : Env) (req : Request) (w : World) :
  let (r, w') := AdminController.createSubscription env req w in
  status r = 201 ->
  exists s, subscriptions w' = subscriptions w ++ [s]
            /\ Subscription.secret_key s = hex (randomBytes env 32)
            /\ get (get (body r) "subscription") "secretKey"
               = JString (Subscription.secret_key s).
Proof.
  unfold AdminController.createSubscription, respond, bind, destructure,
    Prisma.subscription_findFirst, Prisma.subscription_create, Prisma.fresh_id,
    string_arg, bind, ret, throw.
  run_handler; try discriminate.
  all: repeat match goal with H : (_, _) = (_, _) |- _ => inversion H; clear H; subst end.
  all: try discriminate.
  all: intros _; eexists; repeat split.
Qed.

End Secrets.

(** X16: the secret a 201 answer of POST /subscriptions hands out is
    the stored secret of the row it added: the 32 bytes the random
    generator gave, written as two lowercase hexadecimal digits each,
    64 characters in all, from which the 32 bytes are read back. *)
Theorem X16_issued_secret `{Platform} (env : Env) (req : Request) (w : World) :
  status (fst (AdminController.createSubscription env req w)) = 201 ->
  exists s key,
    subscriptions (snd (AdminController.createSubscription env req w))
    = subscriptions w ++ [s]
    /\ Subscription.secret_key s = key
    /\ get (get (body (fst (AdminController.createSubscription env req w)))
              "subscription") "secretKey" = JString key
    /\ str_length key = 64
    /\ forallb is_lower_hex key = true
    /\ from_hex key = randomBytes env 32
    /\ List.length (from_hex key) = 32%nat
    /\ Forall (fun b => 0 <= b < 256) (from_hex key).
Proof.
  pose proof (createSubscription_secret env req w) as Hs.
  destruct (AdminController.createSubscription env req w) as [r w']; simpl.
  intros Hr; destruct (Hs Hr) as [s [Hrows [Hkey Hget]]].
  destruct (randomBytes_bytes env 32) as [Hmod Hrange].
  assert (Hback : from_hex (hex (randomBytes env 32)) = randomBytes env 32)
    by (rewrite from_hex_hex_exact; exact Hmod).
  exists s, (Subscription.secret_key s); split; [exact Hrows|].
  split; [reflexivity|]; split; [exact Hget|]; rewrite Hkey.
  split; [rewrite hex_length, randomBytes_length; reflexivity|].
  split; [apply hex_lowercase|]; rewrite Hback.
  split; [reflexivity|]; split; [apply randomBytes_length | exact Hrange].
Qed.

Section Updates.
Context `{Platform}.

Lemma replace_subscription_frame (id : jsstring) (s s' : Subscription.t)
    (l : list Subscription.t) :
  find (fun x => str_eqb (Subscription.id x) id) l = Some s ->
  identity_of s' = identity_of s ->
  Forall2 (fun a b => identity_of b = identity_of a
                      /\ (Subscription.id a <> id -> b = a))
    l (Prisma.replace_subscription id s' l).
Proof.
  intros Hfind Hid; induction l as [|x l IH]; simpl in *; [discriminate|].
  destruct (str_eqb (Subscription.id x) id) eqn:E.
  - injection Hfind as ->; constructor.
    + split; [exact Hid|]; apply str_eqb_eq in E; intros Hne; contradiction.
    + clear; induction l; constructor; auto.
  - constructor; [split; reflexivity | apply IH; exact Hfind].
Qed.

Lemma find_replace_subscription (id : jsstring) (s s' : Subscription.t)
    (l : list Subscription.t) :
  find (fun x => str_eqb (Subscription.id x) id) l = Some s ->
  Subscription.id s' = Subscription.id s ->
  find (fun x => str_eqb (Subscription.id x) id)
    (Prisma.replace_subscription id s' l) = Some s'.
Proof.
  intros Hfind Hid; induction l as [|x l IH]; simpl in *; [discriminate|].
  destruct (str_eqb (Subscription.id x) id) eqn:E; simpl.
  - injection Hfind as ->; rewrite Hid, E; reflexivity.
  - rewrite E; apply IH; exact Hfind.
Qed.

Lemma opt_string_update (o : option JsValue) (w : World) :
  exists r,
    Prisma.opt_update Prisma.string_update o w = (r, w)
    /\ (o = None -> r = Ok None)
    /\ (forall v, o = Some (JString v) -> r = Ok (Some v)).
Proof.
  destruct o as [[| | | | v | |]|]; eexists; (split; [reflexivity|]);
    split; try discriminate; try reflexivity; intros v' [= <-]; reflexivity.
Qed.

Lemma opt_bool_update (o : option JsValue) (w : World) :
  exists r,
    Prisma.opt_update Prisma.bool_update o w = (r, w)
    /\ (o = None -> r = Ok None)
    /\ (forall b, o = Some (JBool b) -> r = Ok (Some b)).
Proof.
  destruct o as [[| | b | | | |]|]; eexists; (split; [reflexivity|]);
    split; try discriminate; try reflexivity; intros b' [= <-]; reflexivity.
Qed.

(** What [prisma.subscription.update] does with a patch. *)
Lemma subscription_update_spec (id : jsstring) (p : Prisma.SubscriptionPatch)
    (w : World) :
  match Prisma.subscription_update id p w with
  | (Throw e, w') => w' = w
  | (Ok s', w') =>
      exists s,
        find (fun x => str_eqb (Subscription.id x) id) (subscriptions w) = Some s
        /\ w' = Prisma.set_subscriptions w
                  (Prisma.replace_subscription id s' (subscriptions w))
        /\ identity_of s' = identity_of s
        /\ Subscription.updated_at s' = Prisma.patch_updated_at p
        /\ (Prisma.patch_event_type p = None
            -> Subscription.event_type s' = Subscription.event_type s)
        /\ (forall v, Prisma.patch_event_type p = Some (JString v)
                      -> Subscription.event_type s' = v)
        /\ (Prisma.patch_target_url p = None
            -> Subscription.target_url s' = Subscription.target_url s)
        /\ (forall v, Prisma.patch_target_url p = Some (JString v)
                      -> Subscription.target_url s' = v)
        /\ (Prisma.patch_is_active p = None
            -> Subscription.is_active s' = Subscription.is_active s)
        /\ (forall b, Prisma.patch_is_active p = Some (JBool b)
                      -> Subscription.is_active s' = b)
  end.
Proof.
  unfold Prisma.subscription_update, bind.
  destruct (opt_string_update (Prisma.patch_event_type p) w) as [r1 [-> [N1 S1]]].
  destruct r1 as [et|e]; [|reflexivity].
  destruct (opt_string_update (Prisma.patch_target_url p) w) as [r2 [-> [N2 S2]]].
  destruct r2 as [url|e]; [|reflexivity].
  destruct (opt_bool_update (Prisma.patch_is_active p) w) as [r3 [-> [N3 S3]]].
  destruct r3 as [act|e]; [|reflexivity].
  destruct (find _ (subscriptions w)) as [row|]; [|reflexivity].
  exists row; cbn [Subscription.event_type Subscription.target_url
                   Subscription.is_active Subscription.updated_at].
  split; [reflexivity|]; split; [reflexivity|]; split; [reflexivity|];
    split; [reflexivity|].
  repeat split.
  - intros Hn; specialize (N1 Hn); injection N1 as ->; reflexivity.
  - intros v Hv; specialize (S1 v Hv); injection S1 as ->; reflexivity.
  - intros Hn; specialize (N2 Hn); injection N2 as ->; reflexivity.
  - intros v Hv; specialize (S2 v Hv); injection S2 as ->; reflexivity.
  - intros Hn; specialize (N3 Hn); injection N3 as ->; reflexivity.
  - intros b Hb; specialize (S3 b Hb); injection S3 as ->; reflexivity.
Qed.

Lemma updateSubscription_outcome (env : Env) (req : Request) (w : World) :
  let (r, w') := AdminController.updateSubscription env req w in
  (status r <> 200 /\ w' = w)
  \/ (status r = 200 /\
      exists s s',
        find (fun x => str_eqb (Subscription.id x) (param req)) (subscriptions w)
        = Some s
        /\ w' = Prisma.set_subscriptions w
                  (Prisma.replace_subscription (param req) s' (subscriptions w))
        /\ identity_of s' = identity_of s
        /\ Subscription.updated_at s' = now env
        /\ string_written (get (req_body req) "eventType")
             (Subscription.event_type s) (Subscription.event_type s')
        /\ string_written (get (req_body req) "targetUrl")
             (Subscription.target_url s) (Subscription.target_url s')
        /\ bool_written (get (req_body req) "isActive")
             (Subscription.is_active s) (Subscription.is_active s')
        /\ body r
           = obj [ ("success", JBool true);
                   ("message", JStr "Subscription updated successfully");
                   ("subscription",
                    obj [ ("id", JString (Subscription.id s'));
                          ("eventType", JString (Subscription.event_type s'));
                          ("targetUrl", JString (Subscription.target_url s'));
                          ("isActive", JBool (Subscription.is_active s'));
                          ("createdAt",
                             JString (toISOString (Subscription.created_at s')));
                          ("updatedAt",
                             JString (toISOString (Subscription.updated_at s'))) ]) ]).
Proof.
  assert (Hcatch : forall e, status (AdminController.updateSubscription_catch e) <> 200).
  { intros e; destruct (updateSubscription_catch_status e) as [-> | ->]; discriminate. }
  unfold AdminController.updateSubscription, respond, bind.
  assert (Hb : destructure (req_body req) w = (Ok (req_body req), w)
               \/ exists e, destructure (req_body req) w = (Throw e, w)).
  { unfold destructure, ret, throw; destruct (req_body req); eauto. }
  destruct Hb as [-> | [e ->]]; [|left; split; [apply Hcatch | reflexivity]].
  destruct (str_eqb (param req) []); [left; split; [discriminate | reflexivity]|].
  match goal with |- context [if ?c then ret _ else _] => destruct c end;
    [left; split; [discriminate | reflexivity]|].
  match goal with |- context [Prisma.subscription_update ?i ?p ?w0] =>
    pose proof (subscription_update_spec i p w0) as Hu;
    destruct (Prisma.subscription_update i p w0) as [[s'|e] w'] end.
  - right; split; [reflexivity|].
    destruct Hu as [s [Hf [Hw [Hid [Hup [N1 [S1 [N2 [S2 [N3 S3]]]]]]]]]].
    cbn [Prisma.patch_updated_at Prisma.patch_event_type Prisma.patch_target_url
         Prisma.patch_is_active] in *.
    exists s, s'; unfold ret; cbn [body status].
    split; [exact Hf|]; split; [exact Hw|]; split; [exact Hid|]; split; [exact Hup|].
    repeat split.
    + destruct (get (req_body req) "eventType") as [| | | | v | |];
        cbn [string_written]; try exact I; [apply N1 | apply S1]; reflexivity.
    + destruct (get (req_body req) "targetUrl") as [| | | | v | |];
        cbn [string_written]; try exact I; [apply N2 | apply S2]; reflexivity.
    + destruct (get (req_body req) "isActive") as [| | b | | | |];
        cbn [bool_written]; try exact I; [apply N3 | apply S3]; reflexivity.
  - left; split; [apply Hcatch | exact Hu].
Qed.

End Updates.

(** X17: whatever the request, PUT /subscriptions/:id touches nothing
    but the subscriptions: events, delivery logs and queue stay, the
    rows keep their number and order, no row changes its id, secret or
    creation time, and a row with another id does not change at all. An
    answer other than 200 changes nothing. *)
Theorem X17_update_frame `{Platform} (env : Env) (req : Request) (w : World) :
  let (r, w') := AdminController.updateSubscription env req w in
  events w' = events w
  /\ delivery_logs w' = delivery_logs w
  /\ queue w' = queue w
  /\ Forall2 (fun a b => identity_of b = identity_of a
                         /\ (Subscription.id a <> param req -> b = a))
       (subscriptions w) (subscriptions w')
  /\ (status r <> 200 -> w' = w).
Proof.
  pose proof (updateSubscription_outcome env req w) as Ho.
  destruct (AdminController.updateSubscription env req w) as [r w'].
  assert (Hsame : forall l : list Subscription.t,
            Forall2 (fun a b => identity_of b = identity_of a
                                /\ (Subscription.id a <> param req -> b = a)) l l).
  { induction l; constructor; auto. }
  destruct Ho as [[Hr ->] | [Hr [s [s' [Hf [-> [Hid _]]]]]]].
  - repeat split; try apply Hsame.
  - repeat split; [|intros Hne; contradiction].
    apply (replace_subscription_frame _ s); assumption.
Qed.

(** X18: when PUT /subscriptions/:id answers 200 the id named a stored
    row, which a lookup by that id now finds rewritten and which the
    answer shows: updated at the time of the request, each of eventType
    and targetUrl equal to the string the body gives for it and
    isActive to the boolean the body gives, and a field the body leaves
    out as it was stored.  (What a value of another kind does is the
    Prisma client's reading of it.) *)
Theorem X18_update_applies_given_fields `{Platform} (env : Env) (req : Request)
    (w : World) :
  status (fst (AdminController.updateSubscription env req w)) = 200 ->
  exists s s',
    find (fun x => str_eqb (Subscription.id x) (param req)) (subscriptions w) = Some s
    /\ find (fun x => str_eqb (Subscription.id x) (param req))
         (subscriptions (snd (AdminController.updateSubscription env req w)))
       = Some s'
    /\ Subscription.updated_at s' = now env
    /\ string_written (get (req_body req) "eventType")
         (Subscription.event_type s) (Subscription.event_type s')
    /\ string_written (get (req_body req) "targetUrl")
         (Subscription.target_url s) (Subscription.target_url s')
    /\ bool_written (get (req_body req) "isActive")
         (Subscription.is_active s) (Subscription.is_active s')
    /\ get (body (fst (AdminController.updateSubscription env req w))) "subscription"
       = obj [ ("id", JString (Subscription.id s'));
               ("eventType", JString (Subscription.event_type s'));
               ("targetUrl", JString (Subscription.target_url s'));
               ("isActive", JBool (Subscription.is_active s'));
               ("createdAt", JString (toISOString (Subscription.created_at s')));
               ("updatedAt", JString (toISOString (Subscription.updated_at s'))) ].
Proof.
  pose proof (updateSubscription_outcome env req w) as Ho.
  destruct (AdminController.updateSubscription env req w) as [r w']; simpl.
  intros Hr; destruct Ho as [[Hne _] | [_ Ho]]; [contradiction|].
  destruct Ho as [s [s' [Hf [-> [Hid [Hup [Het [Hurl [Hact Hbody]]]]]]]]].
  exists s, s'; rewrite Hbody.
  split; [exact Hf|]; split; [|repeat split; assumption].
  apply (find_replace_subscription _ s); [exact Hf|].
  unfold identity_of in Hid; congruence.
Qed.

Section Deletes.
Context `{Platform}.

Lemma existsb_filter_out (id : jsstring) (l : list Subscription.t) :
  existsb (fun s => str_eqb (Subscription.id s) id)
    (filter (fun s => negb (str_eqb (Subscription.id s) id)) l) = false.
Proof.
  induction l as [|x l IH]; simpl; [reflexivity|].
  destruct (str_eqb (Subscription.id x) id) eqn:E; simpl; [exact IH|].
  rewrite E; exact IH.
Qed.

End Deletes.

(** X19: DELETE /subscriptions/:id for a subscription no delivery log
    refers to. An unknown id is answered 404 SUBSCRIPTION_NOT_FOUND and
    changes nothing. A known id is answered 200: the rows with that id
    are gone, the other rows stay in order, nothing else changes, and
    the same request sent again is answered 404. *)
Theorem X19_delete_subscription `{Platform} (env env' : Env) (req : Request)
    (w : World) :
  param req <> [] ->
  Forall (fun d => DeliveryLog.subscription_id d <> param req) (delivery_logs w) ->
  let not_found :=
    mkResponse 404 (error_body "Subscription not found" "SUBSCRIPTION_NOT_FOUND") in
  let (r, w') := AdminController.deleteSubscription env req w in
  if existsb (fun s => str_eqb (Subscription.id s) (param req)) (subscriptions w)
  then
    status r = 200
    /\ w' = Prisma.set_subscriptions w
              (filter (fun s => negb (str_eqb (Subscription.id s) (param req)))
                 (subscriptions w))
    /\ AdminController.deleteSubscription env' req w' = (not_found, w')
  else r = not_found /\ w' = w.
Proof.
  intros Hparam _ not_found.
  unfold AdminController.deleteSubscription, respond, bind, Prisma.subscription_delete.
  rewrite (str_eqb_neq _ _ Hparam).
  destruct (existsb _ (subscriptions w)) eqn:E.
  - unfold ret; split; [reflexivity|]; split; [reflexivity|].
    cbn [subscriptions Prisma.set_subscriptions].
    rewrite existsb_filter_out; reflexivity.
  - split; reflexivity.
Qed.

Section Paging.
Context `{Platform}.






End Paging.


(* ===================================================================== *)
(** ** Statistics, manual retries and the age labels of the pages *)
(* ===================================================================== *)

Section Counting.
Context `{Platform}.

Lemma count_by_status (l : list DeliveryLog.t) :
  let count st :=
    List.length (filter (fun d => DeliveryLog.Status_eqb (DeliveryLog.status d) st) l) in
  (count DeliveryLog.success + count DeliveryLog.failed + count DeliveryLog.pending
   = List.length l)%nat.
Proof.
  induction l as [|d l IH]; [reflexivity|]; cbv zeta in *; simpl.
  destruct (DeliveryLog.status d); simpl; lia.
Qed.

Lemma count_active (l : list Subscription.t) :
  (List.length (filter (Prisma.subscription_where None (Some true)) l)
   <= List.length (filter (Prisma.subscription_where None None) l))%nat
  /\ List.length (filter (Prisma.subscription_where None None) l) = List.length l.
Proof.
  induction l as [|s l IH]; [split; reflexivity|].
  unfold Prisma.subscription_where in *; simpl in *.
  destruct IH as [IH1 IH2].
  destruct (Subscription.is_active s); simpl; lia.
Qed.

End Counting.

(** X21: GET /stats reads only and its numbers add up: the deliveries
    total is the number of delivery logs and the sum of the successful,
    failed and pending counts; the subscriptions total is the sum of the
    active and inactive counts, neither negative; and with no delivery
    log the success rate is 0, whatever the rounding does. *)
Theorem X21_stats_add_up `{Platform} (percentage : Z -> Z -> jsstring) (w : World) :
  let r := fst (AdminController.getSystemStats percentage w) in
  let stats := get (body r) "stats" in
  snd (AdminController.getSystemStats percentage w) = w
  /\ status r = 200
  /\ get (get stats "events") "total" = JNum (Z.of_nat (List.length (events w)))
  /\ (exists successful failed pending : nat,
        get (get stats "deliveries") "successful" = JNum (Z.of_nat successful)
        /\ get (get stats "deliveries") "failed" = JNum (Z.of_nat failed)
        /\ get (get stats "deliveries") "pending" = JNum (Z.of_nat pending)
        /\ get (get stats "deliveries") "total"
           = JNum (Z.of_nat (successful + failed + pending))
        /\ (successful + failed + pending = List.length (delivery_logs w))%nat)
  /\ (exists active inactive : nat,
        get (get stats "subscriptions") "active" = JNum (Z.of_nat active)
        /\ get (get stats "subscriptions") "inactive" = JNum (Z.of_nat inactive)
        /\ get (get stats "subscriptions") "total" = JNum (Z.of_nat (active + inactive))
        /\ (active + inactive = List.length (subscriptions w))%nat)
  /\ (delivery_logs w = [] -> get (get stats "deliveries") "successRate" = JNum 0).
Proof.
  intros r stats; subst stats r.
  unfold AdminController.getSystemStats, respond, bind, Prisma.subscription_count,
    Prisma.deliveryLog_count, ret.
  cbn [fst snd body status].
  split; [reflexivity|]; split; [reflexivity|]; split; [reflexivity|].
  pose proof (count_by_status (delivery_logs w)) as Hlogs; cbv zeta in Hlogs.
  destruct (count_active (subscriptions w)) as [Hle Hall].
  split; [|split].
  - do 3 eexists; repeat split; [| exact Hlogs].
    rewrite Hlogs.
    rewrite (filter_ext (fun _ => true) (fun _ => true)) by reflexivity.
    assert (Htrue : forall l : list DeliveryLog.t, filter (fun _ => true) l = l).
    { induction l; simpl; congruence. }
    rewrite Htrue; reflexivity.
  - exists (List.length (filter (Prisma.subscription_where None (Some true))
                           (subscriptions w))),
           (List.length (subscriptions w)
            - List.length (filter (Prisma.subscription_where None (Some true))
                             (subscriptions w)))%nat.
    rewrite Hall in Hle |- *.
    repeat split.
    + change (JNum (Z.of_nat (List.length (subscriptions w))
                    - Z.of_nat (List.length
                                  (filter (Prisma.subscription_where None (Some true))
                                     (subscriptions w))))
              = JNum (Z.of_nat
                        (List.length (subscriptions w)
                         - List.length
                             (filter (Prisma.subscription_where None (Some true))
                                (subscriptions w))))).
      f_equal; lia.
    + change (JNum (Z.of_nat (List.length (subscriptions w)))
              = JNum (Z.of_nat
                        (List.length
                           (filter (Prisma.subscription_where None (Some true))
                              (subscriptions w))
                         + (List.length (subscriptions w)
                            - List.length
                                (filter (Prisma.subscription_where None (Some true))
                                   (subscriptions w))))));
      f_equal; lia.
    + lia.
  - intros Hnone; rewrite Hnone; reflexivity.
Qed.

Section RetryFrame.
Context `{Platform}.

Lemma retry_outcome (env : Env) (req : Request) (w : World) :
  let (r, w') := AdminController.retryFailedDelivery env req w in
  (status r <> 200 /\ w' = w)
  \/ (status r = 200 /\ redis_up env = true /\
      exists log subscription,
        find (fun d => str_eqb (DeliveryLog.id d) (param req)) (delivery_logs w)
        = Some log
        /\ find (fun s => str_eqb (Subscription.id s) (DeliveryLog.subscription_id log))
             (subscriptions w) = Some subscription
        /\ DeliveryLog.status log <> DeliveryLog.success
        /\ Subscription.is_active subscription = true
        /\ w' = Prisma.set_queue w
                  (queue w ++ [delivery_job env (DeliveryLog.event_id log)
                                 (DeliveryLog.subscription_id log)])).
Proof.
  unfold AdminController.retryFailedDelivery, respond, bind,
    Prisma.deliveryLog_findUnique, WebhookService.queueWebhookDelivery,
    WebhookService.queue_add, try_catch, ret, throw.
  destruct (str_eqb (param req) []); [left; split; [discriminate | reflexivity]|].
  destruct (find _ (delivery_logs w)) as [log|] eqn:Hlog;
    [|left; split; [discriminate | reflexivity]].
  destruct (DeliveryLog.status log) eqn:Hst; cbn [DeliveryLog.Status_eqb];
    try (left; split; [discriminate | reflexivity]).
  all: destruct (find _ (subscriptions w)) as [subscription|] eqn:Hsub;
    [|left; split; [discriminate | reflexivity]].
  all: destruct (Subscription.is_active subscription) eqn:Hact; cbn [negb];
    [|left; split; [discriminate | reflexivity]].
  all: destruct (redis_up env) eqn:Hup;
    [|left; split; [discriminate | reflexivity]].
  all: right; split; [reflexivity|]; split; [reflexivity|].
  all: exists log, subscription; repeat split; try assumption;
    rewrite Hst; discriminate.
Qed.

End RetryFrame.

(** X22: whatever the request, POST /delivery-logs/:id/retry changes
    nothing but the queue, and the queue only by one job at its end. It
    answers 200 exactly when it has queued the job, which needs the
    queue up and the id to name a log that is not a success and whose
    subscription is active; an id that names no log is answered 404
    LOG_NOT_FOUND. *)
Theorem X22_retry_frame `{Platform} (env : Env) (req : Request) (w : World) :
  let (r, w') := AdminController.retryFailedDelivery env req w in
  events w' = events w
  /\ subscriptions w' = subscriptions w
  /\ delivery_logs w' = delivery_logs w
  /\ (status r <> 200 -> queue w' = queue w)
  /\ (status r = 200 ->
      redis_up env = true
      /\ exists log subscription,
           find (fun d => str_eqb (DeliveryLog.id d) (param req)) (delivery_logs w)
           = Some log
           /\ find (fun s => str_eqb (Subscription.id s)
                               (DeliveryLog.subscription_id log))
                (subscriptions w) = Some subscription
           /\ DeliveryLog.status log <> DeliveryLog.success
           /\ Subscription.is_active subscription = true
           /\ queue w' = queue w ++ [delivery_job env (DeliveryLog.event_id log)
                                       (DeliveryLog.subscription_id log)])
  /\ (param req <> [] ->
      find (fun d => str_eqb (DeliveryLog.id d) (param req)) (delivery_logs w) = None ->
      r = mkResponse 404 (error_body "Delivery log not found" "LOG_NOT_FOUND")).
Proof.
  pose proof (retry_outcome env req w) as Ho.
  assert (H404 : param req <> [] ->
            find (fun d => str_eqb (DeliveryLog.id d) (param req)) (delivery_logs w)
            = None ->
            fst (AdminController.retryFailedDelivery env req w)
            = mkResponse 404 (error_body "Delivery log not found" "LOG_NOT_FOUND")).
  { intros Hp Hnone.
    unfold AdminController.retryFailedDelivery, respond, bind,
      Prisma.deliveryLog_findUnique.
    rewrite (str_eqb_neq _ _ Hp), Hnone; reflexivity. }
  destruct (AdminController.retryFailedDelivery env req w) as [r w'].
  destruct Ho as [[Hr ->] | [Hr [Hup [log [sub [Hl [Hs [Hst [Ha ->]]]]]]]]].
  - repeat split; try reflexivity; try exact H404; try contradiction.
  - repeat split; try exact H404; try contradiction; try assumption.
    exists log, sub; repeat split; assumption.
Qed.

(** X23: the age label of the pages counts whole units of the age
    itself: under a minute (a date in the future included) it reads
    Just now, under an hour the whole minutes, under a day the whole
    hours, from a day on the whole days, so the two roundings down of
    the code lose nothing; a date that does not parse reads NaNd ago. *)
Theorem X23_formatTimeAgo_units (now t : Z) :
  let age := now - t in
  Pages.formatTimeAgo now (Some t)
  = (if age <? 60000 then js "Just now"
     else if age <? 3600000 then decimal (age / 60000) ++ js "m ago"
     else if age <? 86400000 then decimal (age / 3600000) ++ js "h ago"
     else decimal (age / 86400000) ++ js "d ago")
  /\ Pages.formatTimeAgo now None = js "NaNd ago".
Proof.
  intros age; split; [|reflexivity].
  unfold Pages.formatTimeAgo; fold age.
  change (1000 * 60) with 60000.
  assert (Hh : age / 60000 / 60 = age / 3600000).
  { rewrite Z.div_div by lia; reflexivity. }
  assert (Hd : age / 60000 / 60 / 24 = age / 86400000).
  { rewrite !Z.div_div by lia; reflexivity. }
  rewrite Hd, Hh.
  pose proof (Z.div_mod age 60000 ltac:(lia)) as E1.
  pose proof (Z.mod_pos_bound age 60000 ltac:(lia)) as B1.
  pose proof (Z.div_mod age 3600000 ltac:(lia)) as E2.
  pose proof (Z.mod_pos_bound age 3600000 ltac:(lia)) as B2.
  destruct (age / 60000 <? 1) eqn:T1; [apply Z.ltb_lt in T1 | apply Z.ltb_ge in T1].
  { destruct (age <? 60000) eqn:T; [reflexivity | apply Z.ltb_ge in T; lia]. }
  destruct (age <? 60000) eqn:T; [apply Z.ltb_lt in T; lia | clear T].
  destruct (age / 60000 <? 60) eqn:T2; [apply Z.ltb_lt in T2 | apply Z.ltb_ge in T2].
  { destruct (age <? 3600000) eqn:T; [reflexivity | apply Z.ltb_ge in T; lia]. }
  destruct (age <? 3600000) eqn:T; [apply Z.ltb_lt in T; lia | clear T].
  destruct (age / 3600000 <? 24) eqn:T3; [apply Z.ltb_lt in T3 | apply Z.ltb_ge in T3].
  { destruct (age <? 86400000) eqn:T; [reflexivity | apply Z.ltb_ge in T; lia]. }
  destruct (age <? 86400000) eqn:T; [apply Z.ltb_lt in T; lia | reflexivity].
Qed.

(* ===================================================================== *)
(** ** The further properties on the sample runs *)
(* ===================================================================== *)

Section SampleRuns.
#[local] Existing Instance Sample.platform.

Lemma X2_wrong_length_signature_throws_witness :
  List.length (from_hex (js "abcd")) <> List.length (hmac_sha256 (js "key") (js "{}"))
  /\ SecurityUtils.verifyHmacSignature (js "{}") (js "abcd") (js "key")
     = Throw (Error (js "Input buffers must have the same byte length")).
Proof.
  split; [vm_compute; discriminate|].
  apply X2_wrong_length_signature_throws; vm_compute; discriminate.
Defined.

Lemma X3_trailing_text_is_ignored_witness :
  from_hex (js "zz") = []
  /\ SecurityUtils.verifyHmacSignature (js "{}")
       (SecurityUtils.generateHmacSignature (js "{}") (js "key") ++ js "zz") (js "key")
     = Ok true.
Proof.
  split; [reflexivity|].
  apply X3_trailing_text_is_ignored; reflexivity.
Defined.

Lemma X7_first_sighting_witness :
  exists r w',
    EventController.processEvent Sample.clock
      (Sample.post_event "k1" "user.created" (obj [ ("x", JNum 1) ])) Sample.subscribed
    = (EventController.Done r, w')
    /\ status r = 202
    /\ events w'
       = [ Event.mk (js "id-1") (js "k1") (js "user.created") (obj [ ("x", JNum 1) ])
             1000 ].
Proof.
  destruct (X7_first_sighting Sample.clock
              (Sample.post_event "k1" "user.created" (obj [ ("x", JNum 1) ]))
              Sample.subscribed (js "k1") (js "user.created"))
    as [r [w' [Hrun [Hacc [Hev _]]]]].
  - repeat split; discriminate.
  - reflexivity.
  - reflexivity.
  - exists r, w'; split; [exact Hrun|]; split; [apply Hacc | exact Hev].
Defined.

Lemma X10_accepted_reply_row_witness :
  exists v w' row,
    WebhookWorker.processWebhookDelivery Sample.always_200 (Sample.at_time 9)
      (js "id-1") (js "id-0") Sample.posted = (Ok v, w')
    /\ delivery_logs w' = delivery_logs Sample.posted ++ [row]
    /\ DeliveryLog.status row = DeliveryLog.success
    /\ DeliveryLog.response_status_code row = Some 200.
Proof.
  destruct (X10_accepted_reply_row Sample.always_200 (Sample.at_time 9)
              (js "id-1") (js "id-0") Sample.posted
              (Event.mk (js "id-1") (js "k1") (js "user.created")
                 (obj [ ("x", JNum 1) ]) 1000)
              (Subscription.mk (js "id-0") (js "user.created") (js "http://sink/ok")
                 (hex (repeat 171 32)) true 5 5)
              _ (js "{" ++ quote (js "ok") ++ js ":true}") 200
              (obj [ ("ok", JBool true) ])
              eq_refl eq_refl eq_refl eq_refl eq_refl eq_refl ltac:(lia) eq_refl)
    as [v [w' [row [Hrun [_ [_ [Hlogs [_ [_ [Hst [Hcode _]]]]]]]]]]].
  exists v, w', row; repeat split; assumption.
Defined.

Lemma X11_rejected_reply_row_witness :
  exists e w' row,
    WebhookWorker.processWebhookDelivery Sample.always_500 (Sample.at_time 9)
      (js "id-1") (js "id-0") Sample.posted = (Throw e, w')
    /\ delivery_logs w' = delivery_logs Sample.posted ++ [row]
    /\ DeliveryLog.status row = DeliveryLog.failed
    /\ DeliveryLog.response_status_code row = Some 500
    /\ DeliveryLog.error_message row = Some (js "Request failed with status code 500").
Proof.
  destruct (X11_rejected_reply_row Sample.always_500 (Sample.at_time 9)
              (js "id-1") (js "id-0") Sample.posted
              (Event.mk (js "id-1") (js "k1") (js "user.created")
                 (obj [ ("x", JNum 1) ]) 1000)
              (Subscription.mk (js "id-0") (js "user.created") (js "http://sink/ok")
                 (hex (repeat 171 32)) true 5 5)
              _ 500 (obj [ ("error", JStr "boom") ])
              eq_refl eq_refl eq_refl eq_refl eq_refl eq_refl ltac:(lia))
    as [w' [row [Hrun [Hlogs [_ [_ [Hst [Hcode [_ Hmsg]]]]]]]]].
  eexists; exists w', row; repeat split; eassumption.
Defined.

Lemma X12_success_rows_carry_2xx_witness :
  Forall success_has_2xx (delivery_logs Sample.posted)
  /\ Forall success_has_2xx
       (delivery_logs
          (snd (WebhookWorker.run_job Sample.always_200 WebhookWorker.the_class
                  Sample.clock Sample.delivery Sample.posted)))
  /\ Forall success_has_2xx
       (delivery_logs
          (snd (WebhookWorker.processWebhookDelivery Sample.always_200
                  (Sample.clock 0) (js "id-1") (js "id-0") Sample.posted))).
Proof.
  assert (Hnone : Forall success_has_2xx (delivery_logs Sample.posted))
    by (vm_compute; constructor).
  split; [exact Hnone|].
  destruct (X12_success_rows_carry_2xx Sample.always_200 Sample.clock Sample.delivery
              Sample.posted Hnone) as [Hjob Hcall].
  split; [apply Hjob | apply Hcall].
Defined.

Lemma X13_detached_processor_fails_witness :
  WebhookWorker.another_object <> WebhookWorker.the_class
  /\ WebhookWorker.run_job Sample.always_200 WebhookWorker.another_object
       Sample.clock Sample.delivery Sample.posted
     = (WebhookWorker.permanently_failed
          (Error (js "this.processWebhookDelivery is not a function")),
        Sample.posted).
Proof.
  split; [discriminate|].
  exact (proj1 (X13_detached_processor_fails Sample.always_200
                  WebhookWorker.another_object Sample.clock Sample.delivery
                  Sample.posted ltac:(discriminate))).
Defined.

Lemma X14_attempt_adds_one_row_witness :
  exists v w',
    WebhookWorker.processWebhookDelivery Sample.always_200 (Sample.clock 0)
      (js "id-1") (js "id-0") Sample.posted = (Ok v, w')
    /\ List.length (delivery_logs w') = 1%nat
    /\ queue w' = queue Sample.posted.
Proof.
  destruct (X14_attempt_adds_one_row Sample.always_200 (Sample.clock 0)
              (js "id-1") (js "id-0") Sample.posted
              (Event.mk (js "id-1") (js "k1") (js "user.created")
                 (obj [ ("x", JNum 1) ]) 1000)
              (Subscription.mk (js "id-0") (js "user.created") (js "http://sink/ok")
                 (hex (repeat 171 32)) true 5 5)
              eq_refl eq_refl eq_refl)
    as [B [r [w' [HB [Hrun [_ [_ [Hq [Hlen Hok]]]]]]]]].
  injection HB as <-.
  destruct (proj2 Hok eq_refl) as [v ->].
  exists v, w'; split; [exact Hrun|]; split; [exact Hlen | exact Hq].
Defined.

Lemma X15_event_lookup_witness :
  let req := mkRequest None (js "id-1") JUndefined in
  exists logs,
    status (fst (EventController.getEventById req Sample.exhausted)) = 200
    /\ snd (EventController.getEventById req Sample.exhausted) = Sample.exhausted
    /\ Permutation logs (delivery_logs Sample.exhausted)
    /\ StronglySorted
         (fun a b => DeliveryLog.attempted_at b <= DeliveryLog.attempted_at a) logs.
Proof.
  intros req.
  pose proof (X15_event_lookup req Sample.exhausted ltac:(discriminate)) as Hx.
  assert (Hf : find (fun e => str_eqb (Event.id e) (param req)) (events Sample.exhausted)
               = Some (Event.mk (js "id-1") (js "k1") (js "user.created")
                         (obj [ ("x", JNum 1) ]) 1000)) by reflexivity.
  rewrite Hf in Hx; destruct Hx as [logs [Hrun [Hperm Hsorted]]].
  exists logs; rewrite Hrun; split; [reflexivity|]; split; [reflexivity|].
  split; [exact Hperm | exact Hsorted].
Defined.

Lemma X16_issued_secret_witness :
  status (fst (AdminController.createSubscription (Sample.at_time 5)
                 (Sample.subscribe "user.created" "http://sink/ok") Sample.empty)) = 201
  /\ exists s,
       subscriptions Sample.subscribed = [s]
       /\ str_length (Subscription.secret_key s) = 64
       /\ from_hex (Subscription.secret_key s) = repeat 171 32.
Proof.
  assert (Hst : status (fst (AdminController.createSubscription (Sample.at_time 5)
                               (Sample.subscribe "user.created" "http://sink/ok")
                               Sample.empty)) = 201) by reflexivity.
  split; [exact Hst|].
  destruct (X16_issued_secret (Sample.at_time 5)
              (Sample.subscribe "user.created" "http://sink/ok") Sample.empty Hst)
    as [s [key [Hrows [Hkey [_ [Hlen [_ [Hbytes _]]]]]]]].
  exists s; rewrite Hkey; split; [exact Hrows|]; split; [exact Hlen | exact Hbytes].
Defined.

Lemma X18_update_applies_given_fields_witness :
  let req := Sample.patch "id-0" [ ("isActive", JBool false) ] in
  status (fst (AdminController.updateSubscription (Sample.at_time 6) req Sample.posted))
  = 200
  /\ exists s',
       find (fun x => str_eqb (Subscription.id x) (js "id-0"))
         (subscriptions Sample.deactivated) = Some s'
       /\ Subscription.is_active s' = false
       /\ Subscription.target_url s' = js "http://sink/ok"
       /\ Subscription.updated_at s' = 6.
Proof.
  intros req.
  assert (Hst : status (fst (AdminController.updateSubscription (Sample.at_time 6) req
                               Sample.posted)) = 200) by reflexivity.
  split; [exact Hst|].
  destruct (X18_update_applies_given_fields (Sample.at_time 6) req Sample.posted Hst)
    as [s [s' [Hs [Hs' [Hup [_ [Hurl [Hact _]]]]]]]].
  assert (Hrow : s = Subscription.mk (js "id-0") (js "user.created")
                       (js "http://sink/ok") (hex (repeat 171 32)) true 5 5).
  { vm_compute in Hs; injection Hs as <-; reflexivity. }
  exists s'; split; [exact Hs'|].
  rewrite Hrow in Hurl; split; [exact Hact|]; split; [exact Hurl | exact Hup].
Defined.

Lemma X19_delete_subscription_witness :
  let req := mkRequest None (js "id-0") JUndefined in
  status (fst (AdminController.deleteSubscription (Sample.at_time 7) req Sample.posted))
  = 200
  /\ subscriptions
       (snd (AdminController.deleteSubscription (Sample.at_time 7) req Sample.posted))
     = []
  /\ status
       (fst (AdminController.deleteSubscription (Sample.at_time 8) req
               (snd (AdminController.deleteSubscription (Sample.at_time 7) req
                       Sample.posted))))
     = 404.
Proof.
  intros req.
  pose proof (X19_delete_subscription (Sample.at_time 7) (Sample.at_time 8) req
                Sample.posted ltac:(discriminate) ltac:(constructor)) as Hx.
  cbv zeta in Hx.
  destruct (AdminController.deleteSubscription (Sample.at_time 7) req Sample.posted)
    as [r w'].
  assert (He : existsb (fun s => str_eqb (Subscription.id s) (param req))
                 (subscriptions Sample.posted) = true) by reflexivity.
  rewrite He in Hx; destruct Hx as [Hst [Hw Hagain]].
  cbn [fst snd]; rewrite Hagain; split; [exact Hst|]; split; [|reflexivity].
  rewrite Hw; reflexivity.
Defined.

End SampleRuns.
